(** * Financial policy chatbot: a shallow embedding of [chatbot_fixed.py]

    The development follows the Python module class by class:
    [DocumentProcessor] (pattern based extraction, section typing, chunk
    records), [VectorDatabase] (bulk insert and top-k search),
    [ConversationMemory] (bounded history, topic inference, question
    rewriting) and [FinancialChatbot] (initialisation, the [ask] pipeline
    and the response templates).

    Conventions of the embedding.
    - A Python [str] is a [string] holding its UTF-8 bytes.  [len] counts
      code points, i.e. the bytes that are not continuation bytes.
      [str.lower], the classes [\d], [\b] and [re.IGNORECASE] act on the
      ASCII range; bytes above 127 are left alone and are neither digits
      nor word characters.
    - A Python [float] (a distance, a score) is a rational number; rounding
      is not modelled.
    - An exception of class [Exception] is the left summand of [Exc],
      carrying [str(e)].  Statements that mutate [self] thread the object
      explicitly; the monad [M] keeps the state reached when an exception
      is raised, as Python does.
    - The collaborators outside the module are variables of the section
      [Chatbot]: the sentence encoder, the distance of the vector store,
      the text splitter, the file system and the iteration order of a
      Python [set].  [print] calls are dropped.
    - The command-line [main] is modelled in [Cli] as a function of the
      lines typed by the user; there the prompts and the prints of [main]
      itself are recorded, and the [EOFError] of [input] is an outcome of
      its own.  [stream_response] of [streamlit_app_professional.py] is
      modelled in [StreamlitApp]: the display is the list of the texts
      handed to the container, the pauses are left out. *)

From Stdlib Require Import String Ascii List Bool Arith Lia QArith Sorted.
From Stdlib Require Import DecimalString DecimalNat.
Import ListNotations.

Open Scope list_scope.
Open Scope nat_scope.
Open Scope string_scope.

(** ** Python string operations *)

Module Py.

Definition nl : string := String (ascii_of_nat 10) "".

Definition code (c : ascii) : nat := nat_of_ascii c.

Definition between (lo hi : nat) (c : ascii) : bool :=
  Nat.leb lo (code c) && Nat.leb (code c) hi.

(** the ASCII letters and digits.  Python's [str.lower], [\d], [\w] and the
    case folding of [re.IGNORECASE] also act on characters beyond ASCII (the
    other decimal digits of Unicode, the long s, the Kelvin sign, the dotted
    capital I); on a text of ASCII characters they are the functions below,
    and statements about the shape of what a pattern matches are made for
    such texts. *)
Definition is_upper (c : ascii) : bool := between 65 90 c.
Definition is_lower (c : ascii) : bool := between 97 122 c.
Definition is_digit (c : ascii) : bool := between 48 57 c.

(** [\w] *)
Definition is_word (c : ascii) : bool :=
  is_upper c || is_lower c || is_digit c || Nat.eqb (code c) 95.

(** the characters removed by [str.strip()] and separating [str.split()] *)
Definition is_space (c : ascii) : bool :=
  between 9 13 c || between 28 32 c.

Definition lower_char (c : ascii) : ascii :=
  if is_upper c then ascii_of_nat (code c + 32) else c.

(** [s.lower()] *)
Fixpoint lower (s : string) : string :=
  match s with
  | "" => ""
  | String c s' => String (lower_char c) (lower s')
  end.

(** [needle in hay] *)
Fixpoint contains (needle hay : string) : bool :=
  prefix needle hay ||
  match hay with
  | "" => false
  | String _ hay' => contains needle hay'
  end.

(** [any(f(x) for x in xs)] *)
Definition any {A : Type} (f : A -> bool) (xs : list A) : bool := existsb f xs.

(** [s.replace(a, b)] for one-character [a] and [b] *)
Fixpoint replace_char (a b : ascii) (s : string) : string :=
  match s with
  | "" => ""
  | String c s' => String (if Ascii.eqb c a then b else c) (replace_char a b s')
  end.

(** [sep.join(xs)] *)
Definition join (sep : string) (xs : list string) : string := String.concat sep xs.

(** [len(s)]: code points of the UTF-8 text *)
Fixpoint len (s : string) : nat :=
  match s with
  | "" => 0
  | String c s' => (if between 128 191 c then 0 else 1) + len s'
  end.

Fixpoint lstrip (s : string) : string :=
  match s with
  | "" => ""
  | String c s' => if is_space c then lstrip s' else s
  end.

Fixpoint rstrip (s : string) : string :=
  match s with
  | "" => ""
  | String c s' =>
      let r := rstrip s' in
      if is_space c && (r =? "") then "" else String c r
  end.

(** [s.strip()] *)
Definition strip (s : string) : string := rstrip (lstrip s).

(** [s.split(sep)] for a non-empty [sep]; [skip] counts the characters of
    a separator that are still to be passed over. *)
Fixpoint split_from (sep : string) (skip : nat) (s : string) : list string :=
  match s with
  | "" => [""]
  | String c s' =>
      match skip with
      | S n => split_from sep n s'
      | O =>
          if prefix sep s then "" :: split_from sep (String.length sep - 1) s'
          else match split_from sep 0 s' with
               | piece :: pieces => String c piece :: pieces
               | [] => [String c ""]
               end
      end
  end.

Definition split (sep s : string) : list string := split_from sep 0 s.

(** [len(s.split())]: the number of maximal runs of non-space characters *)
Fixpoint count_words_from (in_word : bool) (s : string) : nat :=
  match s with
  | "" => 0
  | String c s' =>
      if is_space c then count_words_from false s'
      else (if in_word then 0 else 1) + count_words_from true s'
  end.

Definition count_words (s : string) : nat := count_words_from false s.

(** [str(n)] *)
Definition str_of_nat (n : nat) : string := NilEmpty.string_of_uint (Nat.to_uint n).

(** [s[:n]] *)
Fixpoint take (n : nat) (s : string) : string :=
  match n, s with
  | S n', String c s' => String c (take n' s')
  | _, _ => ""
  end.

(** [xs[-n:]] *)
Definition last_n {A : Type} (n : nat) (xs : list A) : list A :=
  skipn (List.length xs - n) xs.

(** [max(xs, key=key)]: the first element whose key is maximal; [None]
    stands for the [ValueError] raised on an empty sequence. *)
Fixpoint max_from {A : Type} (key : A -> nat) (best : A) (xs : list A) : A :=
  match xs with
  | [] => best
  | x :: xs' => max_from key (if Nat.ltb (key best) (key x) then x else best) xs'
  end.

Definition max_by {A : Type} (key : A -> nat) (xs : list A) : option A :=
  match xs with
  | [] => None
  | x :: xs' => Some (max_from key x xs')
  end.

(** [d.get(k)] and [d[k] = v] on a dict kept in insertion order *)
Fixpoint dict_get {V : Type} (d : list (string * V)) (k : string) : option V :=
  match d with
  | [] => None
  | (k', v) :: d' => if k' =? k then Some v else dict_get d' k
  end.

Fixpoint dict_set {V : Type} (d : list (string * V)) (k : string) (v : V)
  : list (string * V) :=
  match d with
  | [] => [(k, v)]
  | (k', v') :: d' => if k' =? k then (k', v) :: d' else (k', v') :: dict_set d' k v
  end.

Definition dict_keys {V : Type} (d : list (string * V)) : list string := map fst d.

(** [c.upper()] on one character *)
Definition upper_char (c : ascii) : ascii :=
  if is_lower c then ascii_of_nat (code c - 32) else c.

(** the cased characters *)
Definition is_alpha (c : ascii) : bool := is_upper c || is_lower c.

(** [s.title()]: a cased character is upper-cased after an uncased one and
    lower-cased after a cased one *)
Fixpoint title_from (previous_is_cased : bool) (s : string) : string :=
  match s with
  | "" => ""
  | String c s' =>
      String (if is_alpha c
              then if previous_is_cased then lower_char c else upper_char c
              else c)
        (title_from (is_alpha c) s')
  end.

Definition title (s : string) : string := title_from false s.

(** [s.endswith(suffix)] *)
Fixpoint endswith (suffix s : string) : bool :=
  (s =? suffix) ||
  match s with
  | "" => false
  | String _ s' => endswith suffix s'
  end.

(** [s * n] *)
Fixpoint repeat_string (s : string) (n : nat) : string :=
  match n with
  | O => ""
  | S n' => s ++ repeat_string s n'
  end.

End Py.

(** ** The fragment of [re] used by the extractor

    Patterns are matched as CPython does: leftmost, greedy, backtracking.
    The continuation receives the character before the current position
    (for [\b]), the number of characters consumed and the rest of the
    text. *)

Module Re.
Import Py.

Inductive regex : Type :=
| Eps : regex
| Chr : (ascii -> bool) -> regex          (* one character of a class *)
| Cat : regex -> regex -> regex
| Alt : regex -> regex -> regex           (* r1|r2 *)
| Opt : regex -> regex                    (* r? *)
| Star : (ascii -> bool) -> regex         (* [class]* *)
| Bnd : regex.                            (* \b *)

Definition cont : Type := option ascii -> nat -> string -> option nat.

Definition word_before (prev : option ascii) : bool :=
  match prev with Some c => is_word c | None => false end.

Definition word_after (s : string) : bool :=
  match s with String c _ => is_word c | "" => false end.

Fixpoint star (p : ascii -> bool) (prev : option ascii) (n : nat) (s : string)
  (k : cont) : option nat :=
  match s with
  | String c s' =>
      if p c then
        match star p (Some c) (S n) s' k with
        | Some m => Some m
        | None => k prev n s
        end
      else k prev n s
  | "" => k prev n s
  end.

Fixpoint rmatch (r : regex) (prev : option ascii) (n : nat) (s : string)
  (k : cont) : option nat :=
  match r with
  | Eps => k prev n s
  | Chr p =>
      match s with
      | String c s' => if p c then k (Some c) (S n) s' else None
      | "" => None
      end
  | Cat r1 r2 => rmatch r1 prev n s (fun prev' n' s' => rmatch r2 prev' n' s' k)
  | Alt r1 r2 =>
      match rmatch r1 prev n s k with
      | Some m => Some m
      | None => rmatch r2 prev n s k
      end
  | Opt r1 =>
      match rmatch r1 prev n s k with
      | Some m => Some m
      | None => k prev n s
      end
  | Star p => star p prev n s k
  | Bnd => if xorb (word_before prev) (word_after s) then k prev n s else None
  end.

Definition accept : cont := fun _ n _ => Some n.

(** length of the match of [r] that starts at the head of [s] *)
Definition match_here (r : regex) (prev : option ascii) (s : string) : option nat :=
  rmatch r prev 0 s accept.

(** [re.findall(r, s)] for a pattern that cannot match the empty string
    (every pattern below starts with a mandatory character); [skip] counts
    the characters of the last match that are still to be passed over. *)
Fixpoint findall_from (r : regex) (prev : option ascii) (skip : nat) (s : string)
  : list string :=
  match s with
  | "" => []
  | String c s' =>
      match skip with
      | S n => findall_from r (Some c) n s'
      | O =>
          match match_here r prev s with
          | Some (S n) => take (S n) s :: findall_from r (Some c) n s'
          | _ => findall_from r (Some c) 0 s'
          end
      end
  end.

Definition findall (r : regex) (s : string) : list string :=
  findall_from r None 0 s.

(** pattern builders *)
Definition chr (c : ascii) : regex := Chr (Ascii.eqb c).

(** a literal character under [re.IGNORECASE]: the two ASCII cases of the
    letter, which are all its matches in a text of ASCII characters *)
Definition chr_i (c : ascii) : regex :=
  Chr (fun x => Ascii.eqb (lower_char x) (lower_char c)).

Fixpoint lit (s : string) : regex :=
  match s with
  | "" => Eps
  | String c s' => Cat (chr c) (lit s')
  end.

Fixpoint lit_i (s : string) : regex :=
  match s with
  | "" => Eps
  | String c s' => Cat (chr_i c) (lit_i s')
  end.

(** [(?:w1|w2|...)] under [re.IGNORECASE]; the list is not empty *)
Fixpoint alt_i (ws : list string) : regex :=
  match ws with
  | [] => Chr (fun _ => false)
  | [w] => lit_i w
  | w :: ws' => Alt (lit_i w) (alt_i ws')
  end.

Definition plus (p : ascii -> bool) : regex := Cat (Chr p) (Star p).

Definition digit : regex := Chr is_digit.

(** the characters a match of [r] can contain, and its least length *)
Fixpoint alphabet (r : regex) (c : ascii) : bool :=
  match r with
  | Eps | Bnd => false
  | Chr p | Star p => p c
  | Cat r1 r2 | Alt r1 r2 => alphabet r1 c || alphabet r2 c
  | Opt r1 => alphabet r1 c
  end.

(** every character of [s] belongs to the class [p] *)
Fixpoint all_in (p : ascii -> bool) (s : string) : bool :=
  match s with
  | "" => true
  | String c s' => p c && all_in p s'
  end.

Fixpoint min_len (r : regex) : nat :=
  match r with
  | Eps | Bnd | Star _ | Opt _ => 0
  | Chr _ => 1
  | Cat r1 r2 => min_len r1 + min_len r2
  | Alt r1 r2 => Nat.min (min_len r1) (min_len r2)
  end.

End Re.


(** ** Exceptions *)

Module Exn.

(** The exception classes that occur: [FileNotFoundError], [IndexError]
    and plain [Exception]; each carries its message. *)
Inductive exn : Type :=
| FileNotFoundError (msg : string)
| IndexError (msg : string)
| Exception (msg : string).

(** [str(e)] *)
Definition str (e : exn) : string :=
  match e with
  | FileNotFoundError msg | IndexError msg | Exception msg => msg
  end.

(** A computation that returns or raises. *)
Definition Exc (A : Type) : Type := (exn + A)%type.

Definition ret {A : Type} (a : A) : Exc A := inr a.
Definition raise {A : Type} (e : exn) : Exc A := inl e.

Definition bind {A B : Type} (c : Exc A) (f : A -> Exc B) : Exc B :=
  match c with
  | inl e => inl e
  | inr a => f a
  end.

(** [xs[i]] *)
Definition index {A : Type} (xs : list A) (i : nat) : Exc A :=
  match nth_error xs i with
  | Some x => ret x
  | None => raise (IndexError "list index out of range")
  end.

(** a [for] loop that builds a list and stops at the first exception *)
Fixpoint for_each {A B : Type} (f : A -> Exc B) (xs : list A) : Exc (list B) :=
  match xs with
  | [] => ret []
  | x :: xs' =>
      bind (f x) (fun y => bind (for_each f xs') (fun ys => ret (y :: ys)))
  end.

End Exn.

Declare Scope exc_scope.
Delimit Scope exc_scope with exc.
Notation "x <- c ;; k" := (Exn.bind c (fun x => k))
  (at level 61, c at next level, right associativity) : exc_scope.

(** ** DocumentProcessor *)

Module DocumentProcessor.
Import Py Re Exn.

Local Infix "+>" := Cat (at level 60, right associativity).

(** [{'dollar_amounts': ..., 'percentages': ..., 'years': ..., 'keywords': ...}] *)
Record FinancialData : Type := {
  dollar_amounts : list string;
  percentages : list string;
  years : list string;
  keywords : list string
}.

Record ChunkMetadata : Type := {
  chunk_index : nat;
  word_count : nat;
  has_financial_data : bool
}.

Record Chunk : Type := {
  id : string;
  content : string;
  section_type : string;
  financial_data : FinancialData;
  metadata : ChunkMetadata
}.

(** the arguments given to [RecursiveCharacterTextSplitter] *)
Record TextSplitter : Type := {
  chunk_size : nat;
  chunk_overlap : nat;
  separators : list string
}.

Record t : Type := {
  document_path : string;
  text_splitter : TextSplitter
}.

(** [__init__] *)
Definition new (path : string) : t :=
  {| document_path := path;
     text_splitter :=
       {| chunk_size := 1000;
          chunk_overlap := 200;
          separators := [nl ++ nl; nl; ". "; " "; ""] |} |}.

(** [\$[\d,]+\.?\d*[mM]?] *)
Definition dollar_pattern : regex :=
  chr "$" +> plus (fun c => is_digit c || Ascii.eqb c ",") +> Opt (chr ".")
  +> Star is_digit +> Opt (Chr (fun c => Ascii.eqb c "m" || Ascii.eqb c "M")).

(** [\d+\.?\d*%] *)
Definition percent_pattern : regex :=
  plus is_digit +> Opt (chr ".") +> Star is_digit +> chr "%".

(** [\b20\d{2}(?:-\d{2})?\b] *)
Definition year_pattern : regex :=
  Bnd +> lit "20" +> digit +> digit +> Opt (chr "-" +> digit +> digit) +> Bnd.

(** [\b(?:w1|w2|w3)\b], compiled with [re.IGNORECASE] *)
Definition keyword_pattern (ws : list string) : regex :=
  Bnd +> alt_i ws +> Bnd.

Definition keyword_patterns : list regex :=
  [ keyword_pattern ["budget"; "surplus"; "deficit"];
    keyword_pattern ["debt"; "borrowing"; "interest"];
    keyword_pattern ["infrastructure"; "capital"; "construction"];
    keyword_pattern ["taxation"; "revenue"; "GSP"];
    keyword_pattern ["superannuation"; "pension"; "funding"] ].

Section Collaborators.

(** the order in which [list(set(xs))] enumerates the distinct members of [xs] *)
Variable set_order : list string -> list string.

(** [RecursiveCharacterTextSplitter.split_text] *)
Variable split_text : TextSplitter -> string -> list string.

(** [open(path, 'r', encoding='utf-8').read()] *)
Variable read_file : string -> Exc string.

Definition extract_financial_data (text : string) : FinancialData :=
  let dollar_amounts := findall dollar_pattern text in
  let percentages := findall percent_pattern text in
  let years := findall year_pattern text in
  let keywords :=
    fold_left (fun keywords pattern => keywords ++ findall pattern text)%list
      keyword_patterns [] in
  {| dollar_amounts := dollar_amounts;
     percentages := percentages;
     years := years;
     keywords := set_order keywords |}.

Definition _identify_section_type (text : string) : string :=
  let text_lower := lower text in
  let mentions := any (fun word => contains word text_lower) in
  if mentions ["budget"; "surplus"; "deficit"; "operating result"] then "budget"
  else if mentions ["debt"; "borrowing"; "interest cost"] then "debt"
  else if mentions ["infrastructure"; "capital"; "construction"] then "infrastructure"
  else if mentions ["taxation"; "tax burden"; "gsp"] then "taxation"
  else if mentions ["superannuation"; "pension"; "funding"] then "superannuation"
  else if mentions ["risk"; "assessment"; "mitigation"] then "risk"
  else "general".

Definition is_empty {A : Type} (xs : list A) : bool :=
  match xs with [] => true | _ => false end.

(** the body of the loop over [enumerate(chunks)] *)
Definition process_chunk (i : nat) (chunk : string) : Chunk :=
  let financial_data := extract_financial_data chunk in
  let section_type := _identify_section_type chunk in
  {| id := "chunk_" ++ str_of_nat i;
     content := chunk;
     section_type := section_type;
     financial_data := financial_data;
     metadata :=
       {| chunk_index := i;
          word_count := count_words chunk;
          has_financial_data :=
            negb (is_empty (dollar_amounts financial_data))
            || negb (is_empty (percentages financial_data)) |} |}.

Fixpoint process_chunks (i : nat) (chunks : list string) : list Chunk :=
  match chunks with
  | [] => []
  | chunk :: chunks' => process_chunk i chunk :: process_chunks (S i) chunks'
  end.

Definition process_document (self : t) : Exc (list Chunk) :=
  match read_file (document_path self) with
  | inr content =>
      let chunks := split_text (text_splitter self) content in
      ret (process_chunks 0 chunks)
  | inl (FileNotFoundError _) =>
      raise (FileNotFoundError ("Document not found: " ++ document_path self))
  | inl e =>
      raise (Exception ("Error processing document: " ++ str e))
  end.

End Collaborators.

End DocumentProcessor.


(** ** VectorDatabase *)

Module VectorDatabase.
Import Py Exn.
Local Open Scope exc_scope.

(** the metadata stored with every vector *)
Record Metadata : Type := {
  section_type : string;
  chunk_index : nat;
  word_count : nat;
  has_financial_data : bool;
  keywords : string
}.

(** one formatted result of [search] *)
Record SearchResult : Type := {
  content : string;
  metadata : Metadata;
  score : Q
}.

(** the dictionary returned by [get_collection_info] *)
Record CollectionInfo : Type := {
  name : string;
  document_count : nat;
  model : string
}.

(** the value of [collection.query(...)]: one inner list per query embedding *)
Record QueryResult : Type := {
  documents : list (list string);
  metadatas : list (list Metadata);
  distances : list (list Q)
}.

Section Store.

(** the vectors produced by the sentence encoder *)
Context {Embedding : Type}.

(** [self.model.encode(text).tolist()] *)
Variable encode : string -> Exc Embedding.

(** the distance the store computes between two embeddings *)
Variable distance : Embedding -> Embedding -> Q.

Record Entry : Type := {
  entry_id : string;
  entry_embedding : Embedding;
  entry_metadata : Metadata;
  entry_document : string
}.

(** Modelled from the spec: the persistent collection of the vector store
    (the chromadb engine is not part of the sources).  A collection is the
    sequence of stored tuples [(id, embedding, metadata, content)]. *)
Definition Collection : Type := list Entry.

(** Modelled from the spec: [collection.count()], the number of stored tuples. *)
Definition collection_count (c : Collection) : nat := List.length c.

Fixpoint zip_entries (ids : list string) (embeddings : list Embedding)
  (metadatas : list Metadata) (documents : list string) : list Entry :=
  match ids, embeddings, metadatas, documents with
  | i :: ids', e :: embeddings', m :: metadatas', d :: documents' =>
      {| entry_id := i; entry_embedding := e; entry_metadata := m; entry_document := d |}
      :: zip_entries ids' embeddings' metadatas' documents'
  | _, _, _, _ => []
  end.

(** Modelled from the spec: [collection.add(embeddings, metadatas, documents,
    ids)] inserts one tuple per position of the four parallel lists. *)
Definition collection_add (c : Collection) (embeddings : list Embedding)
  (metadatas : list Metadata) (documents : list string) (ids : list string)
  : Collection :=
  (c ++ zip_entries ids embeddings metadatas documents)%list.

(** insertion of a scored tuple into a sequence kept by ascending distance *)
Fixpoint insert_nearest (x : Entry * Q) (l : list (Entry * Q)) : list (Entry * Q) :=
  match l with
  | [] => [x]
  | y :: l' =>
      if Qle_bool (snd x) (snd y) then x :: y :: l'
      else y :: insert_nearest x l'
  end.

Definition sort_nearest (l : list (Entry * Q)) : list (Entry * Q) :=
  fold_right insert_nearest [] l.

(** Modelled from the spec: the k-nearest-neighbour query of the store: the
    [k] stored tuples closest to the query embedding, nearest first, each
    with its distance. *)
Definition nearest (c : Collection) (q : Embedding) (k : nat) : list (Entry * Q) :=
  firstn k (sort_nearest (map (fun e => (e, distance q (entry_embedding e))) c)).

(** Modelled from the spec: [collection.query(query_embeddings, n_results,
    include=['documents', 'metadatas', 'distances'])]. *)
Definition collection_query (c : Collection) (query_embeddings : list Embedding)
  (n_results : nat) : QueryResult :=
  {| documents :=
       map (fun q => map (fun r => entry_document (fst r)) (nearest c q n_results))
         query_embeddings;
     metadatas :=
       map (fun q => map (fun r => entry_metadata (fst r)) (nearest c q n_results))
         query_embeddings;
     distances :=
       map (fun q => map snd (nearest c q n_results)) query_embeddings |}.

Record t : Type := {
  collection_name : string;
  collection : Collection
}.

(** [__init__]: [stored] is the collection of that name found in the
    persistent store, empty when it had to be created. *)
Definition new (stored : Collection) : t :=
  {| collection_name := "financial_policy"; collection := stored |}.

(** the four lists filled by the loop of [add_documents] *)
Record Batch : Type := {
  ids : list string;
  embeddings : list Embedding;
  batch_metadatas : list Metadata;
  documents_content : list string
}.

Fixpoint prepare (documents : list DocumentProcessor.Chunk) (b : Batch) : Exc Batch :=
  match documents with
  | [] => ret b
  | doc :: documents' =>
      embedding <- encode (DocumentProcessor.content doc) ;;
      let metadata :=
        {| section_type := DocumentProcessor.section_type doc;
           chunk_index := DocumentProcessor.chunk_index (DocumentProcessor.metadata doc);
           word_count := DocumentProcessor.word_count (DocumentProcessor.metadata doc);
           has_financial_data :=
             DocumentProcessor.has_financial_data (DocumentProcessor.metadata doc);
           keywords :=
             join "," (firstn 5 (DocumentProcessor.keywords
                                   (DocumentProcessor.financial_data doc))) |} in
      prepare documents'
        {| ids := (ids b ++ [DocumentProcessor.id doc])%list;
           embeddings := (embeddings b ++ [embedding])%list;
           batch_metadatas := (batch_metadatas b ++ [metadata])%list;
           documents_content :=
             (documents_content b ++ [DocumentProcessor.content doc])%list |}
  end.

(** returns the updated object; when an encoding raises nothing was stored *)
Definition add_documents (self : t) (documents : list DocumentProcessor.Chunk) : Exc t :=
  b <- prepare documents
         {| ids := []; embeddings := []; batch_metadatas := []; documents_content := [] |} ;;
  ret {| collection_name := collection_name self;
         collection :=
           collection_add (collection self) (embeddings b) (batch_metadatas b)
             (documents_content b) (ids b) |}.

Definition search (self : t) (query : string) (n_results : nat) : Exc (list SearchResult) :=
  query_embedding <- encode query ;;
  let results := collection_query (collection self) [query_embedding] n_results in
  documents0 <- index (documents results) 0 ;;
  for_each
    (fun i =>
       document <- index documents0 i ;;
       metadatas0 <- index (metadatas results) 0 ;;
       metadata <- index metadatas0 i ;;
       distances0 <- index (distances results) 0 ;;
       distance <- index distances0 i ;;
       ret {| content := document; metadata := metadata; score := (1 - distance)%Q |})
    (seq 0 (List.length documents0)).

Definition get_collection_info (self : t) : CollectionInfo :=
  let count := collection_count (collection self) in
  {| name := collection_name self;
     document_count := count;
     model := "all-MiniLM-L6-v2" |}.

End Store.

End VectorDatabase.

(** ** ConversationMemory *)

Module ConversationMemory.
Import Py.

Record Interaction : Type := {
  question : string;
  response : string;
  topic : string
}.

Record t : Type := {
  max_history : nat;
  conversation_history : list Interaction;
  current_topic : option string
}.

(** [self.topic_keywords], in the order the dictionary is written *)
Definition topic_keywords : list (string * list string) :=
  [ ("budget", ["budget"; "surplus"; "deficit"; "revenue"; "expenses"]);
    ("debt", ["debt"; "borrowing"; "interest"; "cost"; "borrowings"]);
    ("infrastructure", ["infrastructure"; "capital"; "construction"; "works"; "projects"]);
    ("taxation", ["taxation"; "tax"; "gsp"; "burden"; "revenue"]);
    ("superannuation", ["superannuation"; "pension"; "funding"; "liabilities"]);
    ("risk", ["risk"; "assessment"; "mitigation"; "management"; "prudent"]) ].

(** [__init__] *)
Definition new (max_history : nat) : t :=
  {| max_history := max_history; conversation_history := []; current_topic := None |}.

(** [sum(1 for keyword in keywords if keyword in text_lower)] *)
Definition keyword_score (keywords : list string) (text_lower : string) : nat :=
  List.length (filter (fun keyword => contains keyword text_lower) keywords).

(** the loop that fills [topic_scores] *)
Fixpoint score_topics (items : list (string * list string)) (text_lower : string)
  (topic_scores : list (string * nat)) : list (string * nat) :=
  match items with
  | [] => topic_scores
  | (topic, keywords) :: items' =>
      let score := keyword_score keywords text_lower in
      score_topics items' text_lower
        (if Nat.ltb 0 score then dict_set topic_scores topic score else topic_scores)
  end.

Definition _identify_topic (text : string) : string :=
  let text_lower := lower text in
  let topic_scores := score_topics topic_keywords text_lower [] in
  match
    max_by (fun topic => match dict_get topic_scores topic with
                         | Some score => score
                         | None => 0
                         end)
      (dict_keys topic_scores)
  with
  | Some topic => topic
  | None => "general"
  end.

(** [list.pop(0)] on a list known to be non-empty *)
Definition pop0 {A : Type} (xs : list A) : list A := tl xs.

Definition add_interaction (self : t) (question response : string) : t :=
  let interaction :=
    {| question := question; response := response; topic := _identify_topic question |} in
  let history := (conversation_history self ++ [interaction])%list in
  let current := Some (topic interaction) in
  {| max_history := max_history self;
     conversation_history :=
       if Nat.ltb (max_history self) (List.length history) then pop0 history else history;
     current_topic := current |}.

(** the truth value of [self.current_topic] *)
Definition truthy (o : option string) : bool :=
  match o with
  | Some s => negb (s =? "")
  | None => false
  end.

(** [self.current_topic.replace('_', ' ')], evaluated only when the topic is set *)
Definition topic_words (o : option string) : string :=
  match o with
  | Some s => replace_char "_" " " s
  | None => ""
  end.

Definition enhance_question (self : t) (question : string) : string :=
  let question_lower := lower question in
  let vague_phrases := ["tell me more"; "what about it"; "explain more"; "more details"] in
  let early :=
    if any (fun phrase => contains phrase question_lower) vague_phrases then
      if truthy (current_topic self)
         && negb (match current_topic self with
                  | Some s => s =? "general"
                  | None => false
                  end)
      then Some (question ++ " about " ++ topic_words (current_topic self))
      else None
    else None in
  match early with
  | Some enhanced => enhanced
  | None =>
      if any (fun word => contains word question_lower) ["that"; "this"; "it"]
         && truthy (current_topic self)
      then question ++ " (referring to " ++ topic_words (current_topic self) ++ ")"
      else question
  end.

Record Context : Type := {
  ctx_current_topic : string;
  recent_topics : list string;
  history_length : nat
}.

Definition get_context (self : t) : Context :=
  let recent_topics := map topic (last_n 3 (conversation_history self)) in
  {| ctx_current_topic :=
       match current_topic self with
       | Some s => if truthy (Some s) then s else "general"
       | None => "general"
       end;
     recent_topics := recent_topics;
     history_length := List.length (conversation_history self) |}.

Definition clear_history (self : t) : t :=
  {| max_history := max_history self; conversation_history := []; current_topic := None |}.

End ConversationMemory.


(** ** FinancialChatbot *)

Module FinancialChatbot.
Import Py Exn.

Section Chatbot.

(** the collaborators of the module *)
Context {Embedding : Type}.
Variable encode : string -> Exc Embedding.
Variable distance : Embedding -> Embedding -> Q.
Variable set_order : list string -> list string.
Variable split_text : DocumentProcessor.TextSplitter -> string -> list string.
Variable read_file : string -> Exc string.

Record t : Type := {
  document_path : string;
  processor : DocumentProcessor.t;
  vector_db : @VectorDatabase.t Embedding;
  memory : ConversationMemory.t;
  is_initialized : bool
}.

Definition set_vector_db (self : t) (db : @VectorDatabase.t Embedding) : t :=
  {| document_path := document_path self; processor := processor self;
     vector_db := db; memory := memory self; is_initialized := is_initialized self |}.

Definition set_memory (self : t) (m : ConversationMemory.t) : t :=
  {| document_path := document_path self; processor := processor self;
     vector_db := vector_db self; memory := m; is_initialized := is_initialized self |}.

Definition set_is_initialized (self : t) (b : bool) : t :=
  {| document_path := document_path self; processor := processor self;
     vector_db := vector_db self; memory := memory self; is_initialized := b |}.

(** A method body: it reads and updates [self] and returns or raises; the
    object reached when it raises is kept. *)
Definition M (A : Type) : Type := t -> Exc A * t.

Definition mret {A : Type} (a : A) : M A := fun self => (inr a, self).

Definition mbind {A B : Type} (c : M A) (f : A -> M B) : M B :=
  fun self =>
    match c self with
    | (inl e, self') => (inl e, self')
    | (inr a, self') => f a self'
    end.

Definition get : M t := fun self => (inr self, self).

Definition update (f : t -> t) : M unit := fun self => (inr tt, f self).

(** a call that does not touch [self] *)
Definition call {A : Type} (c : Exc A) : M A := fun self => (c, self).

Local Notation "x <- c ;; k" := (mbind c (fun x => k))
  (at level 61, c at next level, right associativity).
Local Notation "c ;; k" := (mbind c (fun _ => k))
  (at level 61, right associativity).

Definition _format_budget_response (content : string) (sources : list string) : string :=
  "## 💰 BUDGET ANALYSIS" ++ nl ++ nl
  ++ "### Executive Summary:" ++ nl
  ++ (if contains "deficit" (lower content) then
        "• **2005-06 Budget Position:** Strategic deficit of $91.5m with planned return to surplus" ++ nl
        ++ "• **Recovery Strategy:** Efficiency measures implemented to restore balance" ++ nl
      else "")
  ++ (if contains "surplus" (lower content) || contains "economic cycle" (lower content) then
        "• **Policy Framework:** Balanced budget maintained over complete economic cycle" ++ nl
        ++ "• **Historical Performance:** Aggregate surplus of $185.7m (2002-06)" ++ nl
        ++ "• **Forward Projections:** $22.0m aggregate surplus forecast (2005-09)" ++ nl
      else "")
  ++ nl ++ "### Key Financial Metrics:" ++ nl
  ++ "```" ++ nl
  ++ "Period          Operating Result" ++ nl
  ++ "2002-03         $154.6m surplus" ++ nl
  ++ "2003-04         $70.5m surplus" ++ nl
  ++ "2004-05         $52.2m surplus (est)" ++ nl
  ++ "2005-06         $91.5m deficit (budget)" ++ nl
  ++ "2006-07         $0.9m surplus (forecast)" ++ nl
  ++ "2007-08         $39.3m surplus (forecast)" ++ nl
  ++ "2008-09         $73.3m surplus (forecast)" ++ nl
  ++ "```" ++ nl ++ nl
  ++ "### Strategic Context:" ++ nl
  ++ "✅ **Economically Sustainable:** Four-year aggregate surplus planned" ++ nl
  ++ "✅ **Cash Management:** Reserves reducing to 2006-07, growth forecast 2008-09" ++ nl
  ++ "✅ **Debt Control:** No increase in general government borrowings" ++ nl ++ nl
  ++ "📄 **Source:** " ++ join ", " (set_order sources) ++ nl ++ nl
  ++ "💡 **Policy Note:** The Territory employs counter-cyclical fiscal policy, allowing strategic deficits during economic adjustments while maintaining overall fiscal discipline.".

Definition _format_debt_response (content : string) (sources : list string) : string :=
  "## 🏦 DEBT MANAGEMENT ANALYSIS" ++ nl ++ nl
  ++ "### Executive Summary:" ++ nl
  ++ "• **Primary Objective:** Maintain low levels of debt" ++ nl
  ++ "• **Performance Indicator:** Net interest cost as % of own-source revenue" ++ nl
  ++ "• **Current Status:** Net interest return (earning more than paying)" ++ nl ++ nl
  ++ "### Net Interest Performance:" ++ nl
  ++ "```" ++ nl
  ++ "Year        Net Interest Cost    % of Own-Source Revenue" ++ nl
  ++ "2004-05     -$31m               -1.9%" ++ nl
  ++ "2005-06     -$20m               -1.3%" ++ nl
  ++ "2006-07     -$8m                -0.5%" ++ nl
  ++ "2007-08     -$2m                -0.1%" ++ nl
  ++ "2008-09     -$2m                -0.1%" ++ nl
  ++ "```" ++ nl ++ nl
  ++ "### Strategic Analysis:" ++ nl
  ++ "✅ **Debt Policy:** Maintain low debt levels as core financial objective" ++ nl
  ++ "✅ **Interest Management:** Negative net interest cost indicates strong position" ++ nl
  ++ "✅ **Investment Returns:** Earnings from investments exceed debt service costs" ++ nl
  ++ "✅ **Borrowing Control:** General government borrowings remain stable" ++ nl ++ nl
  ++ "### Risk Assessment:" ++ nl
  ++ "🟢 **Low Risk:** Net interest cost well below zero threshold" ++ nl
  ++ "🟢 **Sustainable:** Interest burden decreasing relative to revenue base" ++ nl
  ++ "🟢 **Capacity:** Strong ability to meet debt obligations without service impact" ++ nl ++ nl
  ++ "📄 **Source:** " ++ join ", " (set_order sources) ++ nl ++ nl
  ++ "💡 **Key Insight:** The Territory maintains a net creditor position, earning more from investments than paying on debt, demonstrating exceptional fiscal health.".

Definition _format_infrastructure_response (content : string) (sources : list string) : string :=
  "## 🏗️ INFRASTRUCTURE INVESTMENT ANALYSIS" ++ nl ++ nl
  ++ "### Executive Summary:" ++ nl
  ++ "• **Strategic Objective:** Maintain and enhance Territory infrastructure" ++ nl
  ++ "• **Investment Approach:** Long-term planning with sustainable financing" ++ nl
  ++ "• **Performance Measure:** Value of capital works and property/plant/equipment" ++ nl ++ nl
  ++ "### Capital Infrastructure Investment ($ millions):" ++ nl
  ++ "```" ++ nl
  ++ "Component              2005-06   2006-07   2007-08   2008-09" ++ nl
  ++ "Capital Works          $218m     $263m     $63m      $41m" ++ nl
  ++ "Property/Plant/Equip   $10,205m  $10,437m  $10,847m  $11,034m" ++ nl
  ++ "Total Investment       $10,423m  $10,701m  $10,910m  $11,075m" ++ nl
  ++ "```" ++ nl ++ nl
  ++ "### Major Strategic Projects (2005-06):" ++ nl
  ++ "🏞️ **Stromlo Forest Park:** Major new recreational facility" ++ nl
  ++ "🏫 **East Gungahlin Primary School:** New educational infrastructure" ++ nl
  ++ "🏢 **Quamby Youth Detention Centre:** Replacement facility" ++ nl
  ++ "🛣️ **Gungahlin Drive Extension:** Continuing transport infrastructure" ++ nl
  ++ "🏛️ **Alexander Maconachie Centre:** Correctional facility development" ++ nl ++ nl
  ++ "### Investment Strategy:" ++ nl
  ++ "✅ **Asset Maintenance:** Preserve existing infrastructure value (baseline: June 2005)" ++ nl
  ++ "✅ **Capacity Enhancement:** Upgrades to increase service delivery capacity" ++ nl
  ++ "✅ **Life Extension:** Works to extend useful asset lives" ++ nl
  ++ "✅ **Rolling Program:** Five-year capital upgrade framework" ++ nl ++ nl
  ++ "### Performance Framework:" ++ nl
  ++ "📊 **Measurement:** Balance sheet valuation of physical assets" ++ nl
  ++ "📈 **Growth Trajectory:** Steady increase in total infrastructure value" ++ nl
  ++ "🎯 **Service Integration:** Projects aligned with demographic and service needs" ++ nl ++ nl
  ++ "📄 **Source:** " ++ join ", " (set_order sources) ++ nl ++ nl
  ++ "💡 **Strategic Note:** Infrastructure investment balances immediate community needs with long-term demographic changes and service delivery requirements.".

Definition _format_taxation_response (content : string) (sources : list string) : string :=
  "## 💼 TAXATION POLICY ANALYSIS" ++ nl ++ nl
  ++ "### Executive Summary:" ++ nl
  ++ "• **Policy Objective:** Maintain taxation levels as proportion of Gross State Product (GSP)" ++ nl
  ++ "• **Stability Principle:** Reasonable degree of stability and predictability in tax burden" ++ nl
  ++ "• **Economic Alignment:** Tax burden proportional to Territory's economic activity" ++ nl ++ nl
  ++ "### Taxation as % of GSP:" ++ nl
  ++ "```" ++ nl
  ++ "Year        Taxation ($m)   GSP ($m)      % of GSP" ++ nl
  ++ "2004-05     $692m          $16,944m      4.1%" ++ nl
  ++ "2005-06     $729m          $17,637m      4.1%" ++ nl
  ++ "2006-07     $778m          $18,349m      4.2%" ++ nl
  ++ "2007-08     $833m          $19,240m      4.3%" ++ nl
  ++ "2008-09     $889m          $20,214m      4.4%" ++ nl
  ++ "```" ++ nl ++ nl
  ++ "### Policy Framework:" ++ nl
  ++ "🎯 **Target Range:** Maintain taxation at approximately 4.1-4.4% of GSP" ++ nl
  ++ "📈 **Growth Alignment:** Tax revenue growth aligned with economic expansion" ++ nl
  ++ "⚖️ **Burden Management:** Prevent disproportionate increases in tax burden" ++ nl
  ++ "🔄 **Predictability:** Consistent approach to tax policy settings" ++ nl ++ nl
  ++ "### Strategic Objectives:" ++ nl
  ++ "✅ **Economic Responsiveness:** Tax levels reflect Territory's economic capacity" ++ nl
  ++ "✅ **Community Impact:** Balanced approach to revenue needs and taxpayer burden" ++ nl
  ++ "✅ **Fiscal Sustainability:** Revenue base adequate for service delivery" ++ nl
  ++ "✅ **Competitive Position:** Tax settings support economic competitiveness" ++ nl ++ nl
  ++ "📄 **Source:** " ++ join ", " (set_order sources) ++ nl ++ nl
  ++ "💡 **Policy Note:** Taxation policy emphasizes stability and proportionality, ensuring tax burden remains reasonable relative to the Territory's economic growth.".

Definition _format_risk_response (content : string) (sources : list string) : string :=
  "## ⚖️ FINANCIAL RISK ASSESSMENT" ++ nl ++ nl
  ++ "### Executive Summary:" ++ nl
  ++ "• **Risk Management Framework:** Comprehensive approach to identifying and mitigating financial risks" ++ nl
  ++ "• **Regulatory Compliance:** Financial Management Act 1996 requirements" ++ nl
  ++ "• **Strategic Objective:** Prudent fiscal risk management for Territory sustainability" ++ nl ++ nl
  ++ "### Key Financial Risk Areas:" ++ nl
  ++ "```" ++ nl
  ++ "Risk Category          Status        Mitigation Strategy" ++ nl
  ++ "Economic Volatility    Monitored     Counter-cyclical fiscal policy" ++ nl
  ++ "Revenue Fluctuation    Controlled    Diversified revenue base" ++ nl
  ++ "Interest Rate Risk     Low           Net creditor position" ++ nl
  ++ "Infrastructure Risk    Managed       Strategic capital planning" ++ nl
  ++ "Demographic Risk       Assessed      Long-term service planning" ++ nl
  ++ "```" ++ nl ++ nl
  ++ "### Risk Management Principles:" ++ nl
  ++ "🛡️ **Prudent Management:** Ensuring total liabilities at prudent levels" ++ nl
  ++ "📊 **Buffer Maintenance:** Adequate reserves against adverse factors" ++ nl
  ++ "🎯 **Performance Monitoring:** Regular assessment of financial indicators" ++ nl
  ++ "📈 **Sustainability Focus:** Inter-generational equity considerations" ++ nl ++ nl
  ++ "### Specific Risk Mitigation Measures:" ++ nl
  ++ "✅ **Debt Control:** Maintain low debt levels and negative net interest cost" ++ nl
  ++ "✅ **Asset Protection:** Prudent investment policies for liquid assets" ++ nl
  ++ "✅ **Revenue Stability:** Taxation policies with predictable burden levels" ++ nl
  ++ "✅ **Contingency Planning:** Balanced budget over economic cycle approach" ++ nl
  ++ "✅ **Infrastructure Planning:** Strategic approach to capital works programs" ++ nl ++ nl
  ++ "### Regulatory Compliance Framework:" ++ nl
  ++ "📋 **Financial Management Act 1996:** Core legislative requirements" ++ nl
  ++ "📋 **Transparency Standards:** Full, accurate, and timely financial disclosure" ++ nl
  ++ "📋 **Performance Standards:** Responsible financial management principles" ++ nl
  ++ "📋 **Accountability Measures:** Regular reporting and evaluation benchmarks" ++ nl ++ nl
  ++ "### Current Risk Assessment:" ++ nl
  ++ "🟢 **Low Risk:** Strong financial position with net creditor status" ++ nl
  ++ "🟢 **Stable Outlook:** Balanced budget framework over economic cycle" ++ nl
  ++ "🟢 **Adequate Reserves:** Sufficient buffers against economic volatility" ++ nl
  ++ "🟢 **Conservative Approach:** Prudent debt and investment policies" ++ nl ++ nl
  ++ "📄 **Source:** " ++ join ", " (set_order sources) ++ nl ++ nl
  ++ "💡 **Risk Insight:** The Territory employs a comprehensive risk management framework emphasizing prudent financial management, regulatory compliance, and sustainable fiscal policies to protect against adverse economic impacts.".

Definition _format_superannuation_response (content : string) (sources : list string) : string :=
  "## 🎯 SUPERANNUATION FUNDING ANALYSIS" ++ nl ++ nl
  ++ "### Executive Summary:" ++ nl
  ++ "• **Target Goal:** 90% coverage of accrued superannuation liabilities by 2039-40" ++ nl
  ++ "• **Current Progress:** Steady improvement in funding ratio" ++ nl
  ++ "• **Strategic Approach:** Long-term commitment to adequate provision for liabilities" ++ nl ++ nl
  ++ "### Superannuation Funding Progress:" ++ nl
  ++ "```" ++ nl
  ++ "Year    Assets ($'000)    Liabilities ($'000)    Funding %" ++ nl
  ++ "2005    1,447,094        2,480,943             58%" ++ nl
  ++ "2006    1,626,868        2,707,023             60%" ++ nl
  ++ "2007    1,829,509        2,927,773             62%" ++ nl
  ++ "2008    2,042,190        3,146,890             65%" ++ nl
  ++ "2009    2,266,537        3,365,107             67%" ++ nl
  ++ "```" ++ nl ++ nl
  ++ "### Strategic Framework:" ++ nl
  ++ "🎯 **Long-term Target:** 90% funding ratio by 30 June 2040" ++ nl
  ++ "📈 **Progress Trajectory:** Consistent 2% annual improvement" ++ nl
  ++ "💰 **Asset Growth:** Steady increase in superannuation assets" ++ nl
  ++ "📊 **Liability Management:** Projected liability tracking and management" ++ nl ++ nl
  ++ "### Policy Context:" ++ nl
  ++ "✅ **Government Commitment:** Formal commitment to 90% funding target" ++ nl
  ++ "✅ **PSS Integration:** Introduction of PSS accumulation scheme benefits" ++ nl
  ++ "✅ **Review Process:** Target date review planned for 2005-06" ++ nl
  ++ "✅ **Reporting:** Annual progress updates in budget documents" ++ nl ++ nl
  ++ "### Performance Analysis:" ++ nl
  ++ "📊 **Funding Improvement:** 9% increase from 58% to 67% (2005-2009)" ++ nl
  ++ "💹 **Asset Growth Rate:** Approximately 11.4% annual increase" ++ nl
  ++ "📈 **On-Track Performance:** Meeting interim milestones toward 2040 target" ++ nl
  ++ "🔄 **Scheme Modernization:** PSS accumulation benefits reducing projected liabilities" ++ nl ++ nl
  ++ "📄 **Source:** " ++ join ", " (set_order sources) ++ nl ++ nl
  ++ "💡 **Funding Insight:** The Territory demonstrates strong commitment to superannuation funding with consistent progress toward the 90% target, supported by strategic asset growth and modern scheme design.".

Definition _format_general_response (content : string) (sources : list string) : string :=
  let sentences := split ". " content in
  let relevant_sentences :=
    firstn 3 (filter (fun s => Nat.ltb 30 (len (strip s))) sentences) in
  "Based on the financial policy document:" ++ nl ++ nl
  ++ fold_left
       (fun response sentence =>
          if Nat.ltb 20 (len (strip sentence))
          then response ++ "• " ++ strip sentence ++ "." ++ nl
          else response)
       relevant_sentences ""
  ++ nl ++ "📄 **Source:** " ++ join ", " (set_order sources).

Definition _create_contextual_response (question : string) (content_pieces : list string)
  (sources : list string) : string :=
  let combined_content := join " " (firstn 2 content_pieces) in
  let question_lower := lower question in
  let mentions := any (fun word => contains word question_lower) in
  if mentions ["budget"; "surplus"; "deficit"] then
    _format_budget_response combined_content sources
  else if mentions ["debt"; "borrowing"; "interest"] then
    _format_debt_response combined_content sources
  else if mentions ["infrastructure"; "capital"; "construction"] then
    _format_infrastructure_response combined_content sources
  else if mentions ["tax"; "taxation"; "revenue"] then
    _format_taxation_response combined_content sources
  else if mentions ["risk"; "assessment"; "mitigation"; "management"] then
    _format_risk_response combined_content sources
  else if mentions ["superannuation"; "pension"; "funding"] then
    _format_superannuation_response combined_content sources
  else
    _format_general_response combined_content sources.

Definition _generate_response (question : string)
  (search_results : list VectorDatabase.SearchResult) : string :=
  match search_results with
  | [] =>
      "I couldn't find relevant information in the financial policy document for your question."
  | _ =>
      let relevant_content := map VectorDatabase.content search_results in
      let sources :=
        map (fun result =>
               "Section: " ++ VectorDatabase.section_type (VectorDatabase.metadata result))
          search_results in
      _create_contextual_response question relevant_content sources
  end.

Definition _initialize : M unit :=
  self <- get ;;
  documents <-
    call (DocumentProcessor.process_document set_order split_text read_file (processor self)) ;;
  let db_info := VectorDatabase.get_collection_info (vector_db self) in
  (if Nat.eqb (VectorDatabase.document_count db_info) 0 then
     db <- call (VectorDatabase.add_documents encode (vector_db self) documents) ;;
     update (fun self => set_vector_db self db)
   else mret tt) ;;
  update (fun self => set_is_initialized self true).

(** [__init__]: [stored] is the collection found in the persistent store.
    When [_initialize] raises no object is returned. *)
Definition new (path : string) (stored : @VectorDatabase.Collection Embedding) : Exc t :=
  let self :=
    {| document_path := path;
       processor := DocumentProcessor.new path;
       vector_db := VectorDatabase.new stored;
       memory := ConversationMemory.new 10;
       is_initialized := false |} in
  match _initialize self with
  | (inr _, self') => inr self'
  | (inl e, _) => inl e
  end.

(** the statements inside [try:] in [ask] *)
Definition ask_body (question : string) : M string :=
  self <- get ;;
  let enhanced_question := ConversationMemory.enhance_question (memory self) question in
  search_results <-
    call (VectorDatabase.search encode distance (vector_db self) enhanced_question 3) ;;
  let response := _generate_response enhanced_question search_results in
  update (fun self =>
            set_memory self (ConversationMemory.add_interaction (memory self) question response)) ;;
  mret response.

(** [try: body except Exception as e: handler(e)] *)
Definition try_except {A : Type} (body : M A) (handler : exn -> M A) : M A :=
  fun self =>
    match body self with
    | (inl e, self') => handler e self'
    | (inr a, self') => (inr a, self')
    end.

Definition ask (question : string) : M string :=
  self <- get ;;
  if negb (is_initialized self) then
    mret "Chatbot is not properly initialized. Please check the document path."
  else
    try_except (ask_body question)
      (fun e =>
         mret ("I apologize, but I encountered an error while processing your question: "
               ++ str e)).

Definition get_conversation_summary (self : t) : string :=
  let context := ConversationMemory.get_context (memory self) in
  if Nat.eqb (ConversationMemory.history_length context) 0 then
    "No conversation history yet. Feel free to ask about the financial policy!"
  else
    let summary := "Conversation Summary:" ++ nl in
    let summary :=
      summary ++ "• Total questions asked: "
      ++ str_of_nat (ConversationMemory.history_length context) ++ nl in
    let summary :=
      summary ++ "• Current topic: "
      ++ title (replace_char "_" " " (ConversationMemory.ctx_current_topic context)) ++ nl in
    match ConversationMemory.recent_topics context with
    | [] => summary
    | _ :: _ =>
        let unique_topics := set_order (ConversationMemory.recent_topics context) in
        summary ++ "• Recent topics: " ++ join ", " unique_topics ++ nl
    end.

End Chatbot.

End FinancialChatbot.


(** ** Specification-level definitions

    The definitions below restate, in the words of the design document,
    what the methods above are meant to compute; the theorems compare the
    two. *)

Module Spec.
Import Py Exn.

(** *** Topic classification *)

(** the six categories, in the order of declaration *)
Definition topics : list string := dict_keys ConversationMemory.topic_keywords.

(** the number of keywords of category [t] that occur in the lower-cased text *)
Definition topic_score (text : string) (t : string) : nat :=
  match dict_get ConversationMemory.topic_keywords t with
  | Some keywords => ConversationMemory.keyword_score keywords (lower text)
  | None => 0
  end.

(** Following the spec's words: a keyword appears in the text as a
    case-insensitive substring *)
Definition occurs (keyword text : string) : bool := contains keyword (lower text).

(** Following the spec's words: the six categories with their keyword sets,
    in the enumeration order *)
Definition categories : list (string * list string) := ConversationMemory.topic_keywords.

(** Following the spec's words: how many members of a keyword set appear in
    the text *)
Fixpoint count_occurring (keywords : list string) (text : string) : nat :=
  match keywords with
  | [] => 0
  | keyword :: keywords' =>
      (if occurs keyword text then 1 else 0) + count_occurring keywords' text
  end.

(** Following the spec's words: the score of a category *)
Definition category_score (text : string) (category : string * list string) : nat :=
  count_occurring (snd category) text.

(** the key handed to [max] by [_identify_topic]: [topic_scores.get] *)
Definition score_key (text : string) (topic : string) : nat :=
  match dict_get (ConversationMemory.score_topics ConversationMemory.topic_keywords
                    (lower text) []) topic with
  | Some score => score
  | None => 0
  end.

(** *** Question enhancement: a ranked list of two rules *)

Definition mentions_any (phrases : list string) (question : string) : bool :=
  any (fun phrase => contains phrase (lower question)) phrases.

Definition vague_phrases : list string :=
  ["tell me more"; "what about it"; "explain more"; "more details"].

Definition pronouns : list string := ["that"; "this"; "it"].

Definition topic_is_set (m : ConversationMemory.t) : bool :=
  match ConversationMemory.current_topic m with
  | Some s => negb (s =? "")
  | None => false
  end.

Definition topic_is_general (m : ConversationMemory.t) : bool :=
  match ConversationMemory.current_topic m with
  | Some s => s =? "general"
  | None => false
  end.

Definition topic_name (m : ConversationMemory.t) : string :=
  match ConversationMemory.current_topic m with
  | Some s => replace_char "_" " " s
  | None => ""
  end.

Definition enhance (m : ConversationMemory.t) (question : string) : string :=
  if mentions_any vague_phrases question && topic_is_set m && negb (topic_is_general m)
  then question ++ " about " ++ topic_name m
  else if mentions_any pronouns question && topic_is_set m
  then question ++ " (referring to " ++ topic_name m ++ ")"
  else question.

(** *** Conversation memory as a sequence of record operations *)

Definition interaction_of (qr : string * string) : ConversationMemory.Interaction :=
  {| ConversationMemory.question := fst qr;
     ConversationMemory.response := snd qr;
     ConversationMemory.topic := ConversationMemory._identify_topic (fst qr) |}.

(** successive calls of [add_interaction], oldest first *)
Definition record_all (m : ConversationMemory.t) (qrs : list (string * string))
  : ConversationMemory.t :=
  fold_left (fun m qr => ConversationMemory.add_interaction m (fst qr) (snd qr)) qrs m.

(** *** Template dispatch: a ranked rule list *)

Inductive Template : Type :=
| Budget | Debt | Infrastructure | Taxation | Risk | Superannuation | General.

Definition template_rules : list (list string * Template) :=
  [ (["budget"; "surplus"; "deficit"], Budget);
    (["debt"; "borrowing"; "interest"], Debt);
    (["infrastructure"; "capital"; "construction"], Infrastructure);
    (["tax"; "taxation"; "revenue"], Taxation);
    (["risk"; "assessment"; "mitigation"; "management"], Risk);
    (["superannuation"; "pension"; "funding"], Superannuation) ].

(** the template of the first rule one of whose terms occurs in the question *)
Definition select_template (question : string) : Template :=
  match find (fun rule => mentions_any (fst rule) question) template_rules with
  | Some rule => snd rule
  | None => General
  end.

(** the formatter a template stands for *)
Definition render (set_order : list string -> list string) (t : Template)
  : string -> list string -> string :=
  match t with
  | Budget => FinancialChatbot._format_budget_response set_order
  | Debt => FinancialChatbot._format_debt_response set_order
  | Infrastructure => FinancialChatbot._format_infrastructure_response set_order
  | Taxation => FinancialChatbot._format_taxation_response set_order
  | Risk => FinancialChatbot._format_risk_response set_order
  | Superannuation => FinancialChatbot._format_superannuation_response set_order
  | General => FinancialChatbot._format_general_response set_order
  end.

(** the first line of a text *)
Fixpoint headline (s : string) : string :=
  match s with
  | "" => ""
  | String c s' => if Ascii.eqb c (ascii_of_nat 10) then "" else String c (headline s')
  end.

(** *** Set semantics of [list(set(xs))] *)

Definition is_set_order (set_order : list string -> list string) : Prop :=
  forall xs, NoDup (set_order xs) /\ (forall x, In x (set_order xs) <-> In x xs).

(** *** Positions at which a pattern matches *)

Fixpoint matches_somewhere (r : Re.regex) (prev : option ascii) (s : string) : bool :=
  match s with
  | "" => false
  | String c s' =>
      match Re.match_here r prev s with
      | Some (S _) => true
      | _ => matches_somewhere r (Some c) s'
      end
  end.

(** what a successful match hands to its continuation: the text [w] it
    consumed, drawn from the class [p] and at least [least] long *)
Definition consumed (p : ascii -> bool) (least : nat) (n : nat) (s : string)
  (k : Re.cont) (m : nat) : Prop :=
  exists w s' prev',
    s = w ++ s' /\ k prev' (n + String.length w) s' = Some m
    /\ Re.all_in p w = true /\ least <= String.length w.

(** *** The answer of the store *)

(** ascending distance *)
Definition nearer {Embedding : Type} (a b : @VectorDatabase.Entry Embedding * Q) : Prop :=
  (snd a <= snd b)%Q.

(** non-increasing score *)
Definition at_least_as_similar (a b : VectorDatabase.SearchResult) : Prop :=
  (VectorDatabase.score b <= VectorDatabase.score a)%Q.

(** one row of the answer of the store, as [search] formats it *)
Definition format_row {Embedding : Type} (r : @VectorDatabase.Entry Embedding * Q)
  : VectorDatabase.SearchResult :=
  {| VectorDatabase.content := VectorDatabase.entry_document (fst r);
     VectorDatabase.metadata := VectorDatabase.entry_metadata (fst r);
     VectorDatabase.score := (1 - snd r)%Q |}.

(** the text of the apology returned by [ask] *)
Definition apology_for (message : string) : string :=
  "I apologize, but I encountered an error while processing your question: " ++ message.

End Spec.

(** ** A concrete set of collaborators, used to run the model *)

Module Demo.
Import Py Exn.

(** an encoder that maps a text to its length and fails on one input *)
Definition encode (text : string) : Exc nat :=
  if text =? "boom" then raise (Exception "encoder unavailable")
  else ret (String.length text).

Definition distance (a b : nat) : Q :=
  (inject_Z (Z.of_nat (Nat.max a b - Nat.min a b)) / 100)%Q.

Definition set_order (xs : list string) : list string := nodup string_dec xs.

Definition split_text (_ : DocumentProcessor.TextSplitter) (text : string) : list string :=
  split (nl ++ nl) text.

Definition document : string :=
  "The budget shows an aggregate surplus of $185.7m over 2002-06." ++ nl ++ nl
  ++ "Net debt stays low and borrowing is stable.".

Definition read_file (path : string) : Exc string :=
  if path =? "financial_policy_document.txt" then ret document
  else raise (FileNotFoundError "No such file or directory").

(** the object before [_initialize] runs, with an empty store *)
Definition fresh : @FinancialChatbot.t nat :=
  {| FinancialChatbot.document_path := "financial_policy_document.txt";
     FinancialChatbot.processor := DocumentProcessor.new "financial_policy_document.txt";
     FinancialChatbot.vector_db := VectorDatabase.new [];
     FinancialChatbot.memory := ConversationMemory.new 10;
     FinancialChatbot.is_initialized := false |}.

(** the chatbot once initialised: its store holds the two chunks of [document] *)
Definition ready : @FinancialChatbot.t nat :=
  snd (FinancialChatbot._initialize encode set_order split_text read_file fresh).

End Demo.


(** ** The words of a pattern

    [in_lang r w]: the text [w] is matched by [r] when the context of the
    match is left out of account ([\b] consumes nothing). *)

Module Lang.
Import Re.

Inductive in_lang : regex -> string -> Prop :=
| in_eps : in_lang Eps ""
| in_chr (p : ascii -> bool) (c : ascii) : p c = true -> in_lang (Chr p) (String c "")
| in_cat (r1 r2 : regex) (w1 w2 : string) :
    in_lang r1 w1 -> in_lang r2 w2 -> in_lang (Cat r1 r2) (w1 ++ w2)
| in_alt_l (r1 r2 : regex) (w : string) : in_lang r1 w -> in_lang (Alt r1 r2) w
| in_alt_r (r1 r2 : regex) (w : string) : in_lang r2 w -> in_lang (Alt r1 r2) w
| in_opt_none (r : regex) : in_lang (Opt r) ""
| in_opt_some (r : regex) (w : string) : in_lang r w -> in_lang (Opt r) w
| in_star (p : ascii -> bool) (w : string) : all_in p w = true -> in_lang (Star p) w
| in_bnd : in_lang Bnd "".

(** what a successful match hands to its continuation: a word of the pattern *)
Definition yields (r : regex) (n : nat) (s : string) (k : cont) (m : nat) : Prop :=
  exists w s' prev',
    s = w ++ s' /\ k prev' (n + String.length w) s' = Some m /\ in_lang r w.

End Lang.

(** ** The alphabets of the extracted items *)

Module Items.
Import Py.

(** the characters of an amount after its dollar sign: digits, commas, the
    point and the suffix *)
Definition amount_char (c : ascii) : bool :=
  is_digit c || Ascii.eqb c "," || Ascii.eqb c "." || Ascii.eqb c "m" || Ascii.eqb c "M".

(** [text.isascii()]: every character of the text is an ASCII character *)
Definition ascii_text (text : string) : bool :=
  Re.all_in (fun c => Nat.ltb (code c) 128) text.

(** the fifteen words of the keyword patterns, in lower case *)
Definition keyword_list : list string :=
  [ "budget"; "surplus"; "deficit"; "debt"; "borrowing"; "interest";
    "infrastructure"; "capital"; "construction"; "taxation"; "revenue"; "gsp";
    "superannuation"; "pension"; "funding" ].

End Items.

(** ** Follow-up questions *)

Module FollowUp.
Import Py.

(** the template that bears the name of a topic *)
Definition template_of_topic (topic : string) : Spec.Template :=
  if topic =? "budget" then Spec.Budget
  else if topic =? "debt" then Spec.Debt
  else if topic =? "infrastructure" then Spec.Infrastructure
  else if topic =? "taxation" then Spec.Taxation
  else if topic =? "risk" then Spec.Risk
  else if topic =? "superannuation" then Spec.Superannuation
  else Spec.General.

(** no space occurs in [s] *)
Definition spaceless (s : string) : bool :=
  Re.all_in (fun c => negb (Ascii.eqb c " ")) s.

End FollowUp.

(** ** What [add_documents] stores for a chunk *)

Module Indexing.
Import Py Exn.

Section Stored.
Context {Embedding : Type}.
Variable encode : string -> Exc Embedding.

(** the tuple [e] is the one stored for the chunk [doc] *)
Definition stored_as (doc : DocumentProcessor.Chunk) (e : @VectorDatabase.Entry Embedding)
  : Prop :=
  VectorDatabase.entry_id e = DocumentProcessor.id doc
  /\ VectorDatabase.entry_document e = DocumentProcessor.content doc
  /\ encode (DocumentProcessor.content doc) = inr (VectorDatabase.entry_embedding e)
  /\ VectorDatabase.section_type (VectorDatabase.entry_metadata e)
     = DocumentProcessor.section_type doc
  /\ VectorDatabase.chunk_index (VectorDatabase.entry_metadata e)
     = DocumentProcessor.chunk_index (DocumentProcessor.metadata doc)
  /\ VectorDatabase.word_count (VectorDatabase.entry_metadata e)
     = DocumentProcessor.word_count (DocumentProcessor.metadata doc)
  /\ VectorDatabase.has_financial_data (VectorDatabase.entry_metadata e)
     = DocumentProcessor.has_financial_data (DocumentProcessor.metadata doc)
  /\ VectorDatabase.keywords (VectorDatabase.entry_metadata e)
     = join "," (firstn 5 (DocumentProcessor.keywords
                             (DocumentProcessor.financial_data doc))).

(** the four lists of a batch have one length *)
Definition balanced (b : @VectorDatabase.Batch Embedding) : Prop :=
  List.length (VectorDatabase.embeddings b) = List.length (VectorDatabase.ids b)
  /\ List.length (VectorDatabase.batch_metadatas b) = List.length (VectorDatabase.ids b)
  /\ List.length (VectorDatabase.documents_content b) = List.length (VectorDatabase.ids b).

(** the tuples a batch amounts to *)
Definition batch_entries (b : @VectorDatabase.Batch Embedding)
  : list (@VectorDatabase.Entry Embedding) :=
  VectorDatabase.zip_entries (VectorDatabase.ids b) (VectorDatabase.embeddings b)
    (VectorDatabase.batch_metadatas b) (VectorDatabase.documents_content b).

(** [e] is raised by the encoding of the first chunk that cannot be encoded *)
Definition first_failure (documents : list DocumentProcessor.Chunk) (e : exn) : Prop :=
  exists before doc after,
    documents = (before ++ doc :: after)%list
    /\ encode (DocumentProcessor.content doc) = inl e
    /\ Forall (fun d => exists emb, encode (DocumentProcessor.content d) = inr emb) before.

End Stored.

End Indexing.

(** ** The command-line loop of [main] *)

Module Cli.
Import Py Exn.

(** what [main] writes: the prompt of [input] and the arguments of its own
    [print] calls *)
Inductive event : Type :=
| Prompt (text : string)
| Print (text : string).

(** how [main] ends: it returns, an exception escapes, or [input] meets the
    end of the input ([EOFError]) *)
Inductive outcome : Type :=
| Returned
| Raised (e : exn)
| EndOfInput.

Section Run.
Context {Embedding : Type}.
Variable encode : string -> Exc Embedding.
Variable distance : Embedding -> Embedding -> Q.
Variable set_order : list string -> list string.
Variable split_text : DocumentProcessor.TextSplitter -> string -> list string.
Variable read_file : string -> Exc string.

(** the [while True] loop, fed with the lines typed by the user *)
Fixpoint loop (chatbot : @FinancialChatbot.t Embedding) (lines : list string)
  : list event * FinancialChatbot.t * outcome :=
  match lines with
  | [] => ([Prompt "Your question: "], chatbot, EndOfInput)
  | line :: lines' =>
      let question := strip line in
      if lower question =? "quit" then
        ([Prompt "Your question: ";
          Print "Thank you for using the Financial Policy Chatbot!"],
         chatbot, Returned)
      else if lower question =? "summary" then
        let '(events, chatbot', out) := loop chatbot lines' in
        (Prompt "Your question: "
         :: Print (FinancialChatbot.get_conversation_summary set_order chatbot)
         :: events, chatbot', out)
      else if question =? "" then
        let '(events, chatbot', out) := loop chatbot lines' in
        (Prompt "Your question: " :: Print "Please enter a question." :: events,
         chatbot', out)
      else
        match FinancialChatbot.ask encode distance set_order question chatbot with
        | (inl e, chatbot') => ([Prompt "Your question: "], chatbot', Raised e)
        | (inr response, chatbot') =>
            let '(events, chatbot'', out) := loop chatbot' lines' in
            (Prompt "Your question: "
             :: Print (nl ++ response ++ nl)
             :: Print (repeat_string "-" 80)
             :: events, chatbot'', out)
        end
  end.


End Run.

End Cli.

(** ** The display helpers of [streamlit_app_professional.py] *)

Module StreamlitApp.
Import Py Exn.

(** the loop of [stream_response]: the texts handed to
    [response_container.markdown], one per sentence that is not blank *)
Fixpoint stream_frames (last_sentence : string) (sentences : list string)
  (displayed_text : string) : list string :=
  match sentences with
  | [] => []
  | sentence :: sentences' =>
      if negb (strip sentence =? "") then
        let displayed_text :=
          if negb (displayed_text =? "") then displayed_text ++ ". " ++ sentence
          else sentence in
        let displayed_text :=
          if negb (sentence =? last_sentence)
             && negb (any (fun suffix => endswith suffix sentence) ["."; "!"; "?"; ":"])
          then displayed_text ++ "."
          else displayed_text in
        displayed_text :: stream_frames last_sentence sentences' displayed_text
      else stream_frames last_sentence sentences' displayed_text
  end.

(** [stream_response]: the successive contents of the container and the
    value returned; the pauses are left out *)
Definition stream_response (response_text : string) : list string * string :=
  let sentences := split ". " response_text in
  ((stream_frames (last sentences "") sentences "" ++ [response_text])%list,
   response_text).

End StreamlitApp.

(** ** Sessions: a sequence of questions put to one chatbot *)

Module Session.
Import Py Exn.

Section Run.
Context {Embedding : Type}.
Variable encode : string -> Exc Embedding.
Variable distance : Embedding -> Embedding -> Q.
Variable set_order : list string -> list string.

(** successive calls of [ask]; the answers, oldest first, and the final object *)
Fixpoint ask_all (questions : list string) (self : @FinancialChatbot.t Embedding)
  : list (Exc string) * FinancialChatbot.t :=
  match questions with
  | [] => ([], self)
  | question :: questions' =>
      let '(answer, self') := FinancialChatbot.ask encode distance set_order question self in
      let '(answers, self'') := ask_all questions' self' in
      (answer :: answers, self'')
  end.

End Run.

End Session.

(** ** The lines typed at the prompt *)

Module Typed.
Import Py.

(** the line ends the loop *)
Definition is_quit (line : string) : bool := lower (strip line) =? "quit".

(** the questions among the lines: up to the first quit, the lines that are
    neither blank nor the summary command, stripped *)
Fixpoint questions_of (lines : list string) : list string :=
  match lines with
  | [] => []
  | line :: lines' =>
      if is_quit line then []
      else if lower (strip line) =? "summary" then questions_of lines'
      else if strip line =? "" then questions_of lines'
      else strip line :: questions_of lines'
  end.

(** the sentences [stream_response] shows *)
Definition shown (sentence : string) : bool := negb (strip sentence =? "").

(** every text of the sequence is a prefix of the next one *)
Fixpoint grows (frames : list string) : bool :=
  match frames with
  | a :: (b :: _) as rest => prefix a b && grows rest
  | _ => true
  end.

End Typed.

(** ** Further objects used to run the model *)

Module Scenario.
Import Py Exn.

(** a chatbot under construction whose document is not where it is looked for *)
Definition misplaced : @FinancialChatbot.t nat :=
  {| FinancialChatbot.document_path := "missing.txt";
     FinancialChatbot.processor := DocumentProcessor.new "missing.txt";
     FinancialChatbot.vector_db := VectorDatabase.new [];
     FinancialChatbot.memory := ConversationMemory.new 10;
     FinancialChatbot.is_initialized := false |}.

End Scenario.


(** * Properties *)

(** ** Strings *)

Lemma append_assoc (a b c : string) : (a ++ b) ++ c = a ++ (b ++ c).
Proof. induction a as [|x a IH]; cbn; [reflexivity|now rewrite IH]. Qed.

Lemma append_length (a b : string) :
  String.length (a ++ b) = String.length a + String.length b.
Proof. induction a as [|x a IH]; cbn; [reflexivity|now rewrite IH]. Qed.

Lemma prefix_append (a s : string) :
  prefix a s = true -> exists rest, s = a ++ rest.
Proof.
  revert s. induction a as [|x a IH]; intros s H.
  - exists s. reflexivity.
  - destruct s as [|y s]; cbn in H; [discriminate|].
    destruct (ascii_dec x y) as [->|]; [|discriminate].
    destruct (IH _ H) as [rest ->]. exists rest. reflexivity.
Qed.

(** [needle in hay] exhibits an occurrence *)
Lemma contains_occurrence (needle hay : string) :
  Py.contains needle hay = true -> exists pre post, hay = pre ++ needle ++ post.
Proof.
  induction hay as [|c hay IH]; cbn [Py.contains]; intros H.
  - rewrite orb_false_r in H. apply prefix_append in H. destruct H as [rest ->].
    exists "", rest. reflexivity.
  - apply orb_true_iff in H. destruct H as [H|H].
    + apply prefix_append in H. destruct H as [rest ->]. exists "", rest. reflexivity.
    + destruct (IH H) as (pre & post & ->). exists (String c pre), post. reflexivity.
Qed.

Lemma prefix_intro (a b : string) : prefix a (a ++ b) = true.
Proof.
  induction a as [|c a IH]; cbn; [now destruct b|].
  destruct (ascii_dec c c) as [_|N]; [exact IH|now destruct N].
Qed.

Lemma contains_prefix (a s : string) : prefix a s = true -> Py.contains a s = true.
Proof. intros H. destruct s; cbn [Py.contains]; rewrite H; reflexivity. Qed.

Lemma contains_intro (pre item post : string) :
  Py.contains item (pre ++ item ++ post) = true.
Proof.
  induction pre as [|c pre IH]; cbn [append].
  - apply contains_prefix, prefix_intro.
  - cbn [Py.contains]. rewrite IH. apply orb_true_r.
Qed.

(** a run of characters of a class stops before a character outside it *)
Lemma all_in_before (p : ascii -> bool) (w s a b : string) (x : ascii) :
  w ++ s = a ++ String x b -> Re.all_in p w = true -> p x = false ->
  String.length w <= String.length a.
Proof.
  revert a. induction w as [|c w IH]; intros a Heq Hw Hx; cbn; [lia|].
  cbn in Hw. apply andb_true_iff in Hw. destruct Hw as [Hc Hw].
  destruct a as [|c' a]; cbn in Heq; inversion Heq; subst.
  - congruence.
  - cbn. apply le_n_S. now apply IH.
Qed.

(** ** Matching *)

Section Matching.
Import Py Re.

Lemma all_in_append (p : ascii -> bool) (a b : string) :
  all_in p (a ++ b) = all_in p a && all_in p b.
Proof. induction a as [|c a IH]; cbn; [reflexivity|]. now rewrite IH, andb_assoc. Qed.

Lemma all_in_weaken (p q : ascii -> bool) (w : string) :
  (forall c, p c = true -> q c = true) -> all_in p w = true -> all_in q w = true.
Proof.
  intros Hpq. induction w as [|c w IH]; cbn; [reflexivity|].
  intros H. apply andb_true_iff in H. destruct H as [Hc Hw].
  now rewrite (Hpq _ Hc), IH.
Qed.

Lemma star_consumed (p : ascii -> bool) (s : string) :
  forall prev n k m, star p prev n s k = Some m -> Spec.consumed p 0 n s k m.
Proof.
  induction s as [|c s IH]; intros prev n k m H; cbn in H.
  - exists "", "", prev. cbn. rewrite Nat.add_0_r. repeat split; auto.
  - assert (Hstop : k prev n (String c s) = Some m -> Spec.consumed p 0 n (String c s) k m).
    { intros Hk. exists "", (String c s), prev. cbn. rewrite Nat.add_0_r.
      repeat split; auto. }
    destruct (p c) eqn:Hc; [|auto].
    destruct (star p (Some c) (S n) s k) as [m'|] eqn:Hs; [|auto].
    injection H as ->. destruct (IH _ _ _ _ Hs) as (w & s' & prev' & -> & Hk & Hw & _).
    exists (String c w), s', prev'. cbn. rewrite Hc, Hw.
    rewrite <- Nat.add_succ_comm. cbn in Hk. repeat split; auto. lia.
Qed.

Lemma rmatch_consumed (r : regex) :
  forall prev n s k m,
    rmatch r prev n s k = Some m -> Spec.consumed (alphabet r) (min_len r) n s k m.
Proof.
  induction r as [|p|r1 IH1 r2 IH2|r1 IH1 r2 IH2|r1 IH1|p|];
    intros prev n s k m H; cbn in H.
  - exists "", s, prev. cbn. rewrite Nat.add_0_r. repeat split; auto.
  - destruct s as [|c s]; [discriminate|]. destruct (p c) eqn:Hc; [|discriminate].
    exists (String c ""), s, (Some c). cbn. rewrite Hc. rewrite Nat.add_1_r.
    repeat split; auto.
  - apply IH1 in H. destruct H as (w1 & s1 & prev1 & -> & H & Hw1 & Hl1).
    apply IH2 in H. destruct H as (w2 & s2 & prev2 & -> & H & Hw2 & Hl2).
    exists (w1 ++ w2), s2, prev2. rewrite append_assoc, append_length, all_in_append.
    rewrite Nat.add_assoc. cbn [alphabet min_len]. repeat split; auto; [|lia].
    apply andb_true_iff. split.
    + eapply all_in_weaken; [|exact Hw1]. intros c Hc. now rewrite Hc.
    + eapply all_in_weaken; [|exact Hw2]. intros c Hc. rewrite Hc. apply orb_true_r.
  - destruct (rmatch r1 prev n s k) as [m'|] eqn:H1.
    + injection H as ->. apply IH1 in H1.
      destruct H1 as (w & s' & prev' & -> & H & Hw & Hl).
      exists w, s', prev'. cbn [alphabet min_len]. repeat split; auto; [|lia].
      eapply all_in_weaken; [|exact Hw]. intros c Hc. now rewrite Hc.
    + apply IH2 in H. destruct H as (w & s' & prev' & -> & H & Hw & Hl).
      exists w, s', prev'. cbn [alphabet min_len]. repeat split; auto; [|lia].
      eapply all_in_weaken; [|exact Hw]. intros c Hc. rewrite Hc. apply orb_true_r.
  - destruct (rmatch r1 prev n s k) as [m'|] eqn:H1.
    + injection H as ->. apply IH1 in H1.
      destruct H1 as (w & s' & prev' & -> & H & Hw & Hl).
      exists w, s', prev'. cbn [alphabet min_len]. repeat split; auto. lia.
    + exists "", s, prev. cbn. rewrite Nat.add_0_r. repeat split; auto.
  - exact (star_consumed p s prev n k m H).
  - destruct (xorb _ _); [|discriminate].
    exists "", s, prev. cbn. rewrite Nat.add_0_r. repeat split; auto.
Qed.

(** the text matched at a position *)
Lemma match_here_consumed (r : regex) (prev : option ascii) (s : string) (m : nat) :
  match_here r prev s = Some m ->
  exists w s', s = w ++ s' /\ String.length w = m
               /\ all_in (alphabet r) w = true /\ min_len r <= m.
Proof.
  intros H. apply rmatch_consumed in H.
  destruct H as (w & s' & prev' & -> & H & Hw & Hl).
  injection H as <-. exists w, s'. repeat split; auto.
Qed.

(** a pattern with a mandatory character never matches the empty string *)
Lemma match_here_nonempty (r : regex) (prev : option ascii) (s : string) (m : nat) :
  1 <= min_len r -> match_here r prev s = Some m -> 1 <= m.
Proof.
  intros Hr H. apply match_here_consumed in H.
  destruct H as (w & s' & _ & _ & _ & Hm). lia.
Qed.

Lemma findall_nowhere (r : regex) (s : string) :
  forall prev skip,
    Spec.matches_somewhere r prev s = false -> findall_from r prev skip s = [].
Proof.
  induction s as [|c s IH]; intros prev skip H; [reflexivity|].
  cbn in H |- *. destruct skip as [|skip].
  - destruct (match_here r prev (String c s)) as [[|m]|]; try discriminate; now apply IH.
  - apply IH. destruct (match_here r prev (String c s)) as [[|m]|]; try discriminate; easy.
Qed.

End Matching.

(** ** The extractor *)

Section Extractor.
Import Py Re DocumentProcessor.

(** every pattern of the extractor consumes at least one character *)
Lemma extractor_patterns_consume :
  Forall (fun r => 1 <= min_len r)
    (dollar_pattern :: percent_pattern :: year_pattern :: keyword_patterns).
Proof. repeat constructor; cbn; lia. Qed.

(** the amount is matched where it stands, whatever follows *)
Lemma dollar_match_at_amount (prev : option ascii) (post : string) :
  match_here dollar_pattern prev ("$185.7m" ++ post) = Some 7.
Proof. reflexivity. Qed.

Lemma dollar_no_match_at_space (prev : option ascii) (s : string) :
  match_here dollar_pattern prev (String " " s) = None.
Proof. reflexivity. Qed.

(** no match of the dollar pattern runs over a space *)
Lemma dollar_alphabet_space : alphabet dollar_pattern " " = false.
Proof. reflexivity. Qed.

Lemma findall_dollar_after_space (post : string) (P : string) :
  forall prev skip,
    skip <= String.length P ->
    In "$185.7m" (findall_from dollar_pattern prev skip (P ++ " $185.7m" ++ post)).
Proof.
  induction P as [|c P IH]; intros prev skip Hskip.
  - assert (skip = 0) as -> by (cbn in Hskip; lia).
    change ("" ++ " $185.7m" ++ post) with (String " " ("$185.7m" ++ post)).
    cbn [findall_from]. rewrite dollar_no_match_at_space.
    change ("$185.7m" ++ post) with (String "$" ("185.7m" ++ post)) at 1.
    cbn [findall_from].
    change (String "$" ("185.7m" ++ post)) with ("$185.7m" ++ post).
    rewrite dollar_match_at_amount. left. reflexivity.
  - change (String c P ++ " $185.7m" ++ post)
      with (String c (P ++ " $185.7m" ++ post)).
    cbn [findall_from]. destruct skip as [|skip].
    + destruct (match_here dollar_pattern prev (String c (P ++ " $185.7m" ++ post)))
        as [[|m]|] eqn:Hm; try (apply IH; lia).
      right. apply IH.
      apply match_here_consumed in Hm.
      destruct Hm as (w & s' & Heq & Hlen & Hw & _).
      change (String c (P ++ " $185.7m" ++ post))
        with (String c P ++ String " " ("$185.7m" ++ post)) in Heq.
      symmetry in Heq.
      pose proof (all_in_before _ _ _ _ _ _ Heq Hw dollar_alphabet_space) as Hb.
      cbn in Hb. lia.
    + apply IH. cbn in Hskip. lia.
Qed.

Lemma findall_dollar_surplus (text : string) :
  contains "surplus of $185.7m" text = true ->
  In "$185.7m" (findall dollar_pattern text).
Proof.
  intros H. apply contains_occurrence in H. destruct H as (pre & post & ->).
  change ("surplus of $185.7m" ++ post) with ("surplus of" ++ " $185.7m" ++ post).
  rewrite <- append_assoc. apply findall_dollar_after_space. lia.
Qed.

Variable set_order : list string -> list string.

Lemma set_order_nil : Spec.is_set_order set_order -> set_order [] = [].
Proof.
  intros H. destruct (H []) as [_ Hin].
  destruct (set_order []) as [|x xs]; [reflexivity|].
  destruct (proj1 (Hin x) (or_introl eq_refl)).
Qed.

Lemma keywords_nowhere (text : string) (patterns : list regex) (acc : list string) :
  forallb (fun p => negb (Spec.matches_somewhere p None text)) patterns = true ->
  fold_left (fun keywords pattern => keywords ++ findall pattern text)%list patterns acc
  = acc.
Proof.
  revert acc. induction patterns as [|p ps IH]; intros acc H; [reflexivity|].
  cbn in H |- *. apply andb_true_iff in H. destruct H as [Hp Hps].
  apply negb_true_iff in Hp. unfold findall at 2.
  rewrite (findall_nowhere _ _ _ _ Hp), app_nil_r. now apply IH.
Qed.

End Extractor.

(** C9: the extractor is a total function (it returns a record of four sequences for every
    text and has no failure path): a field whose pattern matches nowhere in the text is the
    empty sequence, and every text containing "surplus of $185.7m" has "$185.7m" among its
    dollar amounts. *)
Theorem extract_financial_data_total (set_order : list string -> list string) :
  Spec.is_set_order set_order ->
  forall text : string,
    let data := DocumentProcessor.extract_financial_data set_order text in
    (Spec.matches_somewhere DocumentProcessor.dollar_pattern None text = false ->
     DocumentProcessor.dollar_amounts data = [])
    /\ (Spec.matches_somewhere DocumentProcessor.percent_pattern None text = false ->
        DocumentProcessor.percentages data = [])
    /\ (Spec.matches_somewhere DocumentProcessor.year_pattern None text = false ->
        DocumentProcessor.years data = [])
    /\ (forallb (fun p => negb (Spec.matches_somewhere p None text))
          DocumentProcessor.keyword_patterns = true ->
        DocumentProcessor.keywords data = [])
    /\ (Py.contains "surplus of $185.7m" text = true ->
        In "$185.7m" (DocumentProcessor.dollar_amounts data)).
Proof.
  intros Hset text data. unfold data, DocumentProcessor.extract_financial_data.
  cbn [DocumentProcessor.dollar_amounts DocumentProcessor.percentages
         DocumentProcessor.years DocumentProcessor.keywords].
  repeat split.
  - intros H. now apply findall_nowhere.
  - intros H. now apply findall_nowhere.
  - intros H. now apply findall_nowhere.
  - intros H. rewrite keywords_nowhere by assumption. now apply set_order_nil.
  - apply findall_dollar_surplus.
Qed.

Lemma demo_set_order_is_set : Spec.is_set_order Demo.set_order.
Proof.
  intros xs. split; [apply NoDup_nodup|]. intros x. apply nodup_In.
Qed.

Lemma extract_financial_data_total_witness :
  In "$185.7m"
    (DocumentProcessor.dollar_amounts
       (DocumentProcessor.extract_financial_data Demo.set_order Demo.document))
  /\ DocumentProcessor.percentages
       (DocumentProcessor.extract_financial_data Demo.set_order Demo.document) = [].
Proof.
  destruct (extract_financial_data_total Demo.set_order demo_set_order_is_set Demo.document)
    as (_ & Hp & _ & _ & Hd).
  split; [apply Hd; reflexivity | apply Hp; reflexivity].
Defined.

(** ** The first maximum of a sequence *)

Section FirstMax.
Context {A : Type} (key : A -> nat).

Lemma max_from_first (best : A) (xs : list A) :
  exists before after,
    best :: xs = (before ++ Py.max_from key best xs :: after)%list
    /\ Forall (fun u => key u < key (Py.max_from key best xs)) before
    /\ Forall (fun u => key u <= key (Py.max_from key best xs)) after.
Proof.
  revert best. induction xs as [|x xs IH]; intros best; simpl.
  - exists [], []. repeat split; constructor.
  - destruct (Nat.ltb_spec (key best) (key x)) as [Hlt|Hge].
    + destruct (IH x) as (before & after & Heq & Hb & Ha).
      remember (Py.max_from key x xs) as r eqn:Hr. clear Hr.
      exists (best :: before), after.
      split; [simpl; now rewrite Heq|]. split; [|exact Ha].
      constructor; [|exact Hb].
      destruct before as [|b before]; simpl in Heq; inversion Heq; subst.
      * assumption.
      * inversion Hb; subst. lia.
    + destruct (IH best) as (before & after & Heq & Hb & Ha).
      remember (Py.max_from key best xs) as r eqn:Hr. clear Hr.
      destruct before as [|b before]; simpl in Heq; inversion Heq; subst.
      * exists [], (x :: after). split; [reflexivity|].
        split; constructor; [lia|assumption].
      * exists (b :: x :: before), after. split; [reflexivity|].
        split; [|exact Ha]. inversion Hb; subst.
        constructor; [assumption|]. constructor; [lia|assumption].
Qed.

End FirstMax.

Lemma filter_split {A : Type} (p : A -> bool) (l before after : list A) (r : A) :
  filter p l = (before ++ r :: after)%list ->
  exists B C, l = (B ++ r :: C)%list /\ filter p B = before /\ filter p C = after
              /\ p r = true.
Proof.
  revert before. induction l as [|x l IH]; intros before H; simpl in H.
  - destruct before; discriminate.
  - destruct (p x) eqn:Hp.
    + destruct before as [|b before]; simpl in H; inversion H; subst.
      * exists [], l. simpl. repeat split; assumption.
      * destruct (IH _ H2) as (B & C & -> & HB & HC & Hr).
        exists (b :: B), C. simpl. rewrite Hp, HB. repeat split; assumption.
    + destruct (IH _ H) as (B & C & -> & HB & HC & Hr).
      exists (x :: B), C. simpl. rewrite Hp. repeat split; assumption.
Qed.

(** ** Topic classification *)

Section Topics.
Import Py ConversationMemory.
Variable text : string.

Lemma identify_topic_unfold :
  _identify_topic text =
  match max_by (Spec.score_key text) (dict_keys (score_topics topic_keywords (lower text) [])) with
  | Some topic => topic
  | None => "general"
  end.
Proof. reflexivity. Qed.

Lemma topic_scores_shape :
  dict_keys (score_topics topic_keywords (lower text) [])
  = filter (fun t => Nat.ltb 0 (Spec.topic_score text t)) Spec.topics
  /\ Forall (fun t => Spec.score_key text t = Spec.topic_score text t) Spec.topics.
Proof.
  unfold Spec.score_key, Spec.topics, Spec.topic_score, topic_keywords.
  repeat match goal with
         | |- context [(?n, ?a :: ?l)] => generalize (a :: l); intro
         end.
  split; [|repeat (apply Forall_cons; [|]); [..|apply Forall_nil]].
  all: cbn.
  all: do 6 match goal with
            | |- context [keyword_score ?k ?t] => generalize (keyword_score k t)
            end.
  all: intros [|n1] [|n2] [|n3] [|n4] [|n5] [|n6]; reflexivity.
Qed.

(** the classification is the first category of maximal score *)
Lemma identify_topic_first_max :
  (_identify_topic text = "general"
   /\ Forall (fun t => Spec.topic_score text t = 0) Spec.topics)
  \/ (exists before t after,
        Spec.topics = (before ++ t :: after)%list
        /\ _identify_topic text = t
        /\ 0 < Spec.topic_score text t
        /\ Forall (fun u => Spec.topic_score text u < Spec.topic_score text t) before
        /\ Forall (fun u => Spec.topic_score text u <= Spec.topic_score text t) after).
Proof.
  rewrite identify_topic_unfold.
  destruct topic_scores_shape as [Hkeys Hkey]. rewrite Hkeys.
  rewrite Forall_forall in Hkey.
  destruct (filter _ Spec.topics) as [|x xs] eqn:Hf.
  - left. split; [reflexivity|]. apply Forall_forall. intros t Ht.
    destruct (Spec.topic_score text t) eqn:Hs; [reflexivity|].
    assert (In t []) as []. rewrite <- Hf. apply filter_In. split; [assumption|].
    rewrite Hs. reflexivity.
  - right. cbn [max_by].
    destruct (max_from_first (Spec.score_key text) x xs) as (before & after & Heq & Hb & Ha).
    remember (max_from (Spec.score_key text) x xs) as r eqn:Hr. clear Hr.
    rewrite <- Hf in Heq. apply filter_split in Heq.
    destruct Heq as (B & C & HBC & HB & HC & Hpos).
    apply Nat.ltb_lt in Hpos.
    assert (Hin : forall u, In u (B ++ r :: C)%list -> In u Spec.topics)
      by (intros u Hu; now rewrite HBC).
    assert (Hr : Spec.score_key text r = Spec.topic_score text r)
      by (apply Hkey, Hin, in_elt).
    exists B, r, C. repeat split; try assumption.
    + apply Forall_forall. intros u Hu.
      destruct (Nat.ltb 0 (Spec.topic_score text u)) eqn:Hp.
      * rewrite Forall_forall in Hb.
        rewrite <- Hr, <- (Hkey u) by (apply Hin, in_or_app; now left).
        apply Hb. rewrite <- HB. apply filter_In. now split.
      * apply Nat.ltb_ge in Hp. lia.
    + apply Forall_forall. intros u Hu.
      destruct (Nat.ltb 0 (Spec.topic_score text u)) eqn:Hp.
      * rewrite Forall_forall in Ha.
        rewrite <- Hr, <- (Hkey u) by (apply Hin, in_or_app; right; now right).
        apply Ha. rewrite <- HC. apply filter_In. now split.
      * apply Nat.ltb_ge in Hp. lia.
Qed.

(** the values [_identify_topic] can take *)
Lemma identify_topic_range :
  In (_identify_topic text) ("general" :: Spec.topics).
Proof.
  destruct identify_topic_first_max as [[-> _]|(before & t & after & Ht & -> & _)].
  - now left.
  - right. rewrite Ht. apply in_elt.
Qed.

End Topics.

(** the score the code computes is the number of keywords of the category that occur in
    the text *)
Lemma keyword_score_counts (keywords : list string) (text : string) :
  ConversationMemory.keyword_score keywords (Py.lower text)
  = Spec.count_occurring keywords text.
Proof.
  unfold ConversationMemory.keyword_score.
  induction keywords as [|keyword keywords IH]; [reflexivity|].
  cbn [filter Spec.count_occurring]. unfold Spec.occurs at 1.
  destruct (Py.contains keyword (Py.lower text)); cbn [List.length]; now rewrite IH.
Qed.

Lemma topic_score_counts (text : string) (category : string * list string) :
  In category Spec.categories ->
  Spec.topic_score text (fst category) = Spec.category_score text category.
Proof.
  unfold Spec.categories, ConversationMemory.topic_keywords, Spec.category_score.
  intros H. cbn [In] in H.
  repeat destruct H as [<-|H]; try destruct H; cbn [fst snd];
    rewrite <- keyword_score_counts; reflexivity.
Qed.

(** an occurrence is a substring of the lower-cased text *)
Lemma occurs_substring (keyword text : string) :
  Spec.occurs keyword text = true
  <-> exists pre post, Py.lower text = pre ++ keyword ++ post.
Proof.
  unfold Spec.occurs. split.
  - apply contains_occurrence.
  - intros (pre & post & ->). apply contains_intro.
Qed.

(** C4: topic classification is a total, deterministic function of the text.  The six
    categories are, in this order, budget, debt, infrastructure, taxation, superannuation
    and risk, with the keyword sets below; the score of a category is the number of its
    keywords that occur in the lower-cased text as substrings; the result is the first
    category of maximal score, and "general" when every score is zero. *)
Theorem identify_topic_is_first_argmax :
  Spec.categories
  = [ ("budget", ["budget"; "surplus"; "deficit"; "revenue"; "expenses"]);
      ("debt", ["debt"; "borrowing"; "interest"; "cost"; "borrowings"]);
      ("infrastructure", ["infrastructure"; "capital"; "construction"; "works"; "projects"]);
      ("taxation", ["taxation"; "tax"; "gsp"; "burden"; "revenue"]);
      ("superannuation", ["superannuation"; "pension"; "funding"; "liabilities"]);
      ("risk", ["risk"; "assessment"; "mitigation"; "management"; "prudent"]) ]
  /\ (forall keyword text,
        Spec.occurs keyword text = true
        <-> exists pre post, Py.lower text = pre ++ keyword ++ post)
  /\ (forall text,
        Spec.count_occurring [] text = 0
        /\ forall keyword keywords,
             Spec.count_occurring (keyword :: keywords) text
             = (if Spec.occurs keyword text then 1 else 0)
               + Spec.count_occurring keywords text)
  /\ forall text : string,
       (ConversationMemory._identify_topic text = "general"
        /\ Forall (fun c => Spec.category_score text c = 0) Spec.categories)
       \/ (exists before c after,
             Spec.categories = (before ++ c :: after)%list
             /\ ConversationMemory._identify_topic text = fst c
             /\ 0 < Spec.category_score text c
             /\ Forall (fun u => Spec.category_score text u < Spec.category_score text c)
                  before
             /\ Forall (fun u => Spec.category_score text u <= Spec.category_score text c)
                  after).
Proof.
  split; [reflexivity|]. split; [exact occurs_substring|].
  split; [intros text; split; reflexivity|]. intros text.
  assert (Hall : Forall (fun c => Spec.topic_score text (fst c)
                                  = Spec.category_score text c) Spec.categories)
    by (apply Forall_forall; intros c Hc; now apply topic_score_counts).
  destruct (identify_topic_first_max text)
    as [[Hg Hzero]|(before & t & after & Ht & Hid & Hpos & Hb & Ha)].
  - left. split; [exact Hg|].
    unfold Spec.topics, Py.dict_keys in Hzero. fold Spec.categories in Hzero.
    rewrite Forall_map in Hzero.
    rewrite Forall_forall in Hzero, Hall |- *.
    intros c Hc. rewrite <- (Hall c Hc). now apply Hzero.
  - right.
    unfold Spec.topics, Py.dict_keys in Ht. fold Spec.categories in Ht.
    apply map_eq_app in Ht. destruct Ht as (B & rest & Hsplit & HB & Hrest).
    apply map_eq_cons in Hrest. destruct Hrest as (c & A & -> & Hc & HA).
    subst before t after.
    rewrite Hsplit in Hall.
    apply Forall_app in Hall. destruct Hall as [HallB HallCA].
    inversion HallCA as [|? ? Hcc HallA]; subst.
    rewrite Forall_map in Hb, Ha.
    exists B, c, A. rewrite <- Hcc.
    split; [exact Hsplit|]. split; [exact Hid|]. split; [exact Hpos|]. split.
    + rewrite Forall_forall in Hb, HallB |- *.
      intros u Hu. rewrite <- (HallB u Hu). now apply Hb.
    + rewrite Forall_forall in Ha, HallA |- *.
      intros u Hu. rewrite <- (HallA u Hu). now apply Ha.
Qed.

(** "revenue" is a keyword of budget and of taxation: the category declared first wins *)
Example identify_topic_tie :
  Spec.topic_score "Revenue outlook" "budget" = 1
  /\ Spec.topic_score "Revenue outlook" "taxation" = 1
  /\ ConversationMemory._identify_topic "Revenue outlook" = "budget".
Proof. repeat split; reflexivity. Qed.

Example identify_topic_none : ConversationMemory._identify_topic "Good morning" = "general".
Proof. reflexivity. Qed.

(** ** Question enhancement *)

Lemma enhance_question_ranked (m : ConversationMemory.t) (question : string) :
  ConversationMemory.enhance_question m question = Spec.enhance m question.
Proof.
  unfold ConversationMemory.enhance_question, Spec.enhance, Spec.mentions_any,
    Spec.topic_is_set, Spec.topic_is_general, Spec.topic_name,
    ConversationMemory.truthy, ConversationMemory.topic_words,
    Spec.vague_phrases, Spec.pronouns.
  destruct (Py.any _ ["tell me more"; _; _; _]);
    destruct (ConversationMemory.current_topic m) as [s|]; cbn [andb negb];
    try reflexivity.
  destruct (s =? ""), (s =? "general"); reflexivity.
Qed.

(** the topic names carry no underscore: the rewriting appends them as they are *)
Lemma topic_name_verbatim (text : string) :
  Py.replace_char "_" " " (ConversationMemory._identify_topic text)
  = ConversationMemory._identify_topic text.
Proof.
  pose proof (identify_topic_range text) as H. cbn in H.
  repeat destruct H as [<-|H]; try reflexivity. destruct H.
Qed.


(** the pronouns are looked for as substrings: "deficit" contains "it" *)
Example enhance_question_substring :
  ConversationMemory.enhance_question
    (ConversationMemory.add_interaction (ConversationMemory.new 10) "Is there a surplus?" "yes")
    "What is the deficit?"
  = "What is the deficit? (referring to budget)".
Proof. reflexivity. Qed.

(** ** Conversation memory *)

Section LastN.
Context {A : Type}.
Local Open Scope list_scope.

Lemma last_n_length (n : nat) (xs : list A) :
  List.length (Py.last_n n xs) = Nat.min n (List.length xs).
Proof. unfold Py.last_n. rewrite length_skipn. lia. Qed.

Lemma last_n_app (n : nat) (xs ys : list A) :
  Py.last_n n (Py.last_n n xs ++ ys) = Py.last_n n (xs ++ ys).
Proof.
  unfold Py.last_n at 1 3.
  rewrite length_app, last_n_length, length_app.
  unfold Py.last_n.
  set (k := List.length xs - n).
  assert (Hk : k <= List.length xs) by (unfold k; lia).
  replace (skipn k xs ++ ys) with (skipn k (xs ++ ys)).
  - rewrite skipn_skipn. f_equal. unfold k. lia.
  - rewrite skipn_app. replace (k - List.length xs) with 0 by lia. reflexivity.
Qed.

Lemma last_n_short (n : nat) (xs : list A) :
  List.length xs <= n -> Py.last_n n xs = xs.
Proof.
  intros H. unfold Py.last_n. replace (List.length xs - n) with 0 by lia. reflexivity.
Qed.

Lemma last_n_tl (n : nat) (xs : list A) :
  List.length xs = S n -> Py.last_n n xs = tl xs.
Proof.
  intros H. unfold Py.last_n. replace (List.length xs - n) with 1 by lia.
  destruct xs; reflexivity.
Qed.

End LastN.

Section Memory.
Import ConversationMemory.

Lemma add_interaction_history (m : t) (q r : string) :
  List.length (conversation_history m) <= max_history m ->
  conversation_history (add_interaction m q r)
  = Py.last_n (max_history m)
      (conversation_history m ++ [Spec.interaction_of (q, r)])%list.
Proof.
  intros H.
  set (h := (conversation_history m ++ [Spec.interaction_of (q, r)])%list).
  change (conversation_history (add_interaction m q r))
    with (if Nat.ltb (max_history m) (List.length h) then pop0 h else h).
  assert (Hh : List.length h = S (List.length (conversation_history m)))
    by (unfold h; rewrite length_app; simpl; lia).
  destruct (Nat.ltb_spec (max_history m) (List.length h)).
  - symmetry. apply last_n_tl. lia.
  - symmetry. apply last_n_short. lia.
Qed.

Lemma add_interaction_bounded (m : t) (q r : string) :
  List.length (conversation_history m) <= max_history m ->
  List.length (conversation_history (add_interaction m q r)) <= max_history m.
Proof.
  intros H. rewrite add_interaction_history by assumption.
  rewrite last_n_length. lia.
Qed.

Lemma record_all_max_history (qrs : list (string * string)) (m : t) :
  max_history (Spec.record_all m qrs) = max_history m.
Proof.
  revert m. induction qrs as [|qr qrs IH]; intros m; [reflexivity|].
  cbn. unfold Spec.record_all in IH. rewrite IH. reflexivity.
Qed.

Lemma record_all_history (qrs : list (string * string)) (m : t) :
  List.length (conversation_history m) <= max_history m ->
  conversation_history (Spec.record_all m qrs)
  = Py.last_n (max_history m)
      (conversation_history m ++ map Spec.interaction_of qrs)%list.
Proof.
  revert m. induction qrs as [|[q r] qrs IH]; intros m H.
  - cbn. rewrite app_nil_r. symmetry. now apply last_n_short.
  - cbn [Spec.record_all fold_left fst snd].
    change (fold_left _ qrs ?x) with (Spec.record_all x qrs).
    rewrite IH by exact (add_interaction_bounded m q r H).
    cbn [max_history add_interaction].
    rewrite add_interaction_history by assumption.
    rewrite last_n_app, <- app_assoc. reflexivity.
Qed.

Lemma record_all_current_topic (qrs : list (string * string)) (m : t) (q r : string) :
  current_topic (Spec.record_all m (qrs ++ [(q, r)])%list) = Some (_identify_topic q).
Proof.
  unfold Spec.record_all. rewrite fold_left_app. reflexivity.
Qed.

End Memory.

(** C5: the conversation memory is a bounded FIFO: a record operation keeps the history
    within the capacity; after N+1 records into an empty memory of capacity N the history
    holds exactly the N latest interactions in order of arrival, so the oldest one has been
    evicted, and the current topic is the topic of the question recorded last. *)
Theorem memory_bounded_fifo :
  (forall (m : ConversationMemory.t) (q r : string),
      List.length (ConversationMemory.conversation_history m) <= ConversationMemory.max_history m ->
      List.length (ConversationMemory.conversation_history (ConversationMemory.add_interaction m q r))
      <= ConversationMemory.max_history m)
  /\ (forall (N : nat) (qrs : list (string * string)),
        List.length (ConversationMemory.conversation_history
                       (Spec.record_all (ConversationMemory.new N) qrs)) <= N)
  /\ (forall (N : nat) (first : string * string) (rest : list (string * string)),
        List.length rest = N ->
        let m := Spec.record_all (ConversationMemory.new N) (first :: rest) in
        ConversationMemory.conversation_history m = map Spec.interaction_of rest
        /\ ConversationMemory.history_length (ConversationMemory.get_context m) = N
        /\ (~ In (Spec.interaction_of first) (map Spec.interaction_of rest) ->
            ~ In (Spec.interaction_of first) (ConversationMemory.conversation_history m))
        /\ ConversationMemory.current_topic m
           = Some (ConversationMemory._identify_topic (fst (last rest first))))
  /\ (forall qrs : list (string * string),
        List.length qrs = 11 ->
        ConversationMemory.history_length
          (ConversationMemory.get_context (Spec.record_all (ConversationMemory.new 10) qrs)) = 10)
  /\ (forall (m : ConversationMemory.t) (q r : string),
        ConversationMemory.current_topic (ConversationMemory.add_interaction m q r)
        = Some (ConversationMemory._identify_topic q)).
Proof.
  assert (Hall : forall N qrs,
             ConversationMemory.conversation_history
               (Spec.record_all (ConversationMemory.new N) qrs)
             = Py.last_n N (map Spec.interaction_of qrs)).
  { intros N qrs. rewrite record_all_history by (cbn; lia). reflexivity. }
  split; [exact add_interaction_bounded|].
  split; [intros N qrs; rewrite Hall, last_n_length; lia|].
  split.
  - intros N first rest Hlen m.
    assert (Hm : ConversationMemory.conversation_history m = map Spec.interaction_of rest).
    { unfold m. rewrite Hall. rewrite last_n_tl; [reflexivity|].
      cbn. rewrite length_map. now f_equal. }
    split; [exact Hm|]. split.
    { cbn [ConversationMemory.get_context ConversationMemory.history_length].
      rewrite Hm, length_map. exact Hlen. }
    split; [now rewrite Hm|].
    unfold m.
    assert (Hne : first :: rest <> []) by discriminate.
    assert (Hl : last (first :: rest) first = last rest first)
      by (destruct rest; reflexivity).
    rewrite (app_removelast_last first Hne), Hl.
    destruct (last rest first) as [q r].
    rewrite record_all_current_topic. reflexivity.
  - split; [|reflexivity].
    intros qrs Hlen. cbn [ConversationMemory.get_context ConversationMemory.history_length].
    rewrite Hall, last_n_length, length_map, Hlen. reflexivity.
Qed.

(** ** Response synthesis *)

Section Synthesis.
Import Py FinancialChatbot.
Variable set_order : list string -> list string.

Lemma create_contextual_response_dispatch
  (question : string) (content_pieces sources : list string) :
  _create_contextual_response set_order question content_pieces sources
  = Spec.render set_order (Spec.select_template question)
      (join " " (firstn 2 content_pieces)) sources.
Proof.
  unfold _create_contextual_response, Spec.select_template, Spec.template_rules,
    Spec.mentions_any.
  cbn [find fst snd].
  repeat match goal with
         | |- context [any ?f ?l] => destruct (any f l); [reflexivity|]
         end.
  reflexivity.
Qed.

(** the templates differ in their first bytes: the rendered text tells the template *)
Lemma render_injective (t1 t2 : Spec.Template) (c1 c2 : string) (s1 s2 : list string) :
  Spec.render set_order t1 c1 s1 = Spec.render set_order t2 c2 s2 -> t1 = t2.
Proof.
  intros H.
  assert (H7 : substring 0 7 (Spec.render set_order t1 c1 s1)
               = substring 0 7 (Spec.render set_order t2 c2 s2)) by now rewrite H.
  clear H. destruct t1, t2; try reflexivity; cbn in H7; discriminate H7.
Qed.

End Synthesis.

(** ** Loops over indices *)

Section Loops.
Import Exn.
Context {R B : Type}.

Lemma for_each_indices (N : list R) (F : nat -> Exc B) (g : R -> B) :
  forall a : nat,
    (forall i r, nth_error N i = Some r -> F (a + i) = ret (g r)) ->
    for_each F (seq a (List.length N)) = ret (map g N).
Proof.
  induction N as [|x N IH]; intros a HF; [reflexivity|].
  cbn [List.length seq for_each map].
  rewrite <- (Nat.add_0_r a) at 1. rewrite (HF 0 x eq_refl). cbn [bind ret].
  rewrite (IH (S a)); [reflexivity|].
  intros i r Hi. rewrite Nat.add_succ_comm. now apply HF.
Qed.

End Loops.

(** ** The vector store *)

Section Store.
Import Exn VectorDatabase.
Context {Embedding : Type}.
Variable encode : string -> Exc Embedding.
Variable distance : Embedding -> Embedding -> Q.

Lemma insert_nearest_Forall (P : @Entry Embedding * Q -> Prop) (x : @Entry Embedding * Q)
  (l : list (@Entry Embedding * Q)) :
  P x -> Forall P l -> Forall P (insert_nearest x l).
Proof.
  intros Hx Hl. induction Hl as [|y l Hy Hl IH]; cbn.
  - now constructor.
  - destruct (Qle_bool (snd x) (snd y)); repeat constructor; assumption.
Qed.

Lemma insert_nearest_sorted (x : @Entry Embedding * Q) (l : list (@Entry Embedding * Q)) :
  StronglySorted Spec.nearer l -> StronglySorted Spec.nearer (insert_nearest x l).
Proof.
  intros Hl. induction Hl as [|y l Hl IH Hy]; cbn.
  - repeat constructor.
  - destruct (Qle_bool (snd x) (snd y)) eqn:Hxy.
    + apply Qle_bool_iff in Hxy. constructor; [now constructor|].
      constructor; [exact Hxy|].
      eapply Forall_impl; [|exact Hy]. intros z Hz. unfold Spec.nearer in *.
      now apply Qle_trans with (snd y).
    + constructor; [exact IH|]. apply insert_nearest_Forall; [|exact Hy].
      unfold Spec.nearer. apply Qlt_le_weak, Qnot_le_lt. intros H.
      apply Qle_bool_iff in H. congruence.
Qed.

Lemma sort_nearest_sorted (l : list (@Entry Embedding * Q)) : StronglySorted Spec.nearer (sort_nearest l).
Proof.
  induction l as [|x l IH]; cbn; [constructor|now apply insert_nearest_sorted].
Qed.

Lemma insert_nearest_length (x : @Entry Embedding * Q) (l : list (@Entry Embedding * Q)) :
  List.length (insert_nearest x l) = S (List.length l).
Proof.
  induction l as [|y l IH]; cbn; [reflexivity|].
  destruct (Qle_bool (snd x) (snd y)); cbn; [reflexivity|now rewrite IH].
Qed.

Lemma sort_nearest_length (l : list (@Entry Embedding * Q)) :
  List.length (sort_nearest l) = List.length l.
Proof.
  induction l as [|x l IH]; [reflexivity|].
  change (sort_nearest (x :: l)) with (insert_nearest x (sort_nearest l)).
  rewrite insert_nearest_length. cbn [List.length]. f_equal. exact IH.
Qed.

Lemma firstn_Forall {A : Type} (P : A -> Prop) (k : nat) (l : list A) :
  Forall P l -> Forall P (firstn k l).
Proof.
  intros Hl. revert k. induction Hl as [|x l Hx Hl IH]; intros [|k]; cbn;
    constructor; auto.
Qed.

Lemma firstn_sorted {A : Type} (R : A -> A -> Prop) (k : nat) (l : list A) :
  StronglySorted R l -> StronglySorted R (firstn k l).
Proof.
  intros Hl. revert k. induction Hl as [|x l Hl IH Hx]; intros [|k]; cbn;
    try constructor; [apply IH|now apply firstn_Forall].
Qed.

Lemma nearest_sorted (c : Collection) (q : Embedding) (k : nat) :
  StronglySorted Spec.nearer (nearest distance c q k).
Proof. apply firstn_sorted, sort_nearest_sorted. Qed.

Lemma nearest_length (c : Collection) (q : Embedding) (k : nat) :
  List.length (nearest distance c q k) = Nat.min k (collection_count c).
Proof.
  unfold nearest, collection_count.
  now rewrite length_firstn, sort_nearest_length, length_map.
Qed.

Lemma format_row_sorted (l : list (@Entry Embedding * Q)) :
  StronglySorted Spec.nearer l ->
  StronglySorted Spec.at_least_as_similar (map Spec.format_row l).
Proof.
  intros Hl. induction Hl as [|x l Hl IH Hx]; cbn; constructor; [exact IH|].
  apply Forall_map. eapply Forall_impl; [|exact Hx].
  intros y Hy. unfold Spec.nearer in Hy. cbn. unfold Qminus.
  apply Qplus_le_r. now apply Qopp_le_compat.
Qed.

(** [search] raises exactly when the encoder does; otherwise it formats the rows
    returned by the store, in their order *)
Lemma search_run (self : t) (query : string) (k : nat) :
  search encode distance self query k
  = match encode query with
    | inl e => inl e
    | inr emb => inr (map Spec.format_row (nearest distance (collection self) emb k))
    end.
Proof.
  unfold search. destruct (encode query) as [e|emb]; [reflexivity|].
  cbn [bind collection_query documents metadatas distances map index nth_error ret].
  set (N := nearest distance (collection self) emb k).
  rewrite length_map.
  apply for_each_indices. intros i r Hi. cbn [Nat.add].
  unfold index. rewrite !nth_error_map, Hi. reflexivity.
Qed.

End Store.

(** C7: [search] raises only when the encoder does; otherwise, for every query and every
    k, it returns at most k results (as many as the store holds when that is less, so none
    from an empty store), ordered by non-increasing score, the score of each being one minus
    the distance the store returned for it. *)
Theorem search_top_k {Embedding : Type} (encode : string -> Exn.Exc Embedding)
  (distance : Embedding -> Embedding -> Q) (self : VectorDatabase.t)
  (query : string) (k : nat) :
  match encode query with
  | inl e => VectorDatabase.search encode distance self query k = inl e
  | inr emb =>
      exists results : list VectorDatabase.SearchResult,
        VectorDatabase.search encode distance self query k = inr results
        /\ List.length results <= k
        /\ List.length results
           = Nat.min k (VectorDatabase.collection_count (VectorDatabase.collection self))
        /\ StronglySorted Spec.at_least_as_similar results
        /\ map VectorDatabase.score results
           = map (fun d => (1 - d)%Q)
               (nth 0 (VectorDatabase.distances
                         (VectorDatabase.collection_query distance
                            (VectorDatabase.collection self) [emb] k)) [])
        /\ (VectorDatabase.collection self = [] -> results = [])
  end.
Proof.
  rewrite search_run. destruct (encode query) as [e|emb]; [reflexivity|].
  eexists. split; [reflexivity|].
  assert (Hlen : List.length
                   (map Spec.format_row
                      (VectorDatabase.nearest distance (VectorDatabase.collection self) emb k))
                 = Nat.min k (VectorDatabase.collection_count (VectorDatabase.collection self)))
    by (rewrite length_map; apply nearest_length).
  split; [rewrite Hlen; lia|]. split; [exact Hlen|].
  split; [apply format_row_sorted, nearest_sorted|].
  split; [cbn; rewrite !map_map; reflexivity|].
  intros Hempty. apply length_zero_iff_nil. rewrite Hlen, Hempty.
  apply Nat.min_0_r.
Qed.

(** ** The orchestrator *)

Section Orchestrator.
Import Exn FinancialChatbot.
Context {Embedding : Type}.
Variable encode : string -> Exc Embedding.
Variable distance : Embedding -> Embedding -> Q.
Variable set_order : list string -> list string.
Variable split_text : DocumentProcessor.TextSplitter -> string -> list string.
Variable read_file : string -> Exc string.

(** the value and the final object of the [try] block of [ask] *)
Lemma ask_body_run (self : t) (question : string) :
  ask_body encode distance set_order question self
  = let enhanced := ConversationMemory.enhance_question (memory self) question in
    match encode enhanced with
    | inl e => (inl e, self)
    | inr emb =>
        let response :=
          _generate_response set_order enhanced
            (map Spec.format_row (VectorDatabase.nearest distance
                               (VectorDatabase.collection (vector_db self)) emb 3)) in
        (inr response,
         set_memory self (ConversationMemory.add_interaction (memory self) question response))
    end.
Proof.
  unfold ask_body, mbind, get, call, update, mret. cbv zeta.
  rewrite search_run.
  destruct (encode (ConversationMemory.enhance_question (memory self) question));
    reflexivity.
Qed.

Lemma ask_converts (self : t) (question : string) :
  is_initialized self = true ->
  ask encode distance set_order question self
  = match ask_body encode distance set_order question self with
    | (inr response, self') => (inr response, self')
    | (inl e, self') => (inr (Spec.apology_for (str e)), self')
    end.
Proof.
  intros H. unfold ask, mbind, get, try_except, mret. rewrite H. cbn [negb].
  destruct (ask_body encode distance set_order question self) as [[e|response] self'];
    reflexivity.
Qed.

(** [ask] returns an answer, whatever the state of the object *)
Lemma ask_returns (self : t) (question : string) :
  exists answer self', ask encode distance set_order question self = (inr answer, self').
Proof.
  unfold ask, mbind, get, try_except, mret.
  destruct (is_initialized self); cbn [negb]; [|eexists; eexists; reflexivity].
  destruct (ask_body encode distance set_order question self) as [[e|response] self'];
    eexists; eexists; reflexivity.
Qed.

(** a populated store is left alone by [_initialize] *)
Lemma initialize_populated (self : t) :
  0 < VectorDatabase.document_count (VectorDatabase.get_collection_info (vector_db self)) ->
  vector_db (snd (_initialize encode set_order split_text read_file self)) = vector_db self.
Proof.
  intros H. unfold _initialize, mbind, get, call, update, mret.
  destruct (DocumentProcessor.process_document _ _ _ _) as [e|documents]; [reflexivity|].
  destruct (Nat.eqb_spec
              (VectorDatabase.document_count
                 (VectorDatabase.get_collection_info (vector_db self))) 0) as [E|_];
    [lia|reflexivity].
Qed.

Lemma initialize_run (self : t) :
  _initialize encode set_order split_text read_file self
  = match DocumentProcessor.process_document set_order split_text read_file
            (processor self) with
    | inl e => (inl e, self)
    | inr documents =>
        if Nat.eqb (VectorDatabase.document_count
                      (VectorDatabase.get_collection_info (vector_db self))) 0
        then match VectorDatabase.add_documents encode (vector_db self) documents with
             | inl e => (inl e, self)
             | inr db => (inr tt, set_is_initialized (set_vector_db self db) true)
             end
        else (inr tt, set_is_initialized self true)
    end.
Proof.
  unfold _initialize, mbind, get, call, update, mret.
  destruct (DocumentProcessor.process_document _ _ _ _) as [e|documents]; [reflexivity|].
  destruct (Nat.eqb _ 0); [|reflexivity].
  destruct (VectorDatabase.add_documents _ _ _); reflexivity.
Qed.

(** running [_initialize] again changes nothing in the store *)
Lemma initialize_twice (self : t) :
  let once := snd (_initialize encode set_order split_text read_file self) in
  vector_db (snd (_initialize encode set_order split_text read_file once)) = vector_db once.
Proof.
  cbv zeta. rewrite (initialize_run self).
  destruct (DocumentProcessor.process_document set_order split_text read_file
              (processor self)) as [e|documents] eqn:Hdoc.
  - cbn [snd]. rewrite initialize_run, Hdoc. reflexivity.
  - destruct (Nat.eqb_spec
                (VectorDatabase.document_count
                   (VectorDatabase.get_collection_info (vector_db self))) 0) as [E|E].
    + unfold VectorDatabase.add_documents.
      destruct (VectorDatabase.prepare encode documents _) as [e|b] eqn:Hb; cbn [bind ret snd].
      * rewrite initialize_run, Hdoc.
        destruct (Nat.eqb _ 0); [|reflexivity].
        unfold VectorDatabase.add_documents. rewrite Hb. reflexivity.
      * rewrite initialize_run.
        cbn [snd processor set_is_initialized set_vector_db vector_db].
        rewrite Hdoc.
        destruct (Nat.eqb_spec
                    (VectorDatabase.document_count
                       (VectorDatabase.get_collection_info
                          {| VectorDatabase.collection_name :=
                               VectorDatabase.collection_name (vector_db self);
                             VectorDatabase.collection :=
                               VectorDatabase.collection_add
                                 (VectorDatabase.collection (vector_db self))
                                 (VectorDatabase.embeddings b)
                                 (VectorDatabase.batch_metadatas b)
                                 (VectorDatabase.documents_content b)
                                 (VectorDatabase.ids b) |})) 0) as [E'|E'];
          [|reflexivity].
        unfold VectorDatabase.add_documents. rewrite Hb. cbn [bind ret snd vector_db].
        cbn in E'. unfold VectorDatabase.collection_count, VectorDatabase.collection_add in E'.
        rewrite length_app in E'.
        assert (Hz : VectorDatabase.zip_entries (VectorDatabase.ids b)
                       (VectorDatabase.embeddings b) (VectorDatabase.batch_metadatas b)
                       (VectorDatabase.documents_content b) = [])
          by (apply length_zero_iff_nil; lia).
        cbn [VectorDatabase.collection VectorDatabase.collection_name].
        unfold VectorDatabase.collection_add. rewrite Hz, !app_nil_r. reflexivity.
    + cbn [snd]. rewrite initialize_run.
      cbn [processor set_is_initialized vector_db]. rewrite Hdoc.
      destruct (Nat.eqb_spec
                  (VectorDatabase.document_count
                     (VectorDatabase.get_collection_info (vector_db self))) 0);
        [contradiction|reflexivity].
Qed.

(** the chunk records follow the pieces of the splitter one for one, in their order *)
Lemma process_chunks_content (chunks : list string) :
  forall i : nat,
    map DocumentProcessor.content (DocumentProcessor.process_chunks set_order i chunks)
    = chunks
    /\ map DocumentProcessor.id (DocumentProcessor.process_chunks set_order i chunks)
       = map (fun j => "chunk_" ++ Py.str_of_nat j) (seq i (List.length chunks)).
Proof.
  induction chunks as [|chunk chunks IH]; intros i; [split; reflexivity|].
  destruct (IH (S i)) as [Hc Hi]. cbn. rewrite Hc, Hi. split; reflexivity.
Qed.

Lemma process_document_content (self : DocumentProcessor.t) (text : string) :
  read_file (DocumentProcessor.document_path self) = inr text ->
  exists chunks,
    DocumentProcessor.process_document set_order split_text read_file self = inr chunks
    /\ map DocumentProcessor.content chunks
       = split_text (DocumentProcessor.text_splitter self) text.
Proof.
  intros H. unfold DocumentProcessor.process_document. rewrite H.
  eexists. split; [reflexivity|]. apply process_chunks_content.
Qed.

End Orchestrator.


(** C1: for every question and every chatbot [ask] returns a text and raises nothing; in
    the Ready state, when the pipeline enhance, search, generate, record raises an exception
    the answer is the apology followed by the message of that exception, otherwise it is the
    generated response.  The only step of the pipeline that can raise is the encoding of the
    enhanced question inside the search. *)
Theorem ask_never_raises {Embedding : Type} (encode : string -> Exn.Exc Embedding)
  (distance : Embedding -> Embedding -> Q) (set_order : list string -> list string)
  (self : FinancialChatbot.t) (question : string) :
  FinancialChatbot.is_initialized self = true ->
  (exists (answer : string) (self' : FinancialChatbot.t),
      FinancialChatbot.ask encode distance set_order question self = (inr answer, self'))
  /\ (forall (e : Exn.exn) (self' : FinancialChatbot.t),
        FinancialChatbot.ask_body encode distance set_order question self = (inl e, self') ->
        fst (FinancialChatbot.ask encode distance set_order question self)
        = inr ("I apologize, but I encountered an error while processing your question: "
               ++ Exn.str e))
  /\ (forall (response : string) (self' : FinancialChatbot.t),
        FinancialChatbot.ask_body encode distance set_order question self
        = (inr response, self') ->
        fst (FinancialChatbot.ask encode distance set_order question self) = inr response)
  /\ match encode (ConversationMemory.enhance_question
                     (FinancialChatbot.memory self) question) with
     | inl e =>
         fst (FinancialChatbot.ask_body encode distance set_order question self) = inl e
     | inr _ =>
         exists response,
           fst (FinancialChatbot.ask_body encode distance set_order question self)
           = inr response
     end.
Proof.
  intros Hready. split; [apply ask_returns|].
  rewrite ask_converts by assumption.
  split; [intros e self' ->; reflexivity|].
  split; [intros response self' ->; reflexivity|].
  rewrite ask_body_run. cbv zeta.
  destruct (encode _) as [e|emb]; [reflexivity|]. eexists. reflexivity.
Qed.

Lemma demo_ready_initialized : FinancialChatbot.is_initialized Demo.ready = true.
Proof. reflexivity. Qed.

Lemma ask_never_raises_witness :
  fst (FinancialChatbot.ask Demo.encode Demo.distance Demo.set_order "boom" Demo.ready)
  = inr "I apologize, but I encountered an error while processing your question: encoder unavailable".
Proof.
  exact (proj1 (proj2 (ask_never_raises Demo.encode Demo.distance Demo.set_order Demo.ready
                         "boom" demo_ready_initialized))
           (Exn.Exception "encoder unavailable") Demo.ready eq_refl).
Defined.

(** C2: initialisation adds to the vector store only when its document count is 0: run
    against a populated store it leaves the store, hence its document count and its vectors,
    as they were; and running it a second time never changes the store left by the first
    run, whatever that store is. *)
Theorem initialize_idempotent {Embedding : Type} (encode : string -> Exn.Exc Embedding)
  (set_order : list string -> list string)
  (split_text : DocumentProcessor.TextSplitter -> string -> list string)
  (read_file : string -> Exn.Exc string) :
  (forall self : FinancialChatbot.t,
      0 < VectorDatabase.document_count
            (VectorDatabase.get_collection_info (FinancialChatbot.vector_db self)) ->
      let again :=
        snd (FinancialChatbot._initialize encode set_order split_text read_file self) in
      FinancialChatbot.vector_db again = FinancialChatbot.vector_db self
      /\ VectorDatabase.document_count
           (VectorDatabase.get_collection_info (FinancialChatbot.vector_db again))
         = VectorDatabase.document_count
             (VectorDatabase.get_collection_info (FinancialChatbot.vector_db self))
      /\ VectorDatabase.collection (FinancialChatbot.vector_db again)
         = VectorDatabase.collection (FinancialChatbot.vector_db self))
  /\ (forall self : FinancialChatbot.t,
        let once :=
          snd (FinancialChatbot._initialize encode set_order split_text read_file self) in
        let twice :=
          snd (FinancialChatbot._initialize encode set_order split_text read_file once) in
        FinancialChatbot.vector_db twice = FinancialChatbot.vector_db once)
  /\ (forall (path : string) (stored : VectorDatabase.Collection)
        (self : FinancialChatbot.t),
        0 < VectorDatabase.collection_count stored ->
        FinancialChatbot.new encode set_order split_text read_file path stored = inr self ->
        VectorDatabase.collection (FinancialChatbot.vector_db self) = stored).
Proof.
  split; [|split].
  - intros self Hpop again.
    assert (H : FinancialChatbot.vector_db again = FinancialChatbot.vector_db self)
      by (apply initialize_populated; assumption).
    rewrite H. repeat split.
  - intros self. apply initialize_twice.
  - intros path stored self Hpop Hnew. unfold FinancialChatbot.new in Hnew.
    match type of Hnew with
    | context [FinancialChatbot._initialize _ _ _ _ ?s] =>
        pose proof (initialize_populated encode set_order split_text read_file s Hpop) as H
    end.
    destruct (FinancialChatbot._initialize _ _ _ _ _) as [[e|u] self']; [discriminate|].
    injection Hnew as <-. cbn in H. now rewrite H.
Qed.

Lemma initialize_idempotent_witness :
  VectorDatabase.document_count
    (VectorDatabase.get_collection_info
       (FinancialChatbot.vector_db
          (snd (FinancialChatbot._initialize Demo.encode Demo.set_order Demo.split_text
                  Demo.read_file Demo.ready))))
  = 2.
Proof.
  refine (eq_trans
            (proj1 (proj2 (proj1 (initialize_idempotent Demo.encode Demo.set_order
                                    Demo.split_text Demo.read_file) Demo.ready _)))
            eq_refl).
  vm_compute. lia.
Defined.

(** C10: [ask] leaves the conversation memory untouched when it fails: if the pipeline
    raises, so that [ask] answers with the apology, the history and the current topic are
    what they were before the call; the record step runs only once a response exists. *)
Theorem ask_failure_keeps_memory {Embedding : Type} (encode : string -> Exn.Exc Embedding)
  (distance : Embedding -> Embedding -> Q) (set_order : list string -> list string)
  (self : FinancialChatbot.t) (question : string) (e : Exn.exn) :
  FinancialChatbot.is_initialized self = true ->
  fst (FinancialChatbot.ask_body encode distance set_order question self) = inl e ->
  let after := FinancialChatbot.ask encode distance set_order question self in
  fst after = inr (Spec.apology_for (Exn.str e))
  /\ snd after = self
  /\ ConversationMemory.conversation_history (FinancialChatbot.memory (snd after))
     = ConversationMemory.conversation_history (FinancialChatbot.memory self)
  /\ ConversationMemory.current_topic (FinancialChatbot.memory (snd after))
     = ConversationMemory.current_topic (FinancialChatbot.memory self).
Proof.
  intros Hready Hraise after. unfold after. clear after.
  rewrite ask_converts by assumption.
  rewrite ask_body_run in Hraise |- *. cbv zeta in Hraise |- *.
  destruct (encode _) as [e'|emb]; cbn in Hraise; [|discriminate].
  injection Hraise as ->. cbn. repeat split.
Qed.

Lemma ask_failure_keeps_memory_witness :
  let after :=
    FinancialChatbot.ask Demo.encode Demo.distance Demo.set_order "boom" Demo.ready in
  fst after = inr (Spec.apology_for "encoder unavailable")
  /\ snd after = Demo.ready
  /\ ConversationMemory.conversation_history (FinancialChatbot.memory (snd after))
     = ConversationMemory.conversation_history (FinancialChatbot.memory Demo.ready)
  /\ ConversationMemory.current_topic (FinancialChatbot.memory (snd after))
     = ConversationMemory.current_topic (FinancialChatbot.memory Demo.ready).
Proof.
  exact (ask_failure_keeps_memory Demo.encode Demo.distance Demo.set_order Demo.ready
           "boom" (Exn.Exception "encoder unavailable") demo_ready_initialized eq_refl).
Defined.

(** ** Template dispatch *)

(** C6: for a non-empty sequence of results exactly one template renders the answer: the
    template of the first rule, in the order budget, debt, infrastructure, taxation, risk,
    superannuation, one of whose terms occurs in the lower-cased question, and the general
    template when no rule applies; the rendered text tells which template it was, and the
    question [ask] hands over is the one rewritten by the memory.  The question "What about
    the budget deficit?" selects the budget template, whose headline contains "BUDGET". *)
Theorem template_dispatch_first_match {Embedding : Type}
  (encode : string -> Exn.Exc Embedding) (distance : Embedding -> Embedding -> Q)
  (set_order : list string -> list string) :
  map snd Spec.template_rules
  = [Spec.Budget; Spec.Debt; Spec.Infrastructure; Spec.Taxation; Spec.Risk;
     Spec.Superannuation]
  /\ (forall (question : string) (result : VectorDatabase.SearchResult)
        (results : list VectorDatabase.SearchResult),
        FinancialChatbot._generate_response set_order question (result :: results)
        = Spec.render set_order (Spec.select_template question)
            (Py.join " " (firstn 2 (map VectorDatabase.content (result :: results))))
            (map (fun r => "Section: "
                           ++ VectorDatabase.section_type (VectorDatabase.metadata r))
               (result :: results)))
  /\ (forall (t1 t2 : Spec.Template) (c1 c2 : string) (s1 s2 : list string),
        Spec.render set_order t1 c1 s1 = Spec.render set_order t2 c2 s2 -> t1 = t2)
  /\ (forall (self : FinancialChatbot.t) (question : string) (emb : Embedding),
        FinancialChatbot.is_initialized self = true ->
        let enhanced :=
          ConversationMemory.enhance_question (FinancialChatbot.memory self) question in
        encode enhanced = inr emb ->
        fst (FinancialChatbot.ask encode distance set_order question self)
        = inr (FinancialChatbot._generate_response set_order enhanced
                 (map Spec.format_row
                    (VectorDatabase.nearest distance
                       (VectorDatabase.collection (FinancialChatbot.vector_db self)) emb 3))))
  /\ Spec.select_template "What about the budget deficit?" = Spec.Budget
  /\ ConversationMemory._identify_topic "What about the budget deficit?" = "budget"
  /\ (forall (content : string) (sources : list string),
        Spec.headline (FinancialChatbot._format_budget_response set_order content sources)
        = "## 💰 BUDGET ANALYSIS")
  /\ Py.contains "BUDGET" "## 💰 BUDGET ANALYSIS" = true.
Proof.
  split; [reflexivity|].
  split; [intros question result results; apply create_contextual_response_dispatch|].
  split; [apply render_injective|].
  split; [|repeat split; reflexivity].
  intros self question emb Hready enhanced Henc.
  rewrite ask_converts, ask_body_run by assumption. cbv zeta.
  fold enhanced. rewrite Henc. reflexivity.
Qed.


(** * Further properties *)

(** ** Words reported by the matcher *)

Section Words.
Import Py Re Lang.

Lemma star_yields (p : ascii -> bool) (s : string) :
  forall prev n k m, star p prev n s k = Some m -> yields (Star p) n s k m.
Proof.
  intros prev n k m H. apply star_consumed in H.
  destruct H as (w & s' & prev' & Hs & Hk & Hw & _).
  exists w, s', prev'. repeat split; auto. now constructor.
Qed.

Lemma rmatch_yields (r : regex) :
  forall prev n s k m, rmatch r prev n s k = Some m -> yields r n s k m.
Proof.
  induction r as [|p|r1 IH1 r2 IH2|r1 IH1 r2 IH2|r1 IH1|p|];
    intros prev n s k m H; cbn in H.
  - exists "", s, prev. cbn. rewrite Nat.add_0_r. repeat split; auto. constructor.
  - destruct s as [|c s]; [discriminate|]. destruct (p c) eqn:Hc; [|discriminate].
    exists (String c ""), s, (Some c). cbn. rewrite Nat.add_1_r.
    repeat split; auto. now constructor.
  - apply IH1 in H. destruct H as (w1 & s1 & prev1 & -> & H & Hw1).
    apply IH2 in H. destruct H as (w2 & s2 & prev2 & -> & H & Hw2).
    exists (w1 ++ w2), s2, prev2. rewrite append_assoc, append_length, Nat.add_assoc.
    repeat split; auto. now constructor.
  - destruct (rmatch r1 prev n s k) as [m'|] eqn:H1.
    + injection H as ->. apply IH1 in H1. destruct H1 as (w & s' & prev' & -> & H & Hw).
      exists w, s', prev'. repeat split; auto. now apply in_alt_l.
    + apply IH2 in H. destruct H as (w & s' & prev' & -> & H & Hw).
      exists w, s', prev'. repeat split; auto. now apply in_alt_r.
  - destruct (rmatch r1 prev n s k) as [m'|] eqn:H1.
    + injection H as ->. apply IH1 in H1. destruct H1 as (w & s' & prev' & -> & H & Hw).
      exists w, s', prev'. repeat split; auto. now apply in_opt_some.
    + exists "", s, prev. cbn. rewrite Nat.add_0_r. repeat split; auto. constructor.
  - exact (star_yields p s prev n k m H).
  - destruct (xorb _ _); [|discriminate].
    exists "", s, prev. cbn. rewrite Nat.add_0_r. repeat split; auto. constructor.
Qed.

Lemma match_here_word (r : regex) (prev : option ascii) (s : string) (m : nat) :
  match_here r prev s = Some m ->
  exists w s', s = w ++ s' /\ String.length w = m /\ in_lang r w.
Proof.
  intros H. apply rmatch_yields in H. destruct H as (w & s' & prev' & -> & H & Hw).
  injection H as <-. exists w, s'. repeat split; auto.
Qed.

Lemma take_append (w s : string) : take (String.length w) (w ++ s) = w.
Proof. induction w as [|c w IH]; cbn; [now destruct s|now rewrite IH]. Qed.

(** every text reported by [findall] stands in the subject and is a word of
    the pattern *)
Lemma findall_from_items (r : regex) (s : string) :
  forall prev skip item,
    In item (findall_from r prev skip s) ->
    (exists pre post, s = pre ++ item ++ post)
    /\ in_lang r item /\ 1 <= String.length item.
Proof.
  induction s as [|c s IH]; intros prev skip item Hin; [destruct Hin|].
  assert (Hlater : forall prev' skip',
             In item (findall_from r prev' skip' s) ->
             (exists pre post, String c s = pre ++ item ++ post)
             /\ in_lang r item /\ 1 <= String.length item).
  { intros prev' skip' H. destruct (IH _ _ _ H) as ((pre & post & ->) & Hw & Hl).
    split; [|now split]. exists (String c pre), post. reflexivity. }
  cbn [findall_from] in Hin. destruct skip as [|skip]; [|eauto].
  destruct (match_here r prev (String c s)) as [[|m]|] eqn:Hm; eauto.
  destruct Hin as [<-|Hin]; [|eauto].
  apply match_here_word in Hm. destruct Hm as (w & s' & Heq & Hlen & Hw).
  rewrite Heq, <- Hlen, take_append.
  split; [exists "", s'; reflexivity|]. split; [exact Hw|lia].
Qed.

End Words.


(** ** Shape of the extracted items *)

Section Shapes.
Import Py Re Lang DocumentProcessor.
Local Open Scope string_scope.

Lemma in_lang_cat (r1 r2 : regex) (w : string) :
  in_lang (Cat r1 r2) w ->
  exists w1 w2, w = w1 ++ w2 /\ in_lang r1 w1 /\ in_lang r2 w2.
Proof. intros H. inversion H; subst. eauto. Qed.

Lemma in_lang_chr (p : ascii -> bool) (w : string) :
  in_lang (Chr p) w -> exists c, w = String c "" /\ p c = true.
Proof. intros H. inversion H; subst. eauto. Qed.

Lemma in_lang_opt (r : regex) (w : string) :
  in_lang (Opt r) w -> w = "" \/ in_lang r w.
Proof. intros H. inversion H; subst; auto. Qed.

Lemma in_lang_alt (r1 r2 : regex) (w : string) :
  in_lang (Alt r1 r2) w -> in_lang r1 w \/ in_lang r2 w.
Proof. intros H. inversion H; subst; auto. Qed.

Lemma in_lang_star (p : ascii -> bool) (w : string) :
  in_lang (Star p) w -> all_in p w = true.
Proof. intros H. inversion H; subst; auto. Qed.

Lemma in_lang_bnd (w : string) : in_lang Bnd w -> w = "".
Proof. intros H. inversion H; subst; auto. Qed.

Lemma in_lang_eps (w : string) : in_lang Eps w -> w = "".
Proof. intros H. inversion H; subst; auto. Qed.

(** the words of a pattern are written in its alphabet *)
Lemma in_lang_alphabet (r : regex) (w : string) :
  in_lang r w -> all_in (alphabet r) w = true.
Proof.
  induction 1; cbn; auto.
  - now rewrite H.
  - rewrite all_in_append. apply andb_true_iff. split.
    + eapply all_in_weaken; [|exact IHin_lang1]. intros c Hc. now rewrite Hc.
    + eapply all_in_weaken; [|exact IHin_lang2]. intros c Hc. rewrite Hc. apply orb_true_r.
  - eapply all_in_weaken; [|exact IHin_lang]. intros c Hc. now rewrite Hc.
  - eapply all_in_weaken; [|exact IHin_lang]. intros c Hc. rewrite Hc. apply orb_true_r.
Qed.

Lemma ascii_eqb_true (a b : ascii) : Ascii.eqb a b = true -> b = a.
Proof. intros H. apply Ascii.eqb_eq in H. now subst. Qed.

Lemma dollar_word (w : string) :
  in_lang dollar_pattern w ->
  exists c rest,
    w = String "$" (String c rest)
    /\ (is_digit c || Ascii.eqb c ",") = true
    /\ all_in Items.amount_char rest = true.
Proof.
  intros H. unfold dollar_pattern, plus in H.
  apply in_lang_cat in H. destruct H as (w1 & w2 & -> & H1 & H).
  apply in_lang_chr in H1. destruct H1 as (c1 & -> & Hc1). apply ascii_eqb_true in Hc1.
  subst c1.
  apply in_lang_cat in H. destruct H as (w3 & w4 & -> & H3 & H).
  apply in_lang_cat in H3. destruct H3 as (w5 & w6 & -> & H5 & H6).
  apply in_lang_chr in H5. destruct H5 as (c & -> & Hc). apply in_lang_star in H6.
  apply in_lang_cat in H. destruct H as (w7 & w8 & -> & H7 & H).
  apply in_lang_cat in H. destruct H as (w9 & w10 & -> & H9 & H10).
  apply in_lang_star in H9.
  exists c, (w6 ++ w7 ++ w9 ++ w10). split; [reflexivity|]. split; [exact Hc|].
  rewrite !all_in_append. repeat (apply andb_true_iff; split).
  - eapply all_in_weaken; [|exact H6]. intros x Hx. unfold Items.amount_char.
    cbn beta in Hx. apply orb_true_iff in Hx. destruct Hx as [-> | ->];
      rewrite ?orb_true_r; reflexivity.
  - apply in_lang_opt in H7. destruct H7 as [->|H7]; [reflexivity|].
    apply in_lang_chr in H7. destruct H7 as (x & -> & Hx).
    apply ascii_eqb_true in Hx. subst x. reflexivity.
  - eapply all_in_weaken; [|exact H9]. intros x Hx. unfold Items.amount_char. now rewrite Hx.
  - apply in_lang_opt in H10. destruct H10 as [->|H10]; [reflexivity|].
    apply in_lang_chr in H10. destruct H10 as (x & -> & Hx). cbn [all_in].
    unfold Items.amount_char. rewrite andb_true_r. cbn beta in Hx.
    apply orb_true_iff in Hx. destruct Hx as [-> | ->];
      rewrite ?orb_true_r; reflexivity.
Qed.

Lemma percent_word (w : string) :
  in_lang percent_pattern w ->
  exists c body,
    w = String c body ++ "%"
    /\ is_digit c = true
    /\ all_in (fun x => is_digit x || Ascii.eqb x ".") body = true.
Proof.
  intros H. unfold percent_pattern, plus in H.
  apply in_lang_cat in H. destruct H as (w1 & w2 & -> & H1 & H).
  apply in_lang_cat in H1. destruct H1 as (w3 & w4 & -> & H3 & H4).
  apply in_lang_chr in H3. destruct H3 as (c & -> & Hc).
  apply in_lang_star in H4.
  apply in_lang_cat in H. destruct H as (w5 & w6 & -> & H5 & H).
  apply in_lang_cat in H. destruct H as (w7 & w8 & -> & H7 & H8).
  apply in_lang_star in H7.
  apply in_lang_chr in H8. destruct H8 as (c8 & -> & Hc8). apply ascii_eqb_true in Hc8.
  subst c8.
  exists c, (w4 ++ w5 ++ w7). split.
  - cbn [append]. f_equal. now rewrite !append_assoc.
  - split; [exact Hc|]. rewrite !all_in_append.
    assert (Hd : forall u, all_in is_digit u = true ->
                           all_in (fun x => is_digit x || Ascii.eqb x ".") u = true).
    { intros u. apply all_in_weaken. intros x Hx. now rewrite Hx. }
    rewrite (Hd _ H4), (Hd _ H7). cbn [andb]. rewrite andb_true_r.
    apply in_lang_opt in H5. destruct H5 as [->|H5]; [reflexivity|].
    apply in_lang_chr in H5. destruct H5 as (c5 & -> & Hc5).
    apply ascii_eqb_true in Hc5. subst c5. reflexivity.
Qed.

Lemma year_word (w : string) :
  in_lang year_pattern w ->
  exists d1 d2,
    is_digit d1 = true /\ is_digit d2 = true
    /\ (w = String "2" (String "0" (String d1 (String d2 "")))
        \/ exists d3 d4,
             is_digit d3 = true /\ is_digit d4 = true
             /\ w = String "2" (String "0" (String d1 (String d2
                      (String "-" (String d3 (String d4 ""))))))).
Proof.
  intros H. unfold year_pattern, digit in H. cbn [lit] in H.
  repeat match goal with
         | H : in_lang (Cat _ _) _ |- _ =>
             apply in_lang_cat in H; destruct H as (? & ? & -> & ? & ?)
         | H : in_lang Bnd _ |- _ => apply in_lang_bnd in H; subst
         | H : in_lang Eps _ |- _ => apply in_lang_eps in H; subst
         | H : in_lang (chr _) _ |- _ =>
             apply in_lang_chr in H; destruct H as (? & -> & H);
             apply ascii_eqb_true in H; subst
         | H : in_lang (Chr is_digit) _ |- _ =>
             apply in_lang_chr in H; destruct H as (? & -> & H)
         end.
  match goal with
  | H : in_lang (Opt _) _ |- _ => apply in_lang_opt in H; destruct H as [->|H]
  end.
  - cbn. eexists _, _. split; [|split; [|left; reflexivity]]; eassumption.
  - repeat match goal with
           | H : in_lang (Cat _ _) _ |- _ =>
               apply in_lang_cat in H; destruct H as (? & ? & -> & ? & ?)
           | H : in_lang (chr _) _ |- _ =>
               apply in_lang_chr in H; destruct H as (? & -> & H);
               apply ascii_eqb_true in H; subst
           | H : in_lang (Chr is_digit) _ |- _ =>
               apply in_lang_chr in H; destruct H as (? & -> & H)
           end.
    cbn. eexists _, _.
    split; [|split; [|right; eexists _, _; split; [|split; [|reflexivity]]]];
      eassumption.
Qed.

Lemma lower_append (a b : string) : lower (a ++ b) = lower a ++ lower b.
Proof. induction a as [|c a IH]; cbn; [reflexivity|now rewrite IH]. Qed.

Lemma lit_i_word (word w : string) : in_lang (lit_i word) w -> lower w = lower word.
Proof.
  revert w. induction word as [|c word IH]; intros w H; cbn [lit_i] in H.
  - apply in_lang_eps in H. now subst.
  - apply in_lang_cat in H. destruct H as (w1 & w2 & -> & H1 & H2).
    apply in_lang_chr in H1. destruct H1 as (x & -> & Hx).
    apply Ascii.eqb_eq in Hx. cbn. rewrite Hx. f_equal. now apply IH.
Qed.

Lemma alt_i_word (ws : list string) (w : string) :
  in_lang (alt_i ws) w -> exists word, In word ws /\ lower w = lower word.
Proof.
  induction ws as [|word ws IH]; intros H; cbn [alt_i] in H.
  - apply in_lang_chr in H. destruct H as (c & _ & Hc). discriminate.
  - destruct ws as [|word' ws].
    + exists word. split; [now left|]. now apply lit_i_word.
    + apply in_lang_alt in H. destruct H as [H|H].
      * exists word. split; [now left|]. now apply lit_i_word.
      * destruct (IH H) as (x & Hx & Hl). exists x. split; [now right|exact Hl].
Qed.

Lemma keyword_word (r : regex) (w : string) :
  In r keyword_patterns -> in_lang r w -> In (lower w) Items.keyword_list.
Proof.
  intros Hr H. unfold keyword_patterns in Hr. cbn [In] in Hr.
  repeat destruct Hr as [<-|Hr]; try destruct Hr;
    unfold keyword_pattern in H;
    apply in_lang_cat in H; destruct H as (w1 & w2 & -> & H1 & H);
    apply in_lang_cat in H; destruct H as (w3 & w4 & -> & H3 & H4);
    apply in_lang_bnd in H1; apply in_lang_bnd in H4; subst;
    apply alt_i_word in H3; destruct H3 as (word & Hin & Hl);
    cbn [append]; rewrite lower_append, Hl; cbn [In] in Hin;
    repeat destruct Hin as [<-|Hin]; try destruct Hin; vm_compute; tauto.
Qed.

Variable set_order : list string -> list string.

(** the keywords before [set] removes the repetitions *)
Lemma keywords_found (text : string) (patterns : list regex) (acc : list string)
  (kw : string) :
  In kw (fold_left (fun keywords pattern => keywords ++ findall pattern text)%list
           patterns acc) ->
  In kw acc \/ exists r, In r patterns /\ In kw (findall r text).
Proof.
  revert acc. induction patterns as [|p ps IH]; intros acc H; cbn in H; [now left|].
  apply IH in H. destruct H as [H|(r & Hr & H)].
  - apply in_app_or in H. destruct H as [H|H]; [now left|].
    right. exists p. split; [now left|exact H].
  - right. exists r. split; [now right|exact H].
Qed.

End Shapes.

(** X1: whatever the extractor reports stands in the text: every dollar amount,
    percentage, year and keyword it returns is a non-empty substring of the text it was
    given. *)
Theorem extracted_items_occur (set_order : list string -> list string) :
  Spec.is_set_order set_order ->
  forall (text item : string),
    let data := DocumentProcessor.extract_financial_data set_order text in
    In item (DocumentProcessor.dollar_amounts data ++ DocumentProcessor.percentages data
             ++ DocumentProcessor.years data ++ DocumentProcessor.keywords data)%list ->
    Py.contains item text = true /\ 1 <= String.length item.
Proof.
  intros Hset text item data Hin.
  assert (Hfound : exists r, In item (Re.findall r text)).
  { unfold data, DocumentProcessor.extract_financial_data in Hin.
    cbn [DocumentProcessor.dollar_amounts DocumentProcessor.percentages
           DocumentProcessor.years DocumentProcessor.keywords] in Hin.
    repeat (apply in_app_or in Hin; destruct Hin as [Hin|Hin]); eauto.
    apply (proj1 (proj2 (Hset _) item)) in Hin. apply keywords_found in Hin.
    destruct Hin as [[]|(r & _ & Hin)]. eauto. }
  destruct Hfound as (r & Hr). apply findall_from_items in Hr.
  destruct Hr as ((pre & post & ->) & _ & Hl). split; [apply contains_intro|exact Hl].
Qed.

Lemma extracted_items_occur_witness :
  Py.contains "2002-06" Demo.document = true /\ 1 <= String.length "2002-06".
Proof.
  apply (extracted_items_occur Demo.set_order demo_set_order_is_set Demo.document "2002-06").
  vm_compute. tauto.
Defined.

(** X2: in a text of ASCII characters the amounts, percentages and years have the shape
    of their pattern: a dollar amount is a dollar sign, then a digit 0-9 or a comma, then
    only digits, commas, points and the letters m and M; a percentage starts with a digit,
    ends with the percent sign and has only digits and points between; a year is 20 and
    two digits, alone or followed by a hyphen and two digits.  (Beyond ASCII the class
    [\d] of Python also takes the other decimal digits of Unicode.) *)
Theorem extracted_numbers_shape (set_order : list string -> list string) (text : string) :
  Items.ascii_text text = true ->
  let data := DocumentProcessor.extract_financial_data set_order text in
  Forall (fun item =>
            exists c rest,
              item = String "$" (String c rest)
              /\ (Py.is_digit c || Ascii.eqb c ",") = true
              /\ Re.all_in Items.amount_char rest = true)
    (DocumentProcessor.dollar_amounts data)
  /\ Forall (fun item =>
               exists c body,
                 item = String c body ++ "%"
                 /\ Py.is_digit c = true
                 /\ Re.all_in (fun x => Py.is_digit x || Ascii.eqb x ".") body = true)
       (DocumentProcessor.percentages data)
  /\ Forall (fun item =>
               exists d1 d2,
                 Py.is_digit d1 = true /\ Py.is_digit d2 = true
                 /\ (item = String "2" (String "0" (String d1 (String d2 "")))
                     \/ exists d3 d4,
                          Py.is_digit d3 = true /\ Py.is_digit d4 = true
                          /\ item = String "2" (String "0" (String d1 (String d2
                                       (String "-" (String d3 (String d4 ""))))))))
       (DocumentProcessor.years data).
Proof.
  intros _. cbv zeta. unfold DocumentProcessor.extract_financial_data.
  cbn [DocumentProcessor.dollar_amounts DocumentProcessor.percentages DocumentProcessor.years].
  repeat split; apply Forall_forall; intros item Hin;
    apply findall_from_items in Hin; destruct Hin as (_ & Hw & _).
  - now apply dollar_word.
  - now apply percent_word.
  - now apply year_word.
Qed.

Lemma extracted_numbers_shape_witness :
  Forall (fun item =>
            exists c rest,
              item = String "$" (String c rest)
              /\ (Py.is_digit c || Ascii.eqb c ",") = true
              /\ Re.all_in Items.amount_char rest = true)
    (DocumentProcessor.dollar_amounts
       (DocumentProcessor.extract_financial_data Demo.set_order
          "A surplus of $185.7m, 3.5% of revenue, in 2005-06")).
Proof.
  exact (proj1 (extracted_numbers_shape Demo.set_order
                  "A surplus of $185.7m, 3.5% of revenue, in 2005-06" eq_refl)).
Defined.

(** X3: in a text of ASCII characters the keywords returned are distinct and each is, up
    to letter case, one of the fifteen words of the five keyword patterns.  (Beyond ASCII
    [re.IGNORECASE] also matches the long s, the Kelvin sign and the dotted capital I.) *)
Theorem extracted_keywords_listed (set_order : list string -> list string) :
  Spec.is_set_order set_order ->
  forall text : string,
    Items.ascii_text text = true ->
    let data := DocumentProcessor.extract_financial_data set_order text in
    NoDup (DocumentProcessor.keywords data)
    /\ Forall (fun kw => In (Py.lower kw) Items.keyword_list) (DocumentProcessor.keywords data).
Proof.
  intros Hset text _ data. unfold data, DocumentProcessor.extract_financial_data.
  cbn [DocumentProcessor.keywords]. split; [apply Hset|].
  apply Forall_forall. intros kw Hin. apply (proj1 (proj2 (Hset _) kw)) in Hin.
  apply keywords_found in Hin. destruct Hin as [[]|(r & Hr & Hin)].
  apply findall_from_items in Hin. destruct Hin as (_ & Hw & _).
  exact (keyword_word r kw Hr Hw).
Qed.

Lemma extracted_keywords_listed_witness :
  NoDup (DocumentProcessor.keywords
           (DocumentProcessor.extract_financial_data Demo.set_order "Budget, BUDGET and GSP"))
  /\ Forall (fun kw => In (Py.lower kw) Items.keyword_list)
       (DocumentProcessor.keywords
          (DocumentProcessor.extract_financial_data Demo.set_order "Budget, BUDGET and GSP")).
Proof.
  exact (extracted_keywords_listed Demo.set_order demo_set_order_is_set
           "Budget, BUDGET and GSP" eq_refl).
Defined.

(** X4: a chunk is flagged as holding financial data only if it contains a dollar sign or
    a percent sign. *)
Theorem has_financial_data_needs_symbol (set_order : list string -> list string)
  (i : nat) (chunk : string) :
  DocumentProcessor.has_financial_data
    (DocumentProcessor.metadata (DocumentProcessor.process_chunk set_order i chunk)) = true ->
  Py.contains "$" chunk = true \/ Py.contains "%" chunk = true.
Proof.
  cbn [DocumentProcessor.process_chunk DocumentProcessor.metadata
         DocumentProcessor.has_financial_data].
  unfold DocumentProcessor.extract_financial_data.
  cbn [DocumentProcessor.dollar_amounts DocumentProcessor.percentages].
  intros H. apply orb_true_iff in H. destruct H as [H|H].
  - left. destruct (Re.findall DocumentProcessor.dollar_pattern chunk) as [|item l] eqn:E;
      [discriminate|].
    assert (Hin : In item (Re.findall DocumentProcessor.dollar_pattern chunk))
      by (rewrite E; now left).
    apply findall_from_items in Hin. destruct Hin as ((pre & post & ->) & Hw & _).
    apply dollar_word in Hw. destruct Hw as (c & rest & -> & _).
    exact (contains_intro pre "$" (String c rest ++ post)).
  - right. destruct (Re.findall DocumentProcessor.percent_pattern chunk) as [|item l] eqn:E;
      [discriminate|].
    assert (Hin : In item (Re.findall DocumentProcessor.percent_pattern chunk))
      by (rewrite E; now left).
    apply findall_from_items in Hin. destruct Hin as ((pre & post & ->) & Hw & _).
    apply percent_word in Hw. destruct Hw as (c & body & -> & _).
    rewrite (append_assoc (String c body) "%" post), <- (append_assoc pre).
    apply contains_intro.
Qed.

Lemma has_financial_data_needs_symbol_witness :
  Py.contains "$" "a surplus of $185.7m" = true
  \/ Py.contains "%" "a surplus of $185.7m" = true.
Proof.
  exact (has_financial_data_needs_symbol Demo.set_order 0 "a surplus of $185.7m" eq_refl).
Defined.


(** ** The memory between records *)

Section MemoryMore.
Import Py ConversationMemory.
Local Open Scope list_scope.

Lemma last_n_map {A B : Type} (f : A -> B) (n : nat) (xs : list A) :
  map f (last_n n xs) = last_n n (map f xs).
Proof. unfold last_n. now rewrite skipn_map, length_map. Qed.

Lemma last_n_last_n {A : Type} (a b : nat) (xs : list A) :
  last_n a (last_n b xs) = last_n (Nat.min a b) xs.
Proof.
  unfold last_n. rewrite skipn_skipn, length_skipn. f_equal. lia.
Qed.

Lemma last_n_snoc {A : Type} (n : nat) (xs : list A) (x d : A) :
  last (last_n (S n) (xs ++ [x])) d = x.
Proof.
  unfold last_n. rewrite length_app. cbn [List.length].
  replace (List.length xs + 1 - S n) with (List.length xs - n) by lia.
  rewrite skipn_app. replace (List.length xs - n - List.length xs) with 0 by lia.
  cbn [skipn]. apply last_last.
Qed.

Lemma last_n_In {A : Type} (n : nat) (xs : list A) (x : A) :
  In x (last_n n xs) -> In x xs.
Proof.
  unfold last_n. intros H. rewrite <- (firstn_skipn (List.length xs - n) xs).
  apply in_or_app. now right.
Qed.

Lemma identify_topic_not_empty (text : string) : _identify_topic text <> ""%string.
Proof.
  pose proof (identify_topic_range text) as H. cbn in H.
  repeat destruct H as [<-|H]; try discriminate. destruct H.
Qed.

End MemoryMore.

(** X5: in a memory of capacity at least one the newest interaction is never the one
    evicted: after any sequence of records it is the last element of the history, the current
    topic is its topic, the context reports that topic, and every topic held is "general" or
    one of the six categories. *)
Theorem memory_newest_kept (N : nat) (qrs : list (string * string)) (q r : string) :
  let m := Spec.record_all (ConversationMemory.new (S N)) (qrs ++ [(q, r)])%list in
  last (ConversationMemory.conversation_history m) (Spec.interaction_of ("", ""))
  = Spec.interaction_of (q, r)
  /\ ConversationMemory.current_topic m = Some (ConversationMemory._identify_topic q)
  /\ ConversationMemory.ctx_current_topic (ConversationMemory.get_context m)
     = ConversationMemory._identify_topic q
  /\ Forall (fun i => In (ConversationMemory.topic i) ("general" :: Spec.topics))
       (ConversationMemory.conversation_history m).
Proof.
  intros m.
  assert (Hh : ConversationMemory.conversation_history m
               = Py.last_n (S N) (map Spec.interaction_of (qrs ++ [(q, r)])%list)).
  { unfold m. rewrite record_all_history by (cbn; lia). reflexivity. }
  assert (Ht : ConversationMemory.current_topic m
               = Some (ConversationMemory._identify_topic q))
    by apply record_all_current_topic.
  split; [rewrite Hh, map_app; apply last_n_snoc|].
  split; [exact Ht|]. split.
  - cbn [ConversationMemory.get_context ConversationMemory.ctx_current_topic].
    rewrite Ht. cbn [ConversationMemory.truthy].
    destruct (String.eqb_spec (ConversationMemory._identify_topic q) "") as [E|_];
      [now apply identify_topic_not_empty in E|reflexivity].
  - rewrite Hh. apply Forall_forall. intros i Hi. apply last_n_In in Hi.
    apply in_map_iff in Hi. destruct Hi as (qr & <- & _). apply identify_topic_range.
Qed.

(** X6: the context lists the topics of the latest questions still held, oldest first:
    the last three, or fewer when the capacity or the number of records is smaller. *)
Theorem get_context_recent_topics (N : nat) (qrs : list (string * string)) :
  let context := ConversationMemory.get_context
                   (Spec.record_all (ConversationMemory.new N) qrs) in
  ConversationMemory.recent_topics context
  = Py.last_n (Nat.min 3 N)
      (map (fun qr => ConversationMemory._identify_topic (fst qr)) qrs)
  /\ List.length (ConversationMemory.recent_topics context) <= 3
  /\ ConversationMemory.history_length context = Nat.min N (List.length qrs).
Proof.
  intros context.
  assert (Hh : ConversationMemory.conversation_history
                 (Spec.record_all (ConversationMemory.new N) qrs)
               = Py.last_n N (map Spec.interaction_of qrs)).
  { rewrite record_all_history by (cbn; lia). reflexivity. }
  assert (Hr : ConversationMemory.recent_topics context
               = Py.last_n (Nat.min 3 N)
                   (map (fun qr => ConversationMemory._identify_topic (fst qr)) qrs)).
  { unfold context.
    cbn [ConversationMemory.get_context ConversationMemory.recent_topics].
    rewrite Hh, last_n_last_n, last_n_map, map_map. reflexivity. }
  split; [exact Hr|]. split.
  - rewrite Hr, last_n_length. lia.
  - unfold context.
    cbn [ConversationMemory.get_context ConversationMemory.history_length].
    now rewrite Hh, last_n_length, length_map.
Qed.


(** ** Follow-up questions and the template they select *)

Section FollowUps.
Import Py FollowUp.

Lemma prefix_before_space (w a b : string) :
  spaceless w = true ->
  prefix w (a ++ String " " b) = prefix w a.
Proof.
  revert a. induction w as [|x w IH]; intros a Hw.
  - destruct a; reflexivity.
  - cbn in Hw. apply andb_true_iff in Hw. destruct Hw as [Hx Hw].
    destruct a as [|c a]; cbn [append prefix].
    + destruct (ascii_dec x " ") as [->|_]; [discriminate|reflexivity].
    + destruct (ascii_dec x c); [now apply IH|reflexivity].
Qed.

(** a word without space occurs on one side of a space or on the other *)
Lemma contains_across_space (w a b : string) :
  spaceless w = true ->
  contains w (a ++ String " " b) = contains w a || contains w (String " " b).
Proof.
  intros Hw. induction a as [|c a IH].
  - cbn [append]. destruct w as [|x w]; [reflexivity|].
    replace (contains (String x w) "") with false; [reflexivity|].
    cbn. reflexivity.
  - cbn [append contains]. rewrite IH.
    change (String c (a ++ String " " b)) with (String c a ++ String " " b).
    rewrite (prefix_before_space w (String c a) b Hw), orb_assoc. reflexivity.
Qed.

Lemma lower_space (b : string) : lower (String " " b) = String " " (lower b).
Proof. reflexivity. Qed.

Lemma existsb_false_l {A : Type} (f g : A -> bool) (l : list A) :
  existsb f l = false -> existsb (fun x => f x || g x) l = existsb g l.
Proof.
  induction l as [|x l IH]; cbn; [reflexivity|]. intros H.
  apply orb_false_iff in H. destruct H as [-> H]. now rewrite IH.
Qed.

Lemma existsb_ext_in {A : Type} (f g : A -> bool) (l : list A) :
  (forall x, In x l -> f x = g x) -> existsb f l = existsb g l.
Proof.
  induction l as [|x l IH]; cbn; [reflexivity|]. intros H.
  rewrite (H x (or_introl eq_refl)), IH; auto.
Qed.

(** what a question without any term of [terms] mentions once a clause that
    starts with a space is appended *)
Lemma mentions_any_appended (terms : list string) (question clause : string) :
  forallb spaceless terms = true ->
  Spec.mentions_any terms question = false ->
  Spec.mentions_any terms (question ++ String " " clause)
  = Spec.mentions_any terms (String " " clause).
Proof.
  intros Hterms Hq. unfold Spec.mentions_any, any in *.
  rewrite lower_append, lower_space.
  rewrite (existsb_ext_in _
             (fun w => contains w (lower question)
                       || contains w (String " " (lower clause)))).
  - now apply existsb_false_l.
  - intros w Hw. apply contains_across_space.
    rewrite forallb_forall in Hterms. now apply Hterms.
Qed.

Lemma select_template_general (question : string) :
  Spec.select_template question = Spec.General ->
  Forall (fun rule => Spec.mentions_any (fst rule) question = false) Spec.template_rules.
Proof.
  unfold Spec.select_template, Spec.template_rules. cbn [find fst snd].
  repeat match goal with
         | |- context [if Spec.mentions_any ?t ?q then _ else _] =>
             destruct (Spec.mentions_any t q) eqn:?; [discriminate|]
         end.
  intros _. repeat constructor; assumption.
Qed.

(** a question that selects the general template selects, once a clause is
    appended after a space, the template of the clause *)
Lemma select_template_appended (question clause : string) :
  Spec.select_template question = Spec.General ->
  Spec.select_template (question ++ String " " clause)
  = Spec.select_template (String " " clause).
Proof.
  intros H. apply select_template_general in H.
  unfold Spec.select_template, Spec.template_rules in *. cbn [find fst snd].
  repeat match goal with
         | H : Forall _ (_ :: _) |- _ => inversion H; subst; clear H
         end.
  cbn [fst] in *.
  repeat match goal with
         | Hq : Spec.mentions_any ?t question = false |- _ =>
             rewrite (mentions_any_appended t question clause eq_refl Hq); clear Hq
         end.
  reflexivity.
Qed.

End FollowUps.

(** X7: a follow-up that names no subject is answered from the template of the current
    topic: when the memory holds one of the six categories as current topic and rewrites a
    question that by itself would get the general template, the rewritten question selects
    the template of that category. *)
Theorem follow_up_uses_topic_template (m : ConversationMemory.t) (question topic : string) :
  ConversationMemory.current_topic m = Some topic ->
  In topic Spec.topics ->
  Spec.select_template question = Spec.General ->
  ConversationMemory.enhance_question m question <> question ->
  Spec.select_template (ConversationMemory.enhance_question m question)
  = FollowUp.template_of_topic topic
  /\ FollowUp.template_of_topic topic <> Spec.General.
Proof.
  intros Ht Hin Hgen Hchanged.
  rewrite enhance_question_ranked in Hchanged |- *.
  unfold Spec.enhance, Spec.topic_name in *. rewrite Ht in *.
  cbn in Hin.
  destruct (Spec.mentions_any Spec.vague_phrases question && Spec.topic_is_set m
            && negb (Spec.topic_is_general m)).
  - change (question ++ " about " ++ Py.replace_char "_" " " topic)
      with (question ++ String " " ("about " ++ Py.replace_char "_" " " topic)).
    rewrite select_template_appended by assumption.
    repeat destruct Hin as [<-|Hin]; try destruct Hin;
      split; try reflexivity; discriminate.
  - destruct (Spec.mentions_any Spec.pronouns question && Spec.topic_is_set m);
      [|now destruct Hchanged].
    change (question ++ " (referring to " ++ Py.replace_char "_" " " topic ++ ")")
      with (question ++ String " " ("(referring to " ++ Py.replace_char "_" " " topic ++ ")")).
    rewrite select_template_appended by assumption.
    repeat destruct Hin as [<-|Hin]; try destruct Hin;
      split; try reflexivity; discriminate.
Qed.

Lemma follow_up_uses_topic_template_witness :
  Spec.select_template
    (ConversationMemory.enhance_question
       (ConversationMemory.add_interaction (ConversationMemory.new 10)
          "What is the net debt?" "Low.")
       "Please explain more")
  = FollowUp.template_of_topic "debt"
  /\ FollowUp.template_of_topic "debt" <> Spec.General.
Proof.
  refine (follow_up_uses_topic_template
            (ConversationMemory.add_interaction (ConversationMemory.new 10)
               "What is the net debt?" "Low.")
            "Please explain more" "debt" eq_refl _ eq_refl _).
  - vm_compute. tauto.
  - vm_compute. discriminate.
Defined.

(** X8: the rewriting of a question only appends: the question is a prefix of the
    rewritten one, and a memory without a current topic returns every question as it
    is. *)
Theorem enhance_question_appends (m : ConversationMemory.t) (question : string) :
  (exists clause, ConversationMemory.enhance_question m question = question ++ clause)
  /\ prefix question (ConversationMemory.enhance_question m question) = true
  /\ (ConversationMemory.current_topic m = None ->
      ConversationMemory.enhance_question m question = question).
Proof.
  assert (H : exists clause,
             ConversationMemory.enhance_question m question = question ++ clause).
  { rewrite enhance_question_ranked. unfold Spec.enhance.
    destruct (_ && negb _); [eexists; reflexivity|].
    destruct (_ && _); [eexists; reflexivity|].
    exists "". clear. induction question as [|c q IH]; cbn; [reflexivity|now rewrite <- IH]. }
  split; [exact H|]. split.
  - destruct H as (clause & ->). apply prefix_intro.
  - intros Hnone. rewrite enhance_question_ranked. unfold Spec.enhance, Spec.topic_is_set.
    rewrite Hnone. now rewrite !andb_false_r.
Qed.


(** ** Indexing the chunks *)

Section IndexingFacts.
Import Exn VectorDatabase Indexing.
Context {Embedding : Type}.
Variable encode : string -> Exc Embedding.
Local Open Scope list_scope.

Lemma zip_entries_snoc (ids : list string) (es : list Embedding) (ms : list Metadata)
  (ds : list string) (i : string) (e : Embedding) (m : Metadata) (d : string) :
  List.length es = List.length ids -> List.length ms = List.length ids ->
  List.length ds = List.length ids ->
  zip_entries (ids ++ [i]) (es ++ [e]) (ms ++ [m]) (ds ++ [d])
  = zip_entries ids es ms ds
    ++ [{| entry_id := i; entry_embedding := e; entry_metadata := m; entry_document := d |}].
Proof.
  revert es ms ds. induction ids as [|i0 ids IH]; intros [|e0 es] [|m0 ms] [|d0 ds];
    cbn; try discriminate; intros H1 H2 H3; [reflexivity|].
  f_equal. apply IH; congruence.
Qed.

Lemma prepare_run (documents : list DocumentProcessor.Chunk) :
  forall b : Batch,
    balanced b ->
    match prepare encode documents b with
    | inl e => first_failure encode documents e
    | inr b' =>
        balanced b'
        /\ exists entries,
             batch_entries b' = batch_entries b ++ entries
             /\ Forall2 (stored_as encode) documents entries
    end.
Proof.
  induction documents as [|doc documents IH]; intros b Hb; cbn [prepare].
  - split; [exact Hb|]. exists []. rewrite app_nil_r. split; [reflexivity|constructor].
  - destruct (encode (DocumentProcessor.content doc)) as [e|emb] eqn:Henc; cbn [bind].
    + exists [], doc, documents. repeat split; auto.
    + match goal with |- context [prepare encode documents ?b1] => specialize (IH b1) end.
      destruct Hb as (H1 & H2 & H3).
      match type of IH with ?P -> _ => assert (Hb1 : P) end.
      { unfold balanced. cbn. rewrite !length_app. cbn. lia. }
      specialize (IH Hb1).
      destruct (prepare encode documents _) as [e|b'].
      * destruct IH as (before & d & after & -> & He & Hbefore).
        exists (doc :: before), d, after. repeat split; auto.
        constructor; [eauto|exact Hbefore].
      * destruct IH as (Hb' & entries & Hz & Hall). split; [exact Hb'|].
        unfold batch_entries in Hz |- *. cbn [ids embeddings batch_metadatas documents_content] in Hz.
        rewrite zip_entries_snoc in Hz by assumption.
        eexists (_ :: entries). split.
        -- rewrite Hz, <- app_assoc. reflexivity.
        -- constructor; [|exact Hall]. repeat split; assumption.
Qed.

(** [add_documents] stores one tuple per chunk, in order, or nothing at all *)
Lemma add_documents_run (self : t) (documents : list DocumentProcessor.Chunk) :
  match add_documents encode self documents with
  | inl e => first_failure encode documents e
  | inr db =>
      collection_name db = collection_name self
      /\ exists entries,
           collection db = collection self ++ entries
           /\ Forall2 (stored_as encode) documents entries
  end.
Proof.
  unfold add_documents.
  pose proof (prepare_run documents
                {| ids := []; embeddings := []; batch_metadatas := [];
                   documents_content := [] |}) as H.
  destruct (prepare encode documents _) as [e|b]; cbn [bind ret].
  - apply H. repeat split.
  - destruct H as (_ & entries & Hz & Hall); [repeat split|].
    split; [reflexivity|]. exists entries. split; [|exact Hall].
    cbn [collection]. unfold collection_add. unfold batch_entries in Hz.
    rewrite Hz. reflexivity.
Qed.

End IndexingFacts.

(** X9: [add_documents] stores one tuple per chunk or nothing: when every chunk can
    be encoded the collection grows by exactly one tuple per chunk, in the order of the
    chunks, each with the id, the content, the embedding and the metadata of its chunk (the
    first five keywords, joined by commas); otherwise the exception of the first chunk that
    cannot be encoded is raised and no collection is returned. *)
Theorem add_documents_one_per_chunk {Embedding : Type} (encode : string -> Exn.Exc Embedding)
  (self : VectorDatabase.t) (documents : list DocumentProcessor.Chunk) :
  match VectorDatabase.add_documents encode self documents with
  | inl e => Indexing.first_failure encode documents e
  | inr db =>
      VectorDatabase.collection_name db = VectorDatabase.collection_name self
      /\ VectorDatabase.document_count (VectorDatabase.get_collection_info db)
         = VectorDatabase.document_count (VectorDatabase.get_collection_info self)
           + List.length documents
      /\ exists entries,
           VectorDatabase.collection db = (VectorDatabase.collection self ++ entries)%list
           /\ Forall2 (Indexing.stored_as encode) documents entries
  end.
Proof.
  pose proof (add_documents_run encode self documents) as H.
  destruct (VectorDatabase.add_documents encode self documents) as [e|db]; [exact H|].
  destruct H as (Hn & entries & Hc & Hall). split; [exact Hn|]. split; [|eauto].
  cbn. unfold VectorDatabase.collection_count. rewrite Hc, length_app.
  now rewrite (Forall2_length Hall).
Qed.

(** ** The chunk records *)

Section Chunks.
Import Py DocumentProcessor.
Variable set_order : list string -> list string.

Lemma str_of_nat_injective (n m : nat) : str_of_nat n = str_of_nat m -> n = m.
Proof.
  unfold str_of_nat. intros H.
  assert (Hu : Some (Nat.to_uint n) = Some (Nat.to_uint m))
    by (rewrite <- !NilEmpty.usu, H; reflexivity).
  injection Hu as Hu. now apply DecimalNat.Unsigned.to_uint_inj.
Qed.

Lemma chunk_id_injective (n m : nat) :
  ("chunk_" ++ str_of_nat n = "chunk_" ++ str_of_nat m)%string -> n = m.
Proof. cbn. intros H. injection H as H. now apply str_of_nat_injective. Qed.

Lemma map_injective_NoDup {A B : Type} (f : A -> B) (l : list A) :
  (forall x y, f x = f y -> x = y) -> NoDup l -> NoDup (map f l).
Proof.
  intros Hf Hl. induction Hl as [|x l Hx Hl IH]; cbn; constructor; [|exact IH].
  intros Hin. apply in_map_iff in Hin. destruct Hin as (y & Hy & Hin).
  apply Hf in Hy. now subst.
Qed.

Lemma process_chunks_nth (chunks : list string) :
  forall i j chunk,
    nth_error chunks j = Some chunk ->
    nth_error (process_chunks set_order i chunks) j
    = Some (process_chunk set_order (i + j) chunk).
Proof.
  induction chunks as [|c chunks IH]; intros i [|j] chunk H; cbn in H |- *;
    try discriminate.
  - injection H as ->. now rewrite Nat.add_0_r.
  - rewrite (IH (S i) j chunk H). f_equal. f_equal. lia.
Qed.

Lemma process_chunks_length (chunks : list string) (i : nat) :
  List.length (process_chunks set_order i chunks) = List.length chunks.
Proof. revert i. induction chunks as [|c chunks IH]; intros i; cbn; [|rewrite IH]; auto. Qed.

End Chunks.

(** X10: the chunk records follow the pieces of the splitter one for one: the record at
    position j has the id chunk_j, the index j and the j-th piece as content, typed by
    [_identify_section_type]; no two records share an id. *)
Theorem chunk_ids_sequential (set_order : list string -> list string)
  (split_text : DocumentProcessor.TextSplitter -> string -> list string)
  (read_file : string -> Exn.Exc string) (self : DocumentProcessor.t) (text : string) :
  read_file (DocumentProcessor.document_path self) = inr text ->
  exists chunks,
    DocumentProcessor.process_document set_order split_text read_file self = inr chunks
    /\ List.length chunks
       = List.length (split_text (DocumentProcessor.text_splitter self) text)
    /\ NoDup (map DocumentProcessor.id chunks)
    /\ forall (j : nat) (piece : string),
         nth_error (split_text (DocumentProcessor.text_splitter self) text) j = Some piece ->
         exists chunk,
           nth_error chunks j = Some chunk
           /\ DocumentProcessor.id chunk = "chunk_" ++ Py.str_of_nat j
           /\ DocumentProcessor.chunk_index (DocumentProcessor.metadata chunk) = j
           /\ DocumentProcessor.content chunk = piece
           /\ DocumentProcessor.section_type chunk
              = DocumentProcessor._identify_section_type piece.
Proof.
  intros Hread. unfold DocumentProcessor.process_document. rewrite Hread.
  eexists. split; [reflexivity|]. split; [apply process_chunks_length|]. split.
  - rewrite (proj2 (process_chunks_content set_order _ 0)).
    apply map_injective_NoDup; [|apply seq_NoDup].
    intros n m. apply chunk_id_injective.
  - intros j piece Hj. eexists. split; [apply process_chunks_nth; exact Hj|].
    repeat split.
Qed.

Lemma chunk_ids_sequential_witness :
  exists chunks,
    DocumentProcessor.process_document Demo.set_order Demo.split_text Demo.read_file
      (DocumentProcessor.new "financial_policy_document.txt") = inr chunks
    /\ List.length chunks = 2
    /\ NoDup (map DocumentProcessor.id chunks).
Proof.
  destruct (chunk_ids_sequential Demo.set_order Demo.split_text Demo.read_file
              (DocumentProcessor.new "financial_policy_document.txt") Demo.document eq_refl)
    as (chunks & Hrun & Hlen & Hnodup & _).
  exists chunks. split; [exact Hrun|]. split; [exact Hlen|exact Hnodup].
Defined.


(** ** One question, and a session of questions *)

Section Asking.
Import Exn FinancialChatbot.
Context {Embedding : Type}.
Variable encode : string -> Exc Embedding.
Variable distance : Embedding -> Embedding -> Q.
Variable set_order : list string -> list string.

(** the three ways [ask] ends *)
Lemma ask_run (self : t) (question : string) :
  ask encode distance set_order question self
  = if is_initialized self then
      let enhanced := ConversationMemory.enhance_question (memory self) question in
      match encode enhanced with
      | inl e => (inr (Spec.apology_for (str e)), self)
      | inr emb =>
          let response :=
            _generate_response set_order enhanced
              (map Spec.format_row
                 (VectorDatabase.nearest distance
                    (VectorDatabase.collection (vector_db self)) emb 3)) in
          (inr response,
           set_memory self
             (ConversationMemory.add_interaction (memory self) question response))
      end
    else
      (inr "Chatbot is not properly initialized. Please check the document path."%string,
       self).
Proof.
  destruct (is_initialized self) eqn:Hinit.
  - rewrite ask_converts, ask_body_run by assumption. cbv zeta.
    destruct (encode _); reflexivity.
  - unfold ask, mbind, get, mret. rewrite Hinit. reflexivity.
Qed.

(** what [ask] leaves alone *)
Lemma ask_frame (self : t) (question : string) :
  let after := snd (ask encode distance set_order question self) in
  vector_db after = vector_db self
  /\ is_initialized after = is_initialized self
  /\ processor after = processor self
  /\ document_path after = document_path self
  /\ ConversationMemory.max_history (memory after)
     = ConversationMemory.max_history (memory self)
  /\ (List.length (ConversationMemory.conversation_history (memory self))
      <= ConversationMemory.max_history (memory self) ->
      List.length (ConversationMemory.conversation_history (memory after))
      <= ConversationMemory.max_history (memory self)).
Proof.
  cbv zeta. rewrite ask_run.
  destruct (is_initialized self) eqn:Hinit; [|cbn [snd]; repeat split; auto].
  cbv zeta. destruct (encode _); cbn [snd]; [repeat split; auto|].
  cbn [vector_db is_initialized processor document_path memory set_memory].
  repeat split; auto. apply add_interaction_bounded.
Qed.

Lemma ask_all_cons (question : string) (questions : list string) (self : t) :
  Session.ask_all encode distance set_order (question :: questions) self
  = (fst (ask encode distance set_order question self)
     :: fst (Session.ask_all encode distance set_order questions
               (snd (ask encode distance set_order question self))),
     snd (Session.ask_all encode distance set_order questions
            (snd (ask encode distance set_order question self)))).
Proof.
  cbn [Session.ask_all].
  destruct (ask encode distance set_order question self) as [answer self'].
  cbn [fst snd].
  destruct (Session.ask_all encode distance set_order questions self'). reflexivity.
Qed.

Lemma ask_frames (questions : list string) :
  forall self : t,
    vector_db (snd (Session.ask_all encode distance set_order questions self))
    = vector_db self.
Proof.
  induction questions as [|question questions IH]; intros self; [reflexivity|].
  rewrite ask_all_cons. cbn [snd]. rewrite IH.
  apply (ask_frame self question).
Qed.

End Asking.

(** X11: a successful [ask] records the question as it was typed, with the answer it
    returns: the rewriting done for the search does not reach the memory, so the current
    topic becomes the topic of the typed question; the vector store is left as it was. *)
Theorem ask_records_typed_question {Embedding : Type} (encode : string -> Exn.Exc Embedding)
  (distance : Embedding -> Embedding -> Q) (set_order : list string -> list string)
  (self : FinancialChatbot.t) (question : string) (emb : Embedding) :
  FinancialChatbot.is_initialized self = true ->
  encode (ConversationMemory.enhance_question (FinancialChatbot.memory self) question)
  = inr emb ->
  let after := FinancialChatbot.ask encode distance set_order question self in
  exists response,
    fst after = inr response
    /\ FinancialChatbot.memory (snd after)
       = ConversationMemory.add_interaction (FinancialChatbot.memory self) question response
    /\ ConversationMemory.current_topic (FinancialChatbot.memory (snd after))
       = Some (ConversationMemory._identify_topic question)
    /\ FinancialChatbot.vector_db (snd after) = FinancialChatbot.vector_db self.
Proof.
  intros Hready Henc after. unfold after. rewrite ask_run, Hready. cbv zeta.
  rewrite Henc. eexists. repeat split.
Qed.

Lemma ask_records_typed_question_witness :
  exists response,
    fst (FinancialChatbot.ask Demo.encode Demo.distance Demo.set_order
           "What is the net debt?" Demo.ready) = inr response
    /\ ConversationMemory.current_topic
         (FinancialChatbot.memory
            (snd (FinancialChatbot.ask Demo.encode Demo.distance Demo.set_order
                    "What is the net debt?" Demo.ready)))
       = Some "debt".
Proof.
  destruct (ask_records_typed_question Demo.encode Demo.distance Demo.set_order Demo.ready
              "What is the net debt?" 21 eq_refl eq_refl)
    as (response & Hanswer & _ & Htopic & _).
  exists response. split; [exact Hanswer|exact Htopic].
Defined.

(** X12: on an empty vector store a Ready chatbot answers every question it can encode
    with the fixed sentence that nothing relevant was found, and records the question
    with that sentence. *)
Theorem ask_on_empty_store {Embedding : Type} (encode : string -> Exn.Exc Embedding)
  (distance : Embedding -> Embedding -> Q) (set_order : list string -> list string)
  (self : FinancialChatbot.t) (question : string) (emb : Embedding) :
  FinancialChatbot.is_initialized self = true ->
  VectorDatabase.collection (FinancialChatbot.vector_db self) = [] ->
  encode (ConversationMemory.enhance_question (FinancialChatbot.memory self) question)
  = inr emb ->
  let nothing :=
    "I couldn't find relevant information in the financial policy document for your question." in
  FinancialChatbot.ask encode distance set_order question self
  = (inr nothing,
     FinancialChatbot.set_memory self
       (ConversationMemory.add_interaction (FinancialChatbot.memory self) question nothing)).
Proof.
  intros Hready Hempty Henc nothing. rewrite ask_run, Hready. cbv zeta.
  rewrite Henc, Hempty. unfold VectorDatabase.nearest. cbn [map].
  unfold VectorDatabase.sort_nearest. cbn [fold_right]. rewrite firstn_nil. reflexivity.
Qed.

Lemma ask_on_empty_store_witness :
  fst (FinancialChatbot.ask Demo.encode Demo.distance Demo.set_order "What is the net debt?"
         (FinancialChatbot.set_is_initialized Demo.fresh true))
  = inr "I couldn't find relevant information in the financial policy document for your question.".
Proof.
  exact (f_equal fst
           (ask_on_empty_store Demo.encode Demo.distance Demo.set_order
              (FinancialChatbot.set_is_initialized Demo.fresh true)
              "What is the net debt?" 21 eq_refl eq_refl eq_refl)).
Defined.

(** X13: a session of questions never raises and never touches the index: every call of
    [ask] returns a text, and after any number of calls the vector store, the Ready flag and
    the capacity of the memory are what they were, while the history stays within the
    capacity. *)
Theorem session_keeps_store_and_bound {Embedding : Type}
  (encode : string -> Exn.Exc Embedding) (distance : Embedding -> Embedding -> Q)
  (set_order : list string -> list string)
  (questions : list string) (self : FinancialChatbot.t) :
  let run := Session.ask_all encode distance set_order questions self in
  Forall2 (fun (_ : string) answer => exists text : string, answer = inr text)
    questions (fst run)
  /\ FinancialChatbot.vector_db (snd run) = FinancialChatbot.vector_db self
  /\ FinancialChatbot.is_initialized (snd run) = FinancialChatbot.is_initialized self
  /\ ConversationMemory.max_history (FinancialChatbot.memory (snd run))
     = ConversationMemory.max_history (FinancialChatbot.memory self)
  /\ (List.length (ConversationMemory.conversation_history (FinancialChatbot.memory self))
      <= ConversationMemory.max_history (FinancialChatbot.memory self) ->
      List.length (ConversationMemory.conversation_history
                     (FinancialChatbot.memory (snd run)))
      <= ConversationMemory.max_history (FinancialChatbot.memory self)).
Proof.
  cbv zeta. revert self. induction questions as [|question questions IH]; intros self.
  - cbn. repeat split; auto.
  - rewrite ask_all_cons. cbn [fst snd].
    destruct (ask_frame encode distance set_order self question)
      as (Hdb & Hinit & _ & _ & Hmax & Hbound).
    destruct (IH (snd (FinancialChatbot.ask encode distance set_order question self)))
      as (Hans & Hdb' & Hinit' & Hmax' & Hbound').
    split.
    + constructor; [|exact Hans].
      destruct (ask_returns encode distance set_order self question) as (text & self' & ->).
      exists text. reflexivity.
    + rewrite Hdb', Hinit', Hmax', Hdb, Hinit, Hmax. repeat split.
      intros H. rewrite <- Hmax. apply Hbound'. rewrite Hmax. now apply Hbound.
Qed.

(** X14: a chatbot that is not Ready answers every question with the fixed sentence about
    initialisation and stays as it is: nothing is recorded and the flag is not set by
    asking. *)
Theorem session_not_initialized {Embedding : Type}
  (encode : string -> Exn.Exc Embedding) (distance : Embedding -> Embedding -> Q)
  (set_order : list string -> list string)
  (questions : list string) (self : FinancialChatbot.t) :
  FinancialChatbot.is_initialized self = false ->
  Session.ask_all encode distance set_order questions self
  = (map (fun _ =>
            inr "Chatbot is not properly initialized. Please check the document path.")
       questions,
     self).
Proof.
  intros Hinit. induction questions as [|question questions IH]; [reflexivity|].
  rewrite ask_all_cons, ask_run, Hinit. cbn [fst snd]. rewrite IH. reflexivity.
Qed.

Lemma session_not_initialized_witness :
  Session.ask_all Demo.encode Demo.distance Demo.set_order ["budget?"; "boom"] Demo.fresh
  = ([inr "Chatbot is not properly initialized. Please check the document path.";
      inr "Chatbot is not properly initialized. Please check the document path."],
     Demo.fresh).
Proof.
  exact (session_not_initialized Demo.encode Demo.distance Demo.set_order
           ["budget?"; "boom"] Demo.fresh eq_refl).
Defined.


(** ** Initialisation, step by step *)

Section Initialising.
Import Exn FinancialChatbot.
Context {Embedding : Type}.
Variable encode : string -> Exc Embedding.

Lemma stored_as_columns (documents : list DocumentProcessor.Chunk)
  (entries : list (@VectorDatabase.Entry Embedding)) :
  Forall2 (Indexing.stored_as encode) documents entries ->
  map VectorDatabase.entry_id entries = map DocumentProcessor.id documents
  /\ map VectorDatabase.entry_document entries = map DocumentProcessor.content documents.
Proof.
  induction 1 as [|doc e documents entries (Hid & Hdoc & _) _ (IH1 & IH2)]; cbn;
    [split; reflexivity|].
  now rewrite Hid, Hdoc, IH1, IH2.
Qed.

Lemma first_failure_excluded (documents : list DocumentProcessor.Chunk) (e : exn) :
  Forall (fun piece => exists emb, encode piece = inr emb)
    (map DocumentProcessor.content documents) ->
  Indexing.first_failure encode documents e -> False.
Proof.
  intros Hall (before & doc & after & -> & He & _).
  rewrite Forall_forall in Hall.
  destruct (Hall (DocumentProcessor.content doc)) as (emb & Hemb); [|congruence].
  apply in_map, in_elt.
Qed.

End Initialising.

(** X15: on an empty store, with a readable document whose pieces can all be encoded,
    initialisation succeeds and makes the chatbot Ready: the store then holds exactly one
    tuple per piece of the splitter, in order, with the ids chunk_0, chunk_1, ... and the
    pieces as contents; the memory is not touched. *)
Theorem initialize_indexes_every_piece {Embedding : Type}
  (encode : string -> Exn.Exc Embedding) (set_order : list string -> list string)
  (split_text : DocumentProcessor.TextSplitter -> string -> list string)
  (read_file : string -> Exn.Exc string) (self : FinancialChatbot.t) (text : string) :
  VectorDatabase.collection (FinancialChatbot.vector_db self) = [] ->
  read_file (DocumentProcessor.document_path (FinancialChatbot.processor self)) = inr text ->
  Forall (fun piece => exists emb, encode piece = inr emb)
    (split_text (DocumentProcessor.text_splitter (FinancialChatbot.processor self)) text) ->
  let pieces :=
    split_text (DocumentProcessor.text_splitter (FinancialChatbot.processor self)) text in
  let run := FinancialChatbot._initialize encode set_order split_text read_file self in
  fst run = inr tt
  /\ FinancialChatbot.is_initialized (snd run) = true
  /\ FinancialChatbot.memory (snd run) = FinancialChatbot.memory self
  /\ map VectorDatabase.entry_document
       (VectorDatabase.collection (FinancialChatbot.vector_db (snd run))) = pieces
  /\ map VectorDatabase.entry_id
       (VectorDatabase.collection (FinancialChatbot.vector_db (snd run)))
     = map (fun j => "chunk_" ++ Py.str_of_nat j) (seq 0 (List.length pieces))
  /\ VectorDatabase.document_count
       (VectorDatabase.get_collection_info (FinancialChatbot.vector_db (snd run)))
     = List.length pieces.
Proof.
  intros Hempty Hread Hall pieces run. unfold run. rewrite initialize_run.
  unfold DocumentProcessor.process_document. rewrite Hread. fold pieces.
  cbn [Exn.ret]. cbn [VectorDatabase.get_collection_info VectorDatabase.document_count].
  rewrite Hempty. cbn [VectorDatabase.collection_count List.length Nat.eqb].
  destruct (process_chunks_content set_order pieces 0) as [Hcontent Hids].
  pose proof (add_documents_run encode (FinancialChatbot.vector_db self)
                (DocumentProcessor.process_chunks set_order 0 pieces)) as Hadd.
  destruct (VectorDatabase.add_documents encode (FinancialChatbot.vector_db self)
              (DocumentProcessor.process_chunks set_order 0 pieces)) as [e|db].
  - exfalso.
    apply (first_failure_excluded encode
             (DocumentProcessor.process_chunks set_order 0 pieces) e); [|exact Hadd].
    rewrite Hcontent. exact Hall.
  - destruct Hadd as (_ & entries & Hc & Hstored).
    apply stored_as_columns in Hstored as Hcols. destruct Hcols as [Hi Hd].
    rewrite Hempty in Hc. cbn [app] in Hc.
    cbn [fst snd FinancialChatbot.is_initialized FinancialChatbot.set_is_initialized
           FinancialChatbot.set_vector_db FinancialChatbot.memory
           FinancialChatbot.vector_db].
    rewrite Hc, Hd, Hi, Hcontent, Hids.
    repeat split. unfold VectorDatabase.collection_count.
    rewrite <- (length_map VectorDatabase.entry_document), Hd, Hcontent. reflexivity.
Qed.

Lemma initialize_indexes_every_piece_witness :
  map VectorDatabase.entry_id
    (VectorDatabase.collection (FinancialChatbot.vector_db Demo.ready))
  = ["chunk_0"; "chunk_1"].
Proof.
  refine (eq_trans
            (proj1 (proj2 (proj2 (proj2 (proj2
               (initialize_indexes_every_piece Demo.encode Demo.set_order Demo.split_text
                  Demo.read_file Demo.fresh Demo.document eq_refl eq_refl _))))))
            eq_refl).
  vm_compute. repeat constructor; eexists; reflexivity.
Defined.

(** X16: an initialisation that raises changes nothing: the object, with its store and its
    Ready flag, is left as it was.  A missing document is reported as FileNotFoundError with
    the path, any other reading error as an Exception that quotes its message, and otherwise
    the exception is that of the first piece that could not be encoded. *)
Theorem initialize_failure_keeps_state {Embedding : Type}
  (encode : string -> Exn.Exc Embedding) (set_order : list string -> list string)
  (split_text : DocumentProcessor.TextSplitter -> string -> list string)
  (read_file : string -> Exn.Exc string) (self : FinancialChatbot.t) (e : Exn.exn) :
  fst (FinancialChatbot._initialize encode set_order split_text read_file self) = inl e ->
  let path := DocumentProcessor.document_path (FinancialChatbot.processor self) in
  snd (FinancialChatbot._initialize encode set_order split_text read_file self) = self
  /\ match read_file path with
     | inl (Exn.FileNotFoundError _) =>
         e = Exn.FileNotFoundError ("Document not found: " ++ path)
     | inl other => e = Exn.Exception ("Error processing document: " ++ Exn.str other)
     | inr text =>
         VectorDatabase.collection (FinancialChatbot.vector_db self) = []
         /\ Indexing.first_failure encode
              (DocumentProcessor.process_chunks set_order 0
                 (split_text (DocumentProcessor.text_splitter
                                (FinancialChatbot.processor self)) text)) e
     end.
Proof.
  intros Hfail path. rewrite initialize_run in Hfail |- *.
  unfold DocumentProcessor.process_document in *. fold path in Hfail |- *.
  destruct (read_file path) as [[msg|msg|msg]|text]; cbn in Hfail |- *;
    try (injection Hfail as <-; split; reflexivity).
  destruct (Nat.eqb_spec
              (VectorDatabase.collection_count
                 (VectorDatabase.collection (FinancialChatbot.vector_db self))) 0)
    as [Hzero|_]; [|discriminate].
  pose proof (add_documents_run encode (FinancialChatbot.vector_db self)
                (DocumentProcessor.process_chunks set_order 0
                   (split_text (DocumentProcessor.text_splitter
                                  (FinancialChatbot.processor self)) text))) as Hadd.
  destruct (VectorDatabase.add_documents encode _ _) as [e'|db]; [|discriminate].
  cbn in Hfail. injection Hfail as <-. split; [reflexivity|].
  split; [|exact Hadd]. now apply length_zero_iff_nil.
Qed.

Lemma initialize_failure_keeps_state_witness :
  snd (FinancialChatbot._initialize Demo.encode Demo.set_order Demo.split_text Demo.read_file
         Scenario.misplaced)
  = Scenario.misplaced.
Proof.
  exact (proj1 (initialize_failure_keeps_state Demo.encode Demo.set_order Demo.split_text
                  Demo.read_file Scenario.misplaced
                  (Exn.FileNotFoundError "Document not found: missing.txt") eq_refl)).
Defined.


(** ** What every answer holds *)

Section Answers.
Import Py FinancialChatbot.
Variable set_order : list string -> list string.

Lemma contains_append_r (needle a b : string) :
  contains needle b = true -> contains needle (a ++ b) = true.
Proof.
  intros H. induction a as [|c a IH]; cbn [append contains]; [exact H|].
  rewrite IH. apply orb_true_r.
Qed.

Lemma append_empty_r (s : string) : s ++ "" = s.
Proof. induction s as [|c s IH]; cbn; [reflexivity|now rewrite IH]. Qed.

Lemma contains_self (s : string) : contains s s = true.
Proof.
  apply contains_prefix. rewrite <- (append_empty_r s) at 2. apply prefix_intro.
Qed.

Lemma contains_source_line (sources : list string) (rest : string) :
  contains ("📄 **Source:** " ++ join ", " (set_order sources))
    ("📄 **Source:** " ++ join ", " (set_order sources) ++ rest) = true.
Proof. rewrite <- append_assoc. apply contains_prefix, prefix_intro. Qed.

Lemma render_cites_sources (t : Spec.Template) (content : string) (sources : list string) :
  contains ("📄 **Source:** " ++ join ", " (set_order sources))
    (Spec.render set_order t content sources) = true.
Proof.
  destruct t; cbn [Spec.render];
    unfold _format_budget_response, _format_debt_response, _format_infrastructure_response,
      _format_taxation_response, _format_risk_response, _format_superannuation_response,
      _format_general_response; cbv zeta;
    repeat match goal with
           | |- contains _ ("📄 **Source:** " ++ join _ _ ++ _) = true =>
               apply contains_source_line
           | |- contains _ ("📄 **Source:** " ++ join _ _) = true => apply contains_self
           | |- contains _ (_ ++ _) = true => apply contains_append_r
           end.
Qed.

(** the bullets of the general template *)
Lemma fold_left_bullets (sentences : list string) (acc : string) :
  Forall (fun s => Nat.ltb 30 (len (strip s)) = true) sentences ->
  fold_left
    (fun response sentence =>
       if Nat.ltb 20 (len (strip sentence))
       then response ++ "• " ++ strip sentence ++ "." ++ nl
       else response)
    sentences acc
  = acc ++ String.concat "" (map (fun s => "• " ++ strip s ++ "." ++ nl) sentences).
Proof.
  intros H. revert acc. induction H as [|s sentences Hs _ IH]; intros acc;
    cbn [fold_left map].
  - cbn. now rewrite append_empty_r.
  - assert (H20 : Nat.ltb 20 (len (strip s)) = true).
    { apply Nat.ltb_lt in Hs. apply Nat.ltb_lt. lia. }
    rewrite H20, IH, !append_assoc. f_equal. f_equal.
    destruct sentences as [|s' sentences]; cbn [map String.concat];
      [now rewrite !append_empty_r|].
    rewrite !append_assoc. reflexivity.
Qed.

Lemma firstn_filter_Forall {A : Type} (p : A -> bool) (n : nat) (l : list A) :
  Forall (fun x => p x = true) (firstn n (filter p l)).
Proof.
  apply firstn_Forall. apply Forall_forall. intros x Hx. now apply filter_In in Hx.
Qed.

End Answers.

(** X17: whatever template renders it, an answer built from search results cites its
    sources: it contains the source line, made of the distinct section labels of the results
    joined by commas. *)
Theorem answer_cites_sources (set_order : list string -> list string) (question : string)
  (result : VectorDatabase.SearchResult) (results : list VectorDatabase.SearchResult) :
  let sources :=
    map (fun r => "Section: " ++ VectorDatabase.section_type (VectorDatabase.metadata r))
      (result :: results) in
  Py.contains ("📄 **Source:** " ++ Py.join ", " (set_order sources))
    (FinancialChatbot._generate_response set_order question (result :: results)) = true.
Proof.
  intros sources. cbn [FinancialChatbot._generate_response].
  rewrite create_contextual_response_dispatch. apply render_cites_sources.
Qed.

(** X18: the general template lists at most three sentences: the first three pieces of the
    retrieved text, cut at ". ", whose stripped length exceeds 30, each as a bullet with a
    final point; the second length test of the loop (more than 20) never removes one. *)
Theorem general_response_bullets (set_order : list string -> list string)
  (content : string) (sources : list string) :
  let relevant :=
    firstn 3 (filter (fun s => Nat.ltb 30 (Py.len (Py.strip s))) (Py.split ". " content)) in
  FinancialChatbot._format_general_response set_order content sources
  = "Based on the financial policy document:" ++ Py.nl ++ Py.nl
    ++ String.concat ""
         (map (fun s => "• " ++ Py.strip s ++ "." ++ Py.nl) relevant)
    ++ Py.nl ++ "📄 **Source:** " ++ Py.join ", " (set_order sources)
  /\ List.length relevant <= 3
  /\ Forall (fun s => 30 < Py.len (Py.strip s)) relevant.
Proof.
  intros relevant. unfold FinancialChatbot._format_general_response. cbv zeta.
  fold relevant.
  pose proof (firstn_filter_Forall (fun s => Nat.ltb 30 (Py.len (Py.strip s))) 3
                (Py.split ". " content)) as Hrel.
  fold relevant in Hrel. split; [|split].
  - rewrite (fold_left_bullets relevant "" Hrel). reflexivity.
  - unfold relevant. apply firstn_le_length.
  - eapply Forall_impl; [|exact Hrel]. intros s Hs. now apply Nat.ltb_lt.
Qed.


(** ** The command-line loop *)

Section Looping.
Import Py Exn Cli Typed.
Context {Embedding : Type}.
Variable encode : string -> Exc Embedding.
Variable distance : Embedding -> Embedding -> Q.
Variable set_order : list string -> list string.

Lemma loop_final (lines : list string) :
  forall chatbot : @FinancialChatbot.t Embedding,
    snd (fst (loop encode distance set_order chatbot lines))
    = snd (Session.ask_all encode distance set_order (questions_of lines) chatbot)
    /\ snd (loop encode distance set_order chatbot lines)
       = if existsb is_quit lines then Returned else EndOfInput.
Proof.
  induction lines as [|line lines IH]; intros chatbot; [split; reflexivity|].
  cbn [loop questions_of existsb]. unfold is_quit.
  destruct (lower (strip line) =? "quit"); [split; reflexivity|].
  destruct (lower (strip line) =? "summary").
  { destruct (IH chatbot) as [H1 H2].
    destruct (loop encode distance set_order chatbot lines) as [[events c] out].
    cbn [fst snd orb] in *. now split. }
  destruct (strip line =? "").
  { destruct (IH chatbot) as [H1 H2].
    destruct (loop encode distance set_order chatbot lines) as [[events c] out].
    cbn [fst snd orb] in *. now split. }
  rewrite ask_all_cons. cbn [snd orb].
  destruct (ask_returns encode distance set_order chatbot (strip line))
    as (answer & chatbot' & Hask).
  rewrite Hask. cbn [snd].
  destruct (IH chatbot') as [H1 H2].
  destruct (loop encode distance set_order chatbot' lines) as [[events c] out].
  cbn [fst snd] in *. now split.
Qed.

Lemma loop_stops_at_quit (before : list string) (line : string) (after : list string) :
  is_quit line = true ->
  forall chatbot : @FinancialChatbot.t Embedding,
    loop encode distance set_order chatbot (before ++ line :: after)%list
    = loop encode distance set_order chatbot (before ++ [line])%list.
Proof.
  intros Hquit. unfold is_quit in Hquit.
  induction before as [|l before IH]; intros chatbot; cbn [app loop].
  - rewrite Hquit. reflexivity.
  - destruct (lower (strip l) =? "quit"); [reflexivity|].
    destruct (lower (strip l) =? "summary"); [now rewrite IH|].
    destruct (strip l =? ""); [now rewrite IH|].
    destruct (FinancialChatbot.ask encode distance set_order (strip l) chatbot)
      as [[e|response] chatbot']; [reflexivity|now rewrite IH].
Qed.

End Looping.

(** X19: the command-line loop hands to [ask] exactly the typed lines, stripped, that are
    neither blank nor the commands summary and quit, in order and up to the first quit: the
    chatbot it leaves is the one those questions leave.  The loop returns when a quit was
    typed and otherwise ends on the end of the input; no exception of [ask] escapes it. *)
Theorem loop_asks_typed_questions {Embedding : Type} (encode : string -> Exn.Exc Embedding)
  (distance : Embedding -> Embedding -> Q) (set_order : list string -> list string)
  (chatbot : FinancialChatbot.t) (lines : list string) :
  snd (fst (Cli.loop encode distance set_order chatbot lines))
  = snd (Session.ask_all encode distance set_order (Typed.questions_of lines) chatbot)
  /\ snd (Cli.loop encode distance set_order chatbot lines)
     = (if existsb Typed.is_quit lines then Cli.Returned else Cli.EndOfInput)
  /\ FinancialChatbot.vector_db (snd (fst (Cli.loop encode distance set_order chatbot lines)))
     = FinancialChatbot.vector_db chatbot.
Proof.
  destruct (loop_final encode distance set_order lines chatbot) as [H1 H2].
  split; [exact H1|]. split; [exact H2|]. rewrite H1.
  pose proof (ask_frames encode distance set_order (Typed.questions_of lines) chatbot) as H.
  exact H.
Qed.

(** X20: whatever is typed after a quit, in any letter case and with blanks around it, is
    never read: the loop prints and does the same as if the input ended there, the farewell
    being its last line. *)
Theorem loop_ignores_after_quit {Embedding : Type} (encode : string -> Exn.Exc Embedding)
  (distance : Embedding -> Embedding -> Q) (set_order : list string -> list string)
  (chatbot : FinancialChatbot.t) (before : list string) (line : string)
  (after : list string) :
  Py.lower (Py.strip line) = "quit" ->
  let run := Cli.loop encode distance set_order chatbot (before ++ line :: after)%list in
  run = Cli.loop encode distance set_order chatbot (before ++ [line])%list
  /\ snd run = Cli.Returned
  /\ last (fst (fst run)) (Cli.Prompt "")
     = Cli.Print "Thank you for using the Financial Policy Chatbot!".
Proof.
  intros Hquit run.
  assert (Hq : Typed.is_quit line = true) by (unfold Typed.is_quit; now rewrite Hquit).
  assert (Hrun : run = Cli.loop encode distance set_order chatbot (before ++ [line])%list)
    by (apply loop_stops_at_quit; exact Hq).
  split; [exact Hrun|]. rewrite Hrun. clear run Hrun. split.
  - rewrite (proj2 (loop_final encode distance set_order _ chatbot)).
    rewrite existsb_app. cbn. rewrite Hq. now rewrite orb_true_r.
  - revert chatbot. induction before as [|l before IH]; intros chatbot; cbn [app Cli.loop].
    + rewrite Hquit. reflexivity.
    + destruct (Py.lower (Py.strip l) =? "quit"); [reflexivity|].
      assert (Hne : forall c, fst (fst (Cli.loop encode distance set_order c
                                          (before ++ [line])%list)) <> []).
      { intros c. destruct before; cbn [app Cli.loop].
        - rewrite Hquit. discriminate.
        - destruct (Py.lower (Py.strip s) =? "quit"); [discriminate|].
          destruct (Py.lower (Py.strip s) =? "summary");
            [destruct (Cli.loop _ _ _ _ _) as [[? ?] ?]; discriminate|].
          destruct (Py.strip s =? "");
            [destruct (Cli.loop _ _ _ _ _) as [[? ?] ?]; discriminate|].
          destruct (FinancialChatbot.ask _ _ _ _ _) as [[?|?] ?]; [discriminate|].
          destruct (Cli.loop _ _ _ _ _) as [[? ?] ?]; discriminate. }
      destruct (Py.lower (Py.strip l) =? "summary").
      { specialize (IH chatbot). specialize (Hne chatbot).
        destruct (Cli.loop encode distance set_order chatbot (before ++ [line])%list)
          as [[events c] out]. cbn [fst] in *.
        destruct events as [|ev events]; [now destruct Hne|exact IH]. }
      destruct (Py.strip l =? "").
      { specialize (IH chatbot). specialize (Hne chatbot).
        destruct (Cli.loop encode distance set_order chatbot (before ++ [line])%list)
          as [[events c] out]. cbn [fst] in *.
        destruct events as [|ev events]; [now destruct Hne|exact IH]. }
      destruct (ask_returns encode distance set_order chatbot (Py.strip l))
        as (answer & chatbot' & Hask).
      rewrite Hask. specialize (IH chatbot'). specialize (Hne chatbot').
      destruct (Cli.loop encode distance set_order chatbot' (before ++ [line])%list)
        as [[events c] out]. cbn [fst] in *.
      destruct events as [|ev events]; [now destruct Hne|exact IH].
Qed.

Lemma loop_ignores_after_quit_witness :
  snd (Cli.loop Demo.encode Demo.distance Demo.set_order Demo.ready
         ["What is the net debt?"; "  QUIT "; "never read"])
  = Cli.Returned.
Proof.
  exact (proj1 (proj2 (loop_ignores_after_quit Demo.encode Demo.distance Demo.set_order
                         Demo.ready ["What is the net debt?"] "  QUIT " ["never read"]
                         eq_refl))).
Defined.


(** ** The conversation summary and the entry point *)

Section Summaries.
Import Py ConversationMemory.

Lemma context_after_records (N : nat) (qrs : list (string * string)) (q r : string) :
  let context := get_context (Spec.record_all (new (S N)) (qrs ++ [(q, r)])%list) in
  history_length context = Nat.min (S N) (S (List.length qrs))
  /\ ctx_current_topic context = _identify_topic q
  /\ recent_topics context
     = last_n (Nat.min 3 (S N))
         (map (fun qr => _identify_topic (fst qr)) (qrs ++ [(q, r)])%list)
  /\ recent_topics context <> [].
Proof.
  intros context.
  assert (Hh : conversation_history (Spec.record_all (new (S N)) (qrs ++ [(q, r)])%list)
               = last_n (S N) (map Spec.interaction_of (qrs ++ [(q, r)])%list)).
  { rewrite record_all_history by (cbn; lia). reflexivity. }
  assert (Hr : recent_topics context
               = last_n (Nat.min 3 (S N))
                   (map (fun qr => _identify_topic (fst qr)) (qrs ++ [(q, r)])%list)).
  { unfold context. cbn [get_context recent_topics].
    rewrite Hh, last_n_last_n, last_n_map, map_map. reflexivity. }
  split; [|split; [|split; [exact Hr|]]].
  - unfold context. cbn [get_context history_length].
    rewrite Hh, last_n_length, length_map, length_app. cbn [List.length]. f_equal. lia.
  - unfold context. cbn [get_context ctx_current_topic].
    rewrite record_all_current_topic. cbn [truthy].
    destruct (String.eqb_spec (_identify_topic q) "") as [E|_];
      [now apply identify_topic_not_empty in E|reflexivity].
  - rewrite Hr. intros E. apply (f_equal (@List.length string)) in E.
    rewrite last_n_length, length_map, length_app in E. cbn [List.length] in E. lia.
Qed.

End Summaries.

(** X21: once a question has been recorded the summary reports, as the total of questions
    asked, the number of interactions still held, which stops growing at the capacity of the
    memory; as current topic the capitalised topic of the latest question; and as recent
    topics those of the last three questions held, in the order of the set built from them.
    A memory that was cleared, or never used, gives the no-history message. *)
Theorem summary_counts_held_questions {Embedding : Type}
  (set_order : list string -> list string) (self : @FinancialChatbot.t Embedding)
  (N : nat) (qrs : list (string * string)) (q r : string) :
  let m := Spec.record_all (ConversationMemory.new (S N)) (qrs ++ [(q, r)])%list in
  FinancialChatbot.get_conversation_summary set_order (FinancialChatbot.set_memory self m)
  = "Conversation Summary:" ++ Py.nl
    ++ "• Total questions asked: "
    ++ Py.str_of_nat (Nat.min (S N) (S (List.length qrs))) ++ Py.nl
    ++ "• Current topic: " ++ Py.title (ConversationMemory._identify_topic q) ++ Py.nl
    ++ "• Recent topics: "
    ++ Py.join ", "
         (set_order
            (Py.last_n (Nat.min 3 (S N))
               (map (fun qr => ConversationMemory._identify_topic (fst qr))
                  (qrs ++ [(q, r)])%list)))
    ++ Py.nl
  /\ FinancialChatbot.get_conversation_summary set_order
       (FinancialChatbot.set_memory self (ConversationMemory.clear_history m))
     = "No conversation history yet. Feel free to ask about the financial policy!".
Proof.
  intros m. split; [|reflexivity].
  destruct (context_after_records N qrs q r) as (Hn & Ht & Hr & Hne).
  fold m in Hn, Ht, Hr, Hne.
  unfold FinancialChatbot.get_conversation_summary.
  replace (FinancialChatbot.memory (FinancialChatbot.set_memory self m)) with m
    by (destruct self; reflexivity).
  rewrite Hn, Ht, topic_name_verbatim.
  assert (Hz : Nat.eqb (Nat.min (S N) (S (List.length qrs))) 0 = false)
    by (apply Nat.eqb_neq; lia).
  rewrite Hz.
  destruct (ConversationMemory.recent_topics (ConversationMemory.get_context m))
    as [|t ts] eqn:E; [now destruct Hne|].
  rewrite <- Hr.
  rewrite !append_assoc. reflexivity.
Qed.

Section EntryPoint.
Import Py Exn Cli Typed.
Context {Embedding : Type}.
Variable encode : string -> Exc Embedding.
Variable distance : Embedding -> Embedding -> Q.
Variable set_order : list string -> list string.
Variable split_text : DocumentProcessor.TextSplitter -> string -> list string.
Variable read_file : string -> Exc string.


End EntryPoint.



(** ** The streamed display of an answer *)

Section Streaming.
Import Py StreamlitApp Typed.

Lemma prefix_trans (a b c : string) :
  prefix a b = true -> prefix b c = true -> prefix a c = true.
Proof.
  intros Hab Hbc.
  apply prefix_append in Hab. destruct Hab as (x & ->).
  apply prefix_append in Hbc. destruct Hbc as (y & ->).
  rewrite append_assoc. apply prefix_intro.
Qed.

Lemma append_not_empty (a b : string) : a <> "" -> a ++ b <> "".
Proof. destruct a; [intros H; now destruct H|discriminate]. Qed.

(** the text shown for a sentence extends the text shown before it *)
Lemma stream_step (last_sentence sentence displayed_text : string) :
  shown sentence = true ->
  let shown_text :=
    let displayed_text :=
      if negb (displayed_text =? "") then displayed_text ++ ". " ++ sentence
      else sentence in
    if negb (sentence =? last_sentence)
       && negb (any (fun suffix => endswith suffix sentence) ["."; "!"; "?"; ":"])
    then displayed_text ++ "."
    else displayed_text in
  prefix displayed_text shown_text = true /\ shown_text <> "".
Proof.
  intros Hs shown_text. unfold shown_text.
  assert (Hne : sentence <> "").
  { intros ->. discriminate Hs. }
  destruct (String.eqb_spec displayed_text "") as [->|Hd]; cbn [negb].
  - destruct (_ && _); (split; [apply (prefix_intro "")|]);
      [now apply append_not_empty|exact Hne].
  - destruct (_ && _).
    + split; [rewrite append_assoc; apply prefix_intro|].
      now apply append_not_empty, append_not_empty.
    + split; [apply prefix_intro|now apply append_not_empty].
Qed.

Lemma stream_frames_grow (last_sentence : string) (sentences : list string) :
  forall displayed_text,
    let frames := stream_frames last_sentence sentences displayed_text in
    Forall (fun frame => prefix displayed_text frame = true /\ frame <> "") frames
    /\ grows frames = true
    /\ List.length frames = List.length (filter shown sentences).
Proof.
  induction sentences as [|sentence sentences IH]; intros displayed_text;
    [repeat split; constructor|].
  cbn [stream_frames filter]. fold (shown sentence).
  destruct (shown sentence) eqn:Hs; [|apply IH].
  destruct (stream_step last_sentence sentence displayed_text Hs) as [Hp Hne].
  cbv zeta in Hp, Hne.
  set (shown_text := if negb (sentence =? last_sentence) && _ then _ else _) in *.
  destruct (IH shown_text) as (Hall & Hgrow & Hlen).
  cbv zeta in Hall, Hgrow, Hlen.
  split; [|split].
  - constructor; [now split|].
    eapply Forall_impl; [|exact Hall].
    intros frame [H1 H2]. split; [eapply prefix_trans; eassumption|exact H2].
  - cbn [grows].
    destruct (stream_frames last_sentence sentences shown_text) as [|frame frames];
      [reflexivity|].
    inversion Hall as [|? ? [H1 _] _]; subst. now rewrite H1.
  - cbn [List.length]. now rewrite Hlen.
Qed.

(** the first piece of a split is followed by the separator in the text *)
Lemma split_first_piece (sep s : string) :
  forall piece piece' pieces,
    split sep s = piece :: piece' :: pieces ->
    prefix (piece ++ sep) s = true.
Proof.
  unfold split. induction s as [|c s IH]; intros piece piece' pieces H;
    [discriminate H|].
  cbn [split_from] in H.
  destruct (prefix sep (String c s)) eqn:Hp.
  - injection H as <- _. exact Hp.
  - destruct (split_from sep 0 s) as [|p ps] eqn:Hs; [discriminate H|].
    injection H as <- Hps. subst ps.
    cbn [append prefix].
    destruct (ascii_dec c c) as [_|N]; [|now destruct N].
    exact (IH p piece' pieces eq_refl).
Qed.

Lemma prefix_cancel (a b c : string) : prefix (a ++ b) (a ++ c) = prefix b c.
Proof.
  induction a as [|x a IH]; [reflexivity|].
  cbn [append prefix]. destruct (ascii_dec x x) as [_|N]; [exact IH|now destruct N].
Qed.

End Streaming.

(** X23: [stream_response] returns the answer it was given and ends the display with it;
    before that it shows one text per sentence that is not blank, none of them empty and
    each one extending the one before. *)
Theorem stream_response_frames (response_text : string) :
  let frames := fst (StreamlitApp.stream_response response_text) in
  snd (StreamlitApp.stream_response response_text) = response_text
  /\ last frames "" = response_text
  /\ List.length frames
     = S (List.length (filter Typed.shown (Py.split ". " response_text)))
  /\ Typed.grows (removelast frames) = true
  /\ Forall (fun frame => frame <> "") (removelast frames).
Proof.
  intros frames. unfold frames, StreamlitApp.stream_response. cbn [fst snd].
  set (sentences := Py.split ". " response_text).
  destruct (stream_frames_grow (last sentences "") sentences "") as (Hall & Hgrow & Hlen).
  cbv zeta in Hall, Hgrow, Hlen.
  split; [reflexivity|]. split; [apply last_last|].
  split; [rewrite length_app, Hlen; cbn [List.length]; lia|].
  rewrite removelast_last. split; [exact Hgrow|].
  eapply Forall_impl; [|exact Hall]. now intros frame [_ H].
Qed.

(** X24: the display doubles the full stop between sentences.  When the answer splits at
    ". " into at least two pieces, the first two are not blank, and the first neither ends
    in punctuation nor equals the last piece, the first text shown is the first sentence
    with a full stop, still a prefix of the answer, and the second one continues it with a
    second full stop before the blank.  From the second one on, no text shown before the
    final one is a prefix of the answer: the display does not grow into the answer. *)
Theorem stream_response_doubles_full_stop (response_text s1 s2 : string)
  (rest : list string) :
  Py.split ". " response_text = s1 :: s2 :: rest ->
  Typed.shown s1 = true ->
  Typed.shown s2 = true ->
  (s1 =? last (s2 :: rest) "") = false ->
  Py.any (fun suffix => Py.endswith suffix s1) ["."; "!"; "?"; ":"] = false ->
  exists ending later,
    fst (StreamlitApp.stream_response response_text)
    = (s1 ++ ".") :: (s1 ++ ".. " ++ s2 ++ ending) :: (later ++ [response_text])%list
    /\ (ending = "" \/ ending = ".")
    /\ prefix (s1 ++ ".") response_text = true
    /\ prefix (s1 ++ ".. " ++ s2 ++ ending) response_text = false
    /\ Forall (fun shown_text => prefix shown_text response_text = false) later.
Proof.
  intros Hsplit H1 H2 Hlast Hpunct.
  pose proof (split_first_piece ". " response_text s1 s2 rest Hsplit) as Hfirst.
  apply prefix_append in Hfirst. destruct Hfirst as (tail & Htext).
  rewrite append_assoc in Htext.
  assert (Hnot : forall ending,
             prefix (s1 ++ ".. " ++ s2 ++ ending) response_text = false).
  { intros ending. rewrite Htext. rewrite prefix_cancel. reflexivity. }
  assert (Hlater : forall ending frames,
             Forall (fun frame => prefix (s1 ++ ".. " ++ s2 ++ ending) frame = true
                                  /\ frame <> "") frames ->
             Forall (fun shown_text => prefix shown_text response_text = false) frames).
  { intros ending frames Hall. eapply Forall_impl; [|exact Hall].
    intros frame [Hp _]. cbv beta.
    destruct (prefix frame response_text) eqn:E; [|reflexivity].
    rewrite <- (Hnot ending). symmetry. exact (prefix_trans _ _ _ Hp E). }
  unfold StreamlitApp.stream_response. rewrite Hsplit. cbn [fst].
  change (last (s1 :: s2 :: rest) "") with (last (s2 :: rest) "").
  set (l := last (s2 :: rest) "") in *.
  cbn [StreamlitApp.stream_frames].
  unfold Typed.shown in H1, H2. rewrite H1, H2, Hlast, Hpunct.
  change ("" =? "") with true. cbn [negb andb].
  assert (Hne : (s1 ++ "." =? "") = false).
  { destruct s1; reflexivity. }
  rewrite Hne. cbn [negb].
  assert (Hp1 : prefix (s1 ++ ".") response_text = true).
  { rewrite Htext. rewrite prefix_cancel. reflexivity. }
  destruct (negb (s2 =? l) && _).
  - exists ".".
    destruct (stream_frames_grow l rest (((s1 ++ ".") ++ ". " ++ s2) ++ "."))
      as (Hall & _ & _). cbv zeta in Hall.
    replace (((s1 ++ ".") ++ ". " ++ s2) ++ ".") with (s1 ++ ".. " ++ s2 ++ ".") in *
      by (rewrite !append_assoc; reflexivity).
    eexists. split; [reflexivity|]. split; [now right|]. split; [exact Hp1|].
    split; [apply Hnot|]. exact (Hlater "." _ Hall).
  - exists "".
    destruct (stream_frames_grow l rest ((s1 ++ ".") ++ ". " ++ s2))
      as (Hall & _ & _). cbv zeta in Hall.
    replace ((s1 ++ ".") ++ ". " ++ s2) with (s1 ++ ".. " ++ s2 ++ "") in *
      by (rewrite !append_assoc, append_empty_r; reflexivity).
    eexists. split; [reflexivity|]. split; [now left|]. split; [exact Hp1|].
    split; [apply Hnot|]. exact (Hlater "" _ Hall).
Qed.

Lemma stream_response_doubles_full_stop_witness :
  exists ending later,
    fst (StreamlitApp.stream_response "Net debt is low. Revenue grew. Done")
    = "Net debt is low."
      :: ("Net debt is low.. Revenue grew" ++ ending)
      :: (later ++ ["Net debt is low. Revenue grew. Done"])%list
    /\ (ending = "" \/ ending = ".")
    /\ prefix "Net debt is low." "Net debt is low. Revenue grew. Done" = true
    /\ prefix ("Net debt is low.. Revenue grew" ++ ending)
         "Net debt is low. Revenue grew. Done" = false
    /\ Forall (fun shown_text =>
                 prefix shown_text "Net debt is low. Revenue grew. Done" = false) later.
Proof.
  exact (stream_response_doubles_full_stop "Net debt is low. Revenue grew. Done"
           "Net debt is low" "Revenue grew" ["Done"] eq_refl eq_refl eq_refl eq_refl
           eq_refl).
Defined.


(** ** The three keyword classifications *)

Section Labels.
Import Py.

Lemma keyword_score_zero (keywords : list string) (text_lower : string) :
  ConversationMemory.keyword_score keywords text_lower = 0 ->
  Forall (fun keyword => contains keyword text_lower = false) keywords.
Proof.
  unfold ConversationMemory.keyword_score.
  induction keywords as [|k keywords IH]; cbn [filter]; intros H; [constructor|].
  destruct (contains k text_lower) eqn:Hk; [discriminate H|].
  constructor; [exact Hk|exact (IH H)].
Qed.

(** a text that lacks a word lacks every phrase that starts with it *)
Lemma contains_longer (word more hay : string) :
  contains word hay = false -> contains (word ++ more) hay = false.
Proof.
  intros H. destruct (contains (word ++ more) hay) eqn:E; [|reflexivity].
  apply contains_occurrence in E. destruct E as (pre & post & ->).
  rewrite append_assoc, contains_intro in H. discriminate H.
Qed.

(** no keyword of any topic occurs in a text classed as general *)
Lemma general_topic_keywords (text : string) :
  ConversationMemory._identify_topic text = "general" ->
  Forall (fun item =>
            Forall (fun keyword => contains keyword (lower text) = false) (snd item))
    ConversationMemory.topic_keywords.
Proof.
  intros H.
  destruct (identify_topic_first_max text)
    as [[_ Hzero]|(before & t & after & Ht & Hid & _)].
  - unfold Spec.topics, ConversationMemory.topic_keywords in *.
    cbn [dict_keys map fst] in Hzero.
    repeat match goal with
           | Hz : Forall _ (_ :: _) |- _ => inversion Hz; subst; clear Hz
           end.
    repeat (apply Forall_cons;
            [cbn [snd]; apply keyword_score_zero; assumption|]).
    apply Forall_nil.
  - exfalso. rewrite H in Hid. subst t.
    assert (Hin : In "general" Spec.topics) by (rewrite Ht; apply in_elt).
    cbn in Hin. repeat destruct Hin as [Hin|Hin]; try discriminate Hin. exact Hin.
Qed.

End Labels.

(** X26: the three keyword classifications agree on a text they do not recognise: a text
    whose conversation topic is "general" holds none of the topic keywords, so it selects
    the general answer template, and as a piece of the document its section type is
    "general" too, unless it holds the phrase "operating result", which makes it a
    "budget" section. *)
Theorem general_topic_general_template (text : string) :
  ConversationMemory._identify_topic text = "general" ->
  Spec.select_template text = Spec.General
  /\ (DocumentProcessor._identify_section_type text = "general"
      \/ (DocumentProcessor._identify_section_type text = "budget"
          /\ Py.contains "operating result" (Py.lower text) = true)).
Proof.
  intros H. apply general_topic_keywords in H.
  unfold ConversationMemory.topic_keywords in H.
  repeat match goal with
         | Hz : Forall _ (_ :: _) |- _ => inversion Hz; subst; clear Hz
         end.
  cbn [snd] in *.
  repeat match goal with
         | Hz : Forall _ (_ :: _) |- _ => inversion Hz; subst; clear Hz
         end.
  repeat match goal with
         | Hz : Forall _ [] |- _ => clear Hz
         end.
  assert (Hic : Py.contains "interest cost" (Py.lower text) = false)
    by (apply (contains_longer "interest" " cost"); assumption).
  assert (Htb : Py.contains "tax burden" (Py.lower text) = false)
    by (apply (contains_longer "tax" " burden"); assumption).
  split.
  - unfold Spec.select_template, Spec.template_rules, Spec.mentions_any, Py.any.
    cbn [find fst snd existsb].
    repeat match goal with
           | Hc : Py.contains ?k (Py.lower text) = false |- _ => rewrite Hc; clear Hc
           end.
    reflexivity.
  - unfold DocumentProcessor._identify_section_type, Py.any. cbn [existsb].
    destruct (Py.contains "operating result" (Py.lower text)) eqn:Hop.
    + right. split; [|reflexivity].
      repeat match goal with
             | Hc : Py.contains ?k (Py.lower text) = false |- _ => rewrite Hc; clear Hc
             end.
      reflexivity.
    + left.
      repeat match goal with
             | Hc : Py.contains ?k (Py.lower text) = false |- _ => rewrite Hc; clear Hc
             end.
      reflexivity.
Qed.

Lemma general_topic_general_template_witness :
  Spec.select_template "What was the operating result?" = Spec.General
  /\ (DocumentProcessor._identify_section_type "What was the operating result?" = "general"
      \/ (DocumentProcessor._identify_section_type "What was the operating result?"
          = "budget"
          /\ Py.contains "operating result" (Py.lower "What was the operating result?")
             = true)).
Proof.
  apply (general_topic_general_template "What was the operating result?").
  vm_compute. reflexivity.
Defined.
